(** * The daily brief pipeline: fetch feeds, build a prompt, summarise, mail

    A shallow embedding of the three handlers of the repository

    - [src/pages/api/daily-brief.ts]            (module [DailyBrief]),
    - [src/unnamed/part_000], first document     (module [MarketsBrief]),
    - [src/unnamed/part_000], second document    (module [HuntBrief]),

    over a small model of the JavaScript runtime they rely on: strings of
    UTF-16 code units, IEEE 754 binary64 numbers, JSON values, exceptions,
    the console, and the network as an oracle. *)

From Stdlib Require Import ZArith NArith List Bool Lia.
From Stdlib Require Import Permutation Sorted.
From Stdlib Require Import SpecFloat.
From Stdlib Require Strings.Byte.
Import ListNotations.
Local Open Scope Z_scope.

(** ** Strings

    A JavaScript string is a sequence of UTF-16 code units: its [length] is
    the length of the list, [s[i]] is its [i]-th unit, and strings are
    compared unit by unit. *)

Notation string := (list N) (only parsing).

(** *** Literals

    A literal between double quotes stands for the code units of its
    characters: the text of this file is UTF-8, which [Utf8.decode] reads. *)

Module Utf8.

Definition continuation (b : N) : option N :=
  if ((128 <=? b) && (b <? 192))%N then Some (b - 128)%N else None.

(** The code units of a code point: itself, or a surrogate pair. *)
Definition units (cp : N) : list N :=
  if (cp <? 65536)%N then [cp]
  else let c := (cp - 65536)%N in [(55296 + c / 1024)%N; (56320 + c mod 1024)%N].

Fixpoint decode (fuel : nat) (l : list N) : option (list N) :=
  match fuel with
  | O => match l with [] => Some [] | _ => None end
  | S fuel' =>
      match l with
      | [] => Some []
      | b :: r =>
          if (b <? 128)%N then option_map (cons b) (decode fuel' r)
          else if ((192 <=? b) && (b <? 224))%N then
            match r with
            | b1 :: r' =>
                match continuation b1 with
                | Some c1 =>
                    option_map (app (units ((b - 192) * 64 + c1)%N)) (decode fuel' r')
                | None => None
                end
            | _ => None
            end
          else if ((224 <=? b) && (b <? 240))%N then
            match r with
            | b1 :: b2 :: r' =>
                match continuation b1, continuation b2 with
                | Some c1, Some c2 =>
                    option_map (app (units ((b - 224) * 4096 + c1 * 64 + c2)%N))
                               (decode fuel' r')
                | _, _ => None
                end
            | _ => None
            end
          else if ((240 <=? b) && (b <? 248))%N then
            match r with
            | b1 :: b2 :: b3 :: r' =>
                match continuation b1, continuation b2, continuation b3 with
                | Some c1, Some c2, Some c3 =>
                    option_map
                      (app (units ((b - 240) * 262144 + c1 * 4096 + c2 * 64 + c3)%N))
                      (decode fuel' r')
                | _, _, _ => None
                end
            | _ => None
            end
          else None
      end
  end.

Inductive Units : Set := UNil | UCons (c : N) (r : Units).

Fixpoint to_units (s : list N) : Units :=
  match s with
  | [] => UNil
  | c :: r => UCons c (to_units r)
  end.

Definition parse (bytes : list Byte.byte) : option Units :=
  option_map to_units (decode (List.length bytes) (map Strings.Byte.to_N bytes)).

(** Printing, for the strings of ASCII characters. *)
Fixpoint print (u : Units) : option (list Byte.byte) :=
  match u with
  | UNil => Some []
  | UCons c r =>
      if (c <? 128)%N then
        match Strings.Byte.of_N c, print r with
        | Some b, Some bs => Some (b :: bs)
        | _, _ => None
        end
      else None
  end.

End Utf8.

Definition literal : Type := list N.

Declare Scope js_string_scope.
Delimit Scope js_string_scope with str.
#[local] Set Warnings "-via-type-remapping,-via-type-mismatch".
String Notation literal Utf8.parse Utf8.print
  (via Utf8.Units mapping [[nil] => Utf8.UNil, [cons] => Utf8.UCons]) : js_string_scope.
#[local] Set Warnings "via-type-remapping,via-type-mismatch".
Open Scope js_string_scope.

(** *** Comparisons *)

Module Str.

(** [s === t] *)
Fixpoint eqb (s t : string) : bool :=
  match s, t with
  | [], [] => true
  | a :: s', b :: t' => N.eqb a b && eqb s' t'
  | _, _ => false
  end.

(** The order of [<] on strings, and of the default [sort]: the first unit
    that differs decides, and a proper prefix comes first. *)
Fixpoint compare (s t : string) : comparison :=
  match s, t with
  | [], [] => Eq
  | [], _ :: _ => Lt
  | _ :: _, [] => Gt
  | a :: s', b :: t' =>
      match N.compare a b with
      | Eq => compare s' t'
      | c => c
      end
  end.

Definition leb (s t : string) : bool :=
  match compare s t with
  | Gt => false
  | _ => true
  end.

Definition ltb (s t : string) : bool :=
  match compare s t with
  | Lt => true
  | _ => false
  end.

End Str.

Definition nl : string := [10%N].

Fixpoint join (sep : string) (l : list string) : string :=
  match l with
  | [] => ""
  | [x] => x
  | x :: rest => x ++ sep ++ join sep rest
  end.

Fixpoint startsWith (p s : string) : bool :=
  match p, s with
  | [], _ => true
  | a :: p', b :: s' => N.eqb a b && startsWith p' s'
  | _ :: _, [] => false
  end.

(** [s.split(sep)[0]] for a non-empty separator: the part of [s] before the
    first occurrence of [sep], all of [s] when there is none. *)
Fixpoint split_head (sep s : string) : string :=
  match s with
  | [] => []
  | c :: s' => if startsWith sep s then [] else c :: split_head sep s'
  end.

(** The decimal digits of an integer, as ToString prints a number that is
    an integer below 10^21. *)
Fixpoint digits (d : Decimal.uint) : string :=
  match d with
  | Decimal.Nil => []
  | Decimal.D0 d' => 48%N :: digits d'
  | Decimal.D1 d' => 49%N :: digits d'
  | Decimal.D2 d' => 50%N :: digits d'
  | Decimal.D3 d' => 51%N :: digits d'
  | Decimal.D4 d' => 52%N :: digits d'
  | Decimal.D5 d' => 53%N :: digits d'
  | Decimal.D6 d' => 54%N :: digits d'
  | Decimal.D7 d' => 55%N :: digits d'
  | Decimal.D8 d' => 56%N :: digits d'
  | Decimal.D9 d' => 57%N :: digits d'
  end.

Definition Z_to_string (z : Z) : string :=
  match Z.to_int z with
  | Decimal.Pos d => digits d
  | Decimal.Neg d => "-" ++ digits d
  end.

(** ** Numbers

    A JavaScript number is an IEEE 754 binary64 value: [spec_float] with 53
    bits of precision and exponents below 1024, with the arithmetic of the
    Standard Library's [SpecFloat]. *)

Module Number.

Definition prec : Z := 53.
Definition emax : Z := 1024.

Definition t := spec_float.

Definition NaN : t := S754_nan.
Definition sub : t -> t -> t := SFsub prec emax.
Definition mul : t -> t -> t := SFmul prec emax.
Definition div : t -> t -> t := SFdiv prec emax.

(** The number nearest to [(-1)^neg * m * 10^e], ties to even: the value
    of a decimal literal in ECMAScript (rounded exactly, as V8 does, also when
    it has more than 20 significant digits, where the standard leaves the
    choice between two neighbours to the engine). *)
Definition of_decimal (neg : bool) (m : Z) (e : Z) : t :=
  match m with
  | Z0 => S754_zero neg
  | Zneg _ => S754_nan
  | Zpos p =>
      match e with
      | Z0 => binary_round prec emax neg p 0
      | Zpos k => binary_round prec emax neg (p * Pos.pow 10 k) 0
      | Zneg k =>
          SFdiv prec emax (S754_finite neg p 0)
                (S754_finite false (Pos.pow 10 k) 0)
      end
  end.

Definition of_Z (z : Z) : t := binary_normalize prec emax z 0 false.

(** ToBoolean of a number: false for +0, -0 and NaN. *)
Definition truthy (x : t) : bool :=
  match x with
  | S754_zero _ | S754_nan => false
  | _ => true
  end.

(** *** parseFloat *)

Definition isDigit (c : N) : bool := ((48 <=? c) && (c <=? 57))%N.

Definition digitVal (c : N) : Z := Z.of_N c - 48.

(** StrWhiteSpaceChar: the white space and the line terminators of
    ECMAScript (TAB, LF, VT, FF, CR, SP, NBSP, the other space separators
    of Unicode, LS, PS and ZWNBSP). *)
Definition isWhiteSpace (c : N) : bool :=
  (((9 <=? c) && (c <=? 13)) || (c =? 32) || (c =? 160) || (c =? 5760) ||
   ((8192 <=? c) && (c <=? 8202)) || (c =? 8232) || (c =? 8233) ||
   (c =? 8239) || (c =? 8287) || (c =? 12288) || (c =? 65279))%N.

Fixpoint trimStart (s : string) : string :=
  match s with
  | c :: s' => if isWhiteSpace c then trimStart s' else s
  | [] => s
  end.

(** The longest run of decimal digits at the head of [s]: the value of
    [acc] followed by them, how many there were, and what is left. *)
Fixpoint readDigits (s : string) (acc : Z) (cnt : nat) : Z * nat * string :=
  match s with
  | c :: s' =>
      if isDigit c then readDigits s' (10 * acc + digitVal c) (S cnt)
      else (acc, cnt, s)
  | [] => (acc, cnt, s)
  end.

Definition readSign (s : string) : bool * string :=
  match s with
  | 45%N :: r => (true, r)    (* - *)
  | 43%N :: r => (false, r)   (* + *)
  | _ => (false, s)
  end.

(** ExponentPart, when [s] starts with a well-formed one; 0 otherwise. *)
Definition readExponent (s : string) : Z :=
  match s with
  | c :: r =>
      if ((c =? 101) || (c =? 69))%N then   (* e, E *)
        let '(eneg, r1) := readSign r in
        let '(ev, ne, _) := readDigits r1 0 0 in
        if (ne =? 0)%nat then 0 else if eneg then - ev else ev
      else 0
  | [] => 0
  end.

(** [parseFloat] on a string: leading white space is skipped, the longest
    prefix that is a StrDecimalLiteral is read, NaN when there is none. *)
Definition parseFloat (input : string) : t :=
  let '(neg, s) := readSign (trimStart input) in
  if startsWith "Infinity" s then S754_infinity neg else
  let '(ip, ni, s1) := readDigits s 0 0 in
  let '(m, nf, s2) :=
    match s1 with
    | 46%N :: r => readDigits r ip 0   (* . *)
    | _ => (ip, O, s1)
    end in
  if (ni + nf =? 0)%nat then NaN
  else of_decimal neg m (readExponent s2 - Z.of_nat nf).

(** *** toFixed *)

Fixpoint zeros (n : nat) : string :=
  match n with
  | O => ""
  | S n' => 48%N :: zeros n'
  end.

(** The digits of [n >= 0] with a point before the last [f] of them. *)
Definition fixedDigits (n : Z) (f : nat) : string :=
  let m := Z_to_string n in
  let m := zeros (S f - List.length m) ++ m in
  let k := List.length m in
  match f with
  | O => m
  | _ => firstn (k - f) m ++ "." ++ skipn (k - f) m
  end.

(** The integer [n] for which [n / 10^f] is nearest to [m * 2^e], the
    larger one when two are as near. *)
Definition nearestScaled (m : positive) (e : Z) (f : nat) : Z :=
  let scaled := Z.pos m * 10 ^ Z.of_nat f in
  match e with
  | Zneg k => (2 * scaled + 2 ^ Z.pos k) / 2 ^ (Z.pos k + 1)
  | _ => scaled * 2 ^ e
  end.

(** [m * 2^e >= 10^21] *)
Definition atLeast1e21 (m : positive) (e : Z) : bool :=
  match e with
  | Zneg k => 10 ^ 21 * 2 ^ Z.pos k <=? Z.pos m
  | _ => 10 ^ 21 <=? Z.pos m * 2 ^ e
  end.

Section Printing.

(** Number::toString on a positive finite number [m * 2^e] (the shortest
    decimal that reads back as the same number) belongs to the
    runtime. *)
Variable finiteToString : positive -> Z -> string.

Definition toString (x : t) : string :=
  match x with
  | S754_nan => "NaN"
  | S754_infinity false => "Infinity"
  | S754_infinity true => "-Infinity"
  | S754_zero _ => "0"
  | S754_finite s m e =>
      (if s then "-" else "") ++ finiteToString m e
  end.

(** Number.prototype.toFixed(f) *)
Definition toFixed (x : t) (f : nat) : string :=
  match x with
  | S754_finite s m e =>
      (if s then "-" else "") ++
      (if atLeast1e21 m e then finiteToString m e
       else fixedDigits (nearestScaled m e f) f)
  | S754_zero _ => fixedDigits 0 f
  | _ => toString x
  end.

End Printing.

End Number.

(** ** JSON values

    What [response.json()] resolves to.  A JavaScript value that may also be
    [undefined] is an [option JSON], [None] standing for [undefined].  The
    fields of an object are kept in the order of their creation; a key's
    first binding in the list is the property. *)

#[local] Set Warnings "-register-all".
Inductive JSON : Type :=
| JNull
| JBool (b : bool)
| JNum (x : Number.t)
| JStr (s : string)
| JArr (items : list JSON)
| JObj (fields : list (string * JSON)).

Definition Value := option JSON.
Definition undefined : Value := None.

Fixpoint assoc {A : Type} (key : string) (l : list (string * A)) : option A :=
  match l with
  | [] => None
  | (k, v) :: rest => if Str.eqb k key then Some v else assoc key rest
  end.

Fixpoint dedup (l : list string) : list string :=
  match l with
  | [] => []
  | k :: rest =>
      k :: filter (fun k' => negb (Str.eqb k k')) (dedup rest)
  end.

(** The array index a property key names, when it is a canonical one below
    [len]. *)
Definition indexOfKey (key : string) (len : nat) : option nat :=
  find (fun i => Str.eqb (Z_to_string (Z.of_nat i)) key) (seq 0 len).

(** ToBoolean *)
Definition truthy (v : Value) : bool :=
  match v with
  | None | Some JNull => false
  | Some (JBool b) => b
  | Some (JNum x) => Number.truthy x
  | Some (JStr s) => negb (Str.eqb s "")
  | Some (JArr _) | Some (JObj _) => true
  end.

(** [a || b] *)
Definition or_else (a b : Value) : Value := if truthy a then a else b.

(** The own property [key] of a value that is neither [null] nor
    [undefined]; properties inherited from the prototypes are left out (no
    key the handlers read names one). *)
Definition ownProperty (v : JSON) (key : string) : Value :=
  match v with
  | JObj fields => assoc key fields
  | JArr items =>
      if Str.eqb key "length" then
        Some (JNum (Number.of_Z (Z.of_nat (List.length items))))
      else match indexOfKey key (List.length items) with
           | Some i => nth_error items i
           | None => None
           end
  | JStr s =>
      if Str.eqb key "length" then
        Some (JNum (Number.of_Z (Z.of_nat (List.length s))))
      else match indexOfKey key (List.length s) with
           | Some i => option_map (fun c => JStr [c]) (nth_error s i)
           | None => None
           end
  | _ => None
  end.

(** [Object.keys(v)] up to the order of enumeration, which every caller
    discards by sorting. *)
Definition Object_keys (v : JSON) : list string :=
  match v with
  | JObj fields => dedup (map fst fields)
  | JArr items =>
      map (fun i => Z_to_string (Z.of_nat i)) (seq 0 (List.length items))
  | JStr s =>
      map (fun i => Z_to_string (Z.of_nat i)) (seq 0 (List.length s))
  | _ => []
  end.

(** ** Exceptions *)

(** What a [throw] or a rejected promise carries. *)
Inductive Exn : Type :=
| Error (message : string)
| NotAnError (v : Value).

(** The TypeErrors of the runtime; the text of their messages is the
    engine's, here V8's. *)
Definition TypeError (what : string) : Exn :=
  Error ("Cannot read properties of " ++ what).

Definition notAFunction (callee : string) : Exn :=
  Error (callee ++ " is not a function").

Definition notPrimitive : Exn :=
  Error "Cannot convert object to primitive value".

Inductive Result (A : Type) : Type :=
| Ok (a : A)
| Throw (e : Exn).
Arguments Ok {A} a.
Arguments Throw {A} e.

Section ToString.

Variable finiteToString : positive -> Z -> string.

(** ToString, as a template literal applies it to a JSON value.  An array
    prints its elements joined by commas, [null] as nothing.  An object
    prints as [[object Object]] through [Object.prototype.toString], unless
    it has a property [toString] of its own: a value of JSON is not
    callable, nor is [valueOf] of any help then, and the conversion throws a
    TypeError. *)
Fixpoint JSON_toString (v : JSON) : Result string :=
  match v with
  | JNull => Ok "null"
  | JBool true => Ok "true"
  | JBool false => Ok "false"
  | JNum x => Ok (Number.toString finiteToString x)
  | JStr s => Ok s
  | JArr items =>
      match
        (fix elements (l : list JSON) : Result (list string) :=
           match l with
           | [] => Ok []
           | e :: rest =>
               match (match e with
                      | JNull => Ok ""
                      | _ => JSON_toString e
                      end) with
               | Ok s =>
                   match elements rest with
                   | Ok ss => Ok (s :: ss)
                   | Throw x => Throw x
                   end
               | Throw x => Throw x
               end
           end) items
      with
      | Ok ss => Ok (join "," ss)
      | Throw x => Throw x
      end
  | JObj fields =>
      match assoc "toString" fields with
      | Some _ => Throw notPrimitive
      | None => Ok "[object Object]"
      end
  end.

Definition Value_toString (v : Value) : Result string :=
  match v with
  | None => Ok "undefined"
  | Some j => JSON_toString j
  end.

(** The global [parseFloat]: its argument is first converted to a
    string. *)
Definition parseFloat (v : Value) : Result Number.t :=
  match Value_toString v with
  | Ok s => Ok (Number.parseFloat s)
  | Throw e => Throw e
  end.

End ToString.

(** ** Arrays *)

(** [Array.prototype.slice(start, end)], with the relative indices of
    ECMAScript: a negative index counts from the end, and both are clamped
    to the array. *)
Definition relativeIndex (i : Z) (len : Z) : Z :=
  if i <? 0 then Z.max (len + i) 0 else Z.min i len.

Definition slice {A : Type} (l : list A) (start : Z) (stop : option Z) : list A :=
  let len := Z.of_nat (List.length l) in
  let k := relativeIndex start len in
  let final := match stop with
               | None => len
               | Some e => relativeIndex e len
               end in
  firstn (Z.to_nat (Z.max (final - k) 0)) (skipn (Z.to_nat k) l).

(** [Array.prototype.sort()] with the default comparison, on strings: code
    unit order. *)
Fixpoint insert_sorted (x : string) (l : list string) : list string :=
  match l with
  | [] => [x]
  | y :: rest =>
      if Str.leb x y then x :: l else y :: insert_sorted x rest
  end.

Definition sort (l : list string) : list string :=
  fold_right insert_sorted [] l.

(** ** The console and the network *)

Record Request : Type := {
  url : string;
  method : string;
  headers : list (string * string);
  body : option string
}.

Definition GET (u : string) : Request :=
  {| url := u; method := "GET"; headers := []; body := None |}.

(** A response: reading its body as text or as JSON may reject. *)
Record Response : Type := {
  ok : bool;
  status : Z;
  statusText : string;
  text : Result string;
  json : Result JSON
}.

(** *** The feed documents of xml2js, as the handlers type them *)

Record FeedItem : Type := {
  title : option (list string);
  description : option (list string);
  link : option (list string);
  pubDate : option (list string)
}.

Record Channel : Type := { item : option (list FeedItem) }.
Record Rss : Type := { channel : option (list Channel) }.
Record RSSFeed : Type := { rss : option Rss }.

(** What [parseStringPromise] resolves to: a document, or [null] when the
    text holds no element (an empty body, white space). *)
Definition Parsed : Type := option RSSFeed.

(** *** The chat completion API *)

Record ChatMessage : Type := { role : string; content : option string }.

Record ChatParams : Type := {
  model : string;
  messages : list ChatMessage;
  temperature : Number.t;
  max_tokens : Z
}.

Record Choice : Type := { message : ChatMessage }.
Record ChatCompletion : Type := { choices : list Choice }.

(** *** The world outside the handler

    Every answer the handler gets from outside, and the functions of the
    runtime that are not modelled here. *)

Record World : Type := {
  env : string -> option string;
  fetch : Request -> Result Response;
  parseStringPromise : string -> Result Parsed;
  chat_completions_create : ChatParams -> Result ChatCompletion;
  (** the clock's [n]-th reading, in milliseconds *)
  clock : nat -> Z;
  finiteToString : positive -> Z -> string;
  JSON_stringify : JSON -> string;
  toISOString : Z -> string;
  toLocaleDateString : string -> Z -> string
}.

Inductive Level : Type := LOG | ERROR.

Inductive Printed : Type :=
| PStr (s : string)
| PExn (e : Exn)
| PVal (v : Value).

(** What an invocation leaves behind: the console, the requests sent, the
    completions asked for, and how often the clock was read. *)
Record State : Type := {
  console : list (Level * list Printed);
  requests : list Request;
  chats : list ChatParams;
  ticks : nat
}.

Definition initial : State :=
  {| console := []; requests := []; chats := []; ticks := O |}.

(** *** Computations

    An [async] function is a computation that ends with a value or a thrown
    exception and a new state.  The promises of one [Promise.all] are run
    one after the other, in the order they are created: each request gets
    the same answer whatever the interleaving, and only the order of the
    entries in the console and of the requests differs. *)

Definition M (A : Type) : Type := State -> Result A * State.

Definition ret {A : Type} (a : A) : M A := fun st => (Ok a, st).

Definition throw {A : Type} (e : Exn) : M A := fun st => (Throw e, st).

Definition bind {A B : Type} (m : M A) (k : A -> M B) : M B :=
  fun st =>
    match m st with
    | (Ok a, st') => k a st'
    | (Throw e, st') => (Throw e, st')
    end.

Definition try_catch {A : Type} (m : M A) (handler : Exn -> M A) : M A :=
  fun st =>
    match m st with
    | (Ok a, st') => (Ok a, st')
    | (Throw e, st') => handler e st'
    end.

(** An awaited promise that is already settled. *)
Definition settled {A : Type} (r : Result A) : M A := fun st => (r, st).

Declare Scope js_scope.
Delimit Scope js_scope with js.
Notation "x <- m ;; k" := (bind m (fun x => k))
  (at level 61, m at next level, right associativity) : js_scope.
Notation "m ;;; k" := (bind m (fun _ => k))
  (at level 61, right associativity) : js_scope.
Notation "' pat <- m ;; k" := (bind m (fun x => let 'pat := x in k))
  (at level 61, pat pattern, m at next level, right associativity) : js_scope.
Local Open Scope js_scope.

Definition console_log (args : list Printed) : M unit :=
  fun st =>
    (Ok tt, {| console := console st ++ [(LOG, args)];
               requests := requests st;
               chats := chats st;
               ticks := ticks st |}).

Definition console_error (args : list Printed) : M unit :=
  fun st =>
    (Ok tt, {| console := console st ++ [(ERROR, args)];
               requests := requests st;
               chats := chats st;
               ticks := ticks st |}).

(** [Promise.all] of two computations: both run, and the first rejection,
    if any, is the outcome. *)
Definition both {A B : Type} (ma : M A) (mb : M B) : M (A * B) :=
  fun st =>
    let '(ra, st1) := ma st in
    let '(rb, st2) := mb st1 in
    match ra, rb with
    | Ok a, Ok b => (Ok (a, b), st2)
    | Throw e, _ => (Throw e, st2)
    | _, Throw e => (Throw e, st2)
    end.

Section Runtime.

Variable w : World.

Definition fetch_ (req : Request) : M Response :=
  fun st =>
    (fetch w req, {| console := console st;
                     requests := requests st ++ [req];
                     chats := chats st;
                     ticks := ticks st |}).

Definition create_ (params : ChatParams) : M ChatCompletion :=
  fun st =>
    (chat_completions_create w params,
     {| console := console st;
        requests := requests st;
        chats := chats st ++ [params];
        ticks := ticks st |}).

(** [Date.now()], and the time value of [new Date()]. *)
Definition Date_now : M Z :=
  fun st =>
    (Ok (clock w (ticks st)),
     {| console := console st;
        requests := requests st;
        chats := chats st;
        ticks := S (ticks st) |}).

(** An environment variable in a template literal. *)
Definition interpolate (v : option string) : string :=
  match v with
  | Some s => s
  | None => "undefined"
  end.

(** [v[key]]: a TypeError on [null] and [undefined]. *)
Definition get (v : Value) (key : string) : M Value :=
  match v with
  | None => throw (TypeError ("undefined (reading '" ++ key ++ "')"))
  | Some JNull => throw (TypeError ("null (reading '" ++ key ++ "')"))
  | Some j => ret (ownProperty j key)
  end.

(** [({ key }) => ...] applied to an element of a JSON array: a TypeError
    on [null]. *)
Definition destructure (v : JSON) (key : string) : M Value :=
  match v with
  | JNull =>
      throw (Error ("Cannot destructure property '" ++ key ++
                    "' of 'object null' as it is null."))
  | _ => ret (ownProperty v key)
  end.

(** [v?.[key]] *)
Definition get_opt (v : Value) (key : string) : Value :=
  match v with
  | None | Some JNull => undefined
  | Some j => ownProperty j key
  end.

(** [expr.toFixed(digits)], where [expr] has the value [v]: a TypeError
    unless [v] is a number. *)
Definition call_toFixed (expr : string) (v : Value) (digits : nat) : M string :=
  match v with
  | Some (JNum x) => ret (Number.toFixed (finiteToString w) x digits)
  | None => throw (TypeError "undefined (reading 'toFixed')")
  | Some JNull => throw (TypeError "null (reading 'toFixed')")
  | Some _ => throw (notAFunction (expr ++ ".toFixed"))
  end.

(** [${v}] in a template literal. *)
Definition toString_ (v : Value) : M string :=
  settled (Value_toString (finiteToString w) v).

(** [parseFloat(v)] *)
Definition parseFloat_ (v : Value) : M Number.t :=
  settled (parseFloat (finiteToString w) v).

(** *** fetchAndParseRSS, the same in the three handlers *)

Definition fetchAndParseRSS (u : string) : M (list FeedItem) :=
  try_catch
    (response <- fetch_ (GET u) ;;
     xml <- settled (text response) ;;
     result <- settled (parseStringPromise w xml) ;;
     (* result.rss?.channel?.[0]?.item || [] *)
     match result with
     | None => throw (TypeError "null (reading 'rss')")
     | Some doc =>
         ret (match rss doc with
              | Some r =>
                  match channel r with
                  | Some (c :: _) =>
                      match item c with
                      | Some items => items
                      | None => []
                      end
                  | _ => []
                  end
              | None => []
              end)
     end)
    (fun error =>
       console_error [PStr ("Error fetching RSS from " ++ u ++ ":"); PExn error] ;;;
       ret []).

End Runtime.

(** ** What the handlers share *)

Definition dquote : string := [34%N].

(** [field?.[0]] on an optional array of strings. *)
Definition first (field : option (list string)) : option string :=
match field with
| Some (x :: _) => Some x
| _ => None
end.

(** [v || fallback] on an optional string: the fallback replaces
    [undefined] and the empty string. *)
Definition or_default (v : option string) (fallback : string) : string :=
match v with
| Some s => if Str.eqb s "" then fallback else s
| None => fallback
end.

(** The line of an item where the handler prints its link. *)
Definition renderWithLink (it : FeedItem) : string :=
or_default (first (title it)) "No title" ++ " (" ++
or_default (first (link it)) "No link" ++ ") - " ++
or_default (first (description it)) "No description".

(** The line of an item where the handler leaves its link out. *)
Definition renderWithoutLink (it : FeedItem) : string :=
or_default (first (title it)) "No title" ++ " - " ++
or_default (first (description it)) "No description".

(** [feed.slice(0, 10).map(render).join("\n")] *)
Definition summarize (render : FeedItem -> string) (feed : list FeedItem) : string :=
join nl (map render (slice feed 0 (Some 10))).

(** [Promise.all] of the five collectors: all of them run, and the outcome
    is the first rejection if there is one. *)
Definition Promise_all5 {A B C D E : Type}
  (ma : M A) (mb : M B) (mc : M C) (md : M D) (me : M E) : M (A * B * C * D * E) :=
fun st =>
  match both (both (both (both ma mb) mc) md) me st with
  | (Ok (a, b, c, d, e), st') => (Ok (a, b, c, d, e), st')
  | (Throw e, st') => (Throw e, st')
  end.

Definition Promise_all4 {A B C D : Type}
  (ma : M A) (mb : M B) (mc : M C) (md : M D) : M (A * B * C * D) :=
fun st =>
  match both (both (both ma mb) mc) md st with
  | (Ok (a, b, c, d), st') => (Ok (a, b, c, d), st')
  | (Throw e, st') => (Throw e, st')
  end.

(** What the handler answers: [res.status(code).json(payload)]. *)
Record Reply : Type := { code : Z; payload : JSON }.

Definition fallbackBrief : string := "Failed to generate brief".
Definition marketPlaceholder : string := "Market data unavailable".
Definition resendUrl : string := "https://api.resend.com/emails".

Section Shared.

Variable w : World.

(** [completion.choices[0].message.content || "Failed to generate brief"] *)
Definition briefOf (completion : ChatCompletion) : M string :=
match choices completion with
| c :: _ => ret (or_default (content (message c)) fallbackBrief)
| [] => throw (TypeError "undefined (reading 'message')")
end.

(** The request to the chat completion API, the same in the three
    handlers. *)
Definition askModel (prompt : string) : M ChatCompletion :=
create_ w {| model := "gpt-4o-mini";
             messages := [ {| role := "user"; content := Some prompt |} ];
             temperature := Number.of_decimal false 7 (-1);
             max_tokens := 1500 |}.

(** The exported function, the same in the three handlers but for the
    [buildBrief] and [sendEmail] it calls. *)
Definition handlerOf (buildBrief : M string) (sendEmail : string -> M unit)
  (reqMethod : string) : M Reply :=
if negb (Str.eqb reqMethod "POST") then
  ret {| code := 405; payload := JObj [("error", JStr "Method not allowed")] |}
else
  try_catch
    (console_log [PStr "Starting daily brief generation..."] ;;;
     brief <- buildBrief ;;
     console_log [PStr "Brief generated, sending email..."] ;;;
     sendEmail brief ;;;
     console_log [PStr "Daily brief sent successfully"] ;;;
     now <- Date_now w ;;
     ret {| code := 200;
            payload := JObj [("success", JBool true);
                             ("message", JStr "Daily brief sent successfully");
                             ("timestamp", JStr (toISOString w now))] |})
    (fun error =>
       console_error [PStr "Error in daily brief cron job:"; PExn error] ;;;
       ret {| code := 500;
              payload := JObj [("error", JStr "Failed to send daily brief");
                               ("details",
                                JStr (match error with
                                      | Error msg => msg
                                      | NotAnError _ => "Unknown error"
                                      end))] |}).

Definition globalQuoteUrl (symbol : string) : string :=
"https://www.alphavantage.co/query?function=GLOBAL_QUOTE&symbol=" ++ symbol ++
"&apikey=" ++ interpolate (env w "ALPHA_VANTAGE_API_KEY").

Definition exchangeRateUrl : string :=
"https://www.alphavantage.co/query?function=CURRENCY_EXCHANGE_RATE&from_currency=BTC&to_currency=USD&apikey=" ++
interpolate (env w "ALPHA_VANTAGE_API_KEY").

(** [quote[section]?.[field] || "N/A"] *)
Definition fieldOrNA (quote : JSON) (section field : string) : M Value :=
q <- get (Some quote) section ;;
ret (or_else (get_opt q field) (Some (JStr "N/A"))).

(** The Alpha Vantage GLOBAL_QUOTE collector of the two handlers of
    [src/unnamed/part_000]. *)
Definition fetchGlobalQuotes : M string :=
try_catch
  (res1 <- fetch_ w (GET (globalQuoteUrl "^GSPC")) ;;
   sp500 <- settled (json res1) ;;
   res2 <- fetch_ w (GET (globalQuoteUrl "^IXIC")) ;;
   nasdaq <- settled (json res2) ;;
   res3 <- fetch_ w (GET exchangeRateUrl) ;;
   bitcoin <- settled (json res3) ;;
   sp500Price <- fieldOrNA sp500 "Global Quote" "05. price" ;;
   sp500Change <- fieldOrNA sp500 "Global Quote" "10. change percent" ;;
   nasdaqPrice <- fieldOrNA nasdaq "Global Quote" "05. price" ;;
   nasdaqChange <- fieldOrNA nasdaq "Global Quote" "10. change percent" ;;
   bitcoinPrice <- fieldOrNA bitcoin "Realtime Currency Exchange Rate" "5. Exchange Rate" ;;
   p1 <- toString_ w sp500Price ;;
   c1 <- toString_ w sp500Change ;;
   p2 <- toString_ w nasdaqPrice ;;
   c2 <- toString_ w nasdaqChange ;;
   p3 <- toString_ w bitcoinPrice ;;
   ret ("Market snapshot: S&P 500: " ++ p1 ++ " (" ++ c1 ++
        "), Nasdaq: " ++ p2 ++ " (" ++ c2 ++
        "), Bitcoin: $" ++ p3))
  (fun error =>
     console_error [PStr "Error fetching market data:"; PExn error] ;;;
     ret marketPlaceholder).

(** The rendering of the Product Hunt answer, the same where the handler has
    that collector: [data.data.posts.edges.map(...).join("\n")]. *)
Definition renderPost (edge : JSON) : M string :=
node <- destructure edge "node" ;;
name <- get node "name" ;;
name <- toString_ w name ;;
u <- get node "url" ;;
u <- toString_ w u ;;
tagline <- get node "tagline" ;;
tagline <- toString_ w tagline ;;
votes <- get node "votesCount" ;;
votes <- toString_ w votes ;;
ret (name ++ " (" ++ u ++ ") - " ++ tagline ++ " (Votes: " ++ votes ++ ")").

Fixpoint mapM {A B : Type} (f : A -> M B) (l : list A) : M (list B) :=
match l with
| [] => ret []
| x :: rest => y <- f x ;; ys <- mapM f rest ;; ret (y :: ys)
end.

Definition productHuntQuery (after before : string) : string :=
"query { posts(first: 10, order: VOTES, postedAfter: " ++ dquote ++ after ++ dquote ++
", postedBefore: " ++ dquote ++ before ++ dquote ++
") { edges { node { name tagline url votesCount } } } }".

(** [fetchProductHuntPosts] from the request on; the handlers differ in the
    window they ask for. *)
Definition productHuntPosts (after before : string) : M string :=
response <- fetch_ w
  {| url := "https://api.producthunt.com/v2/api/graphql";
     method := "POST";
     headers := [("Authorization", "Bearer " ++ interpolate (env w "PRODUCT_HUNT_API_KEY"));
                 ("Content-Type", "application/json")];
     body := Some (JSON_stringify w
                     (JObj [("query", JStr (productHuntQuery after before))])) |} ;;
data <- settled (json response) ;;
errors <- get (Some data) "errors" ;;
(if truthy errors then
   console_error [PStr "Product Hunt API errors:"; PVal errors] ;;;
   throw (Error ("Product Hunt API error: " ++
                 match errors with
                 | Some e => JSON_stringify w e
                 | None => "undefined"
                 end))
 else ret tt) ;;;
d <- get (Some data) "data" ;;
posts <- get d "posts" ;;
edges <- get posts "edges" ;;
match edges with
| Some (JArr es) => rendered <- mapM renderPost es ;; ret (join nl rendered)
| None => throw (TypeError "undefined (reading 'map')")
| Some JNull => throw (TypeError "null (reading 'map')")
| Some _ => throw (notAFunction "data.data.posts.edges.map")
end.

(** The request [sendEmail] sends; the handlers differ in the subject and in
    the fields that carry the brief. *)
Definition emailRequest (apiKey : option string) (subject : string)
  (bodyFields : list (string * JSON)) : Request :=
{| url := resendUrl;
   method := "POST";
   headers := [("Authorization", "Bearer " ++ interpolate apiKey);
               ("Content-Type", "application/json")];
   body := Some (JSON_stringify w
             (JObj ([("from", JStr "Daily Brief <on@resend.dev>");
                     ("to", JArr [JStr "alhait.omar@gmail.com"]);
                     ("subject", JStr subject)]
                    ++ bodyFields))) |}.

(** [sendEmail], but for the subject and the fields of the brief. *)
Definition deliver (apiKey : option string) (subjectPrefix : string)
  (bodyFields : list (string * JSON)) : M unit :=
try_catch
  (today <- Date_now w ;;
   response <- fetch_ w
     (emailRequest apiKey (subjectPrefix ++ toLocaleDateString w "en-US" today) bodyFields) ;;
   (if negb (ok response) then
      errorData <- settled (json response) ;;
      msg <- get (Some errorData) "message" ;;
      shown <- toString_ w (or_else msg (Some (JStr (statusText response)))) ;;
      throw (Error ("Resend API error: " ++ shown))
    else ret tt) ;;;
   console_log [PStr "Email sent successfully"])
  (fun error =>
     console_error [PStr "Error sending email:"; PExn error] ;;;
     throw error).

End Shared.

(** ** [src/pages/api/daily-brief.ts] *)

Module DailyBrief.

Record Quote : Type := { price : Number.t; changePercent : string }.

Section Handler.

Variable w : World.

Definition timeSeriesUrl (symbol : string) : string :=
"https://www.alphavantage.co/query?function=TIME_SERIES_DAILY&symbol=" ++ symbol ++
"&apikey=" ++ interpolate (env w "ALPHA_VANTAGE_API_KEY").

(** From the two closes to the entry of [marketData]. *)
Definition quoteOfCloses (latestCloseRaw previousCloseRaw : Value) : M Quote :=
latestClose <- parseFloat_ w latestCloseRaw ;;
previousClose <- parseFloat_ w previousCloseRaw ;;
let change := Number.sub latestClose previousClose in
let changePercent := Number.mul (Number.div change previousClose) (Number.of_Z 100) in
ret {| price := latestClose;
       changePercent := Number.toFixed (finiteToString w) changePercent 2 |}.

(** [Object.keys(timeSeries).sort().slice(-2)] *)
Definition lastTwoDates (timeSeries : JSON) : list string :=
slice (sort (Object_keys timeSeries)) (-2) None.

(** The body of the loop over the symbols. *)
Definition fetchSymbol (symbol : string) : M Quote :=
response <- fetch_ w (GET (timeSeriesUrl symbol)) ;;
(if negb (ok response) then
   errorText <- settled (text response) ;;
   console_error [PStr ("Alpha Vantage API error for " ++ symbol ++ ":"); PStr errorText] ;;;
   throw (Error ("Alpha Vantage API failed with status " ++
                 Z_to_string (status response) ++ ": " ++ errorText))
 else ret tt) ;;;
data <- settled (json response) ;;
timeSeries <- get (Some data) "Time Series (Daily)" ;;
match timeSeries with
| Some ts =>
    if negb (truthy timeSeries) then
      console_error [PStr ("Response data for " ++ symbol ++ ":"); PVal (Some data)] ;;;
      throw (Error ("Unexpected Alpha Vantage response format for " ++ symbol))
    else
      match lastTwoDates ts with
      | [d0; d1] =>
          let closeKey := "4. close" in
          latestCloseRaw <- get (ownProperty ts d1) closeKey ;;
          previousCloseRaw <- get (ownProperty ts d0) closeKey ;;
          latestShown <- toString_ w latestCloseRaw ;;
          previousShown <- toString_ w previousCloseRaw ;;
          console_log [PStr ("Raw close values for " ++ symbol ++ ": latest=" ++
                             latestShown ++ ", previous=" ++ previousShown)] ;;;
          quoteOfCloses latestCloseRaw previousCloseRaw
      | _ =>
          throw (Error ("Insufficient data for " ++ symbol ++ " change calculation"))
      end
| None =>
    console_error [PStr ("Response data for " ++ symbol ++ ":"); PVal (Some data)] ;;;
    throw (Error ("Unexpected Alpha Vantage response format for " ++ symbol))
end.

(** [for (const symbol of symbols) { ...; marketData[symbol] = ... }] *)
Fixpoint forSymbols (symbols : list string) (marketData : list (string * Quote))
  : M (list (string * Quote)) :=
match symbols with
| [] => ret marketData
| symbol :: rest =>
    q <- fetchSymbol symbol ;;
    forSymbols rest ((symbol, q) :: marketData)
end.

(** [marketData[symbol]], then a property of it. *)
Definition entry (marketData : list (string * Quote)) (symbol : string) : M Quote :=
match assoc symbol marketData with
| Some q => ret q
| None => throw (TypeError "undefined (reading 'price')")
end.

Definition coinGeckoUrl : string :=
"https://api.coingecko.com/api/v3/simple/price?ids=bitcoin&vs_currencies=usd&include_24hr_change=true".

Definition fetchMarketData : M string :=
try_catch
  (marketData <- forSymbols ["SPY"; "QQQ"] [] ;;
   cgResponse <- fetch_ w (GET coinGeckoUrl) ;;
   (if negb (ok cgResponse) then
      errorText <- settled (text cgResponse) ;;
      console_error [PStr "CoinGecko API error:"; PStr errorText] ;;;
      throw (Error ("CoinGecko API failed with status " ++
                    Z_to_string (status cgResponse) ++ ": " ++ errorText))
    else ret tt) ;;;
   cgData <- settled (json cgResponse) ;;
   btcData <- get (Some cgData) "bitcoin" ;;
   (if negb (truthy btcData) then
      throw (Error "Unexpected CoinGecko response format")
    else ret tt) ;;;
   btcPrice <- get btcData "usd" ;;
   change24h <- get btcData "usd_24h_change" ;;
   btcChangePercent <- call_toFixed w "btcData.usd_24h_change" change24h 2 ;;
   spy <- entry marketData "SPY" ;;
   qqq <- entry marketData "QQQ" ;;
   btc <- call_toFixed w "btcPrice" btcPrice 2 ;;
   ret ("Market snapshot: S&P 500 (via SPY): $" ++
        Number.toFixed (finiteToString w) (price spy) 2 ++
        " (" ++ changePercent spy ++ "%), Nasdaq (via QQQ): $" ++
        Number.toFixed (finiteToString w) (price qqq) 2 ++
        " (" ++ changePercent qqq ++ "%), Bitcoin: $" ++ btc ++
        " (" ++ btcChangePercent ++ "%)"))
  (fun error =>
     console_error [PStr "Error fetching market data:"; PExn error] ;;;
     ret marketPlaceholder).

Definition fetchProductHuntPosts : M string :=
try_catch
  (t <- Date_now w ;;
   let now := toISOString w t in
   t' <- Date_now w ;;
   let yesterday := toISOString w (t' - 86400000) in
   productHuntPosts w yesterday now)
  (fun error =>
     console_error [PStr "Error fetching Product Hunt posts:"; PExn error] ;;;
     ret "Product Hunt data unavailable").

Definition aiSummary (aiFeed : list FeedItem) : string := summarize renderWithLink aiFeed.
Definition ycSummary (ycFeed : list FeedItem) : string := summarize renderWithLink ycFeed.
Definition worldSummary (worldFeed : list FeedItem) : string := summarize renderWithLink worldFeed.

Definition prompt (aiFeed ycFeed worldFeed : list FeedItem)
  (productHuntSummary marketData : string) : string :=
join nl
  [ "";
    "Give me a crisp bullet summary (≤3 sentences each) of:";
    "1. notable AI research news (especially large-model papers),";
    "2. any YC/Techstars company milestones,";
    "3. top world news,";
    "4. top products launched on Product Hunt today,";
    "5. top stories from Hacker News,";
    "6. market close snapshot (S&P 500, Nasdaq, Bitcoin).";
    "";
    "Raw feeds:";
    "AI:";
    aiSummary aiFeed;
    "";
    "YC/TECH:";
    ycSummary ycFeed;
    "";
    "WORLD NEWS:";
    worldSummary worldFeed;
    "";
    "PRODUCT HUNT:";
    productHuntSummary;
    "";
    "HACKER NEWS:";
    ycSummary ycFeed ++ "  // Reuse for HN stories";
    "";
    "MARKETS:";
    marketData;
    "";
    "Format the response as a clean, professional daily brief using HTML with clear sections (use <h2> for headings), bullet points (<ul><li>), and ensure it's mobile-friendly with sans-serif font and good spacing. For each summary bullet, include a clickable link (<a href=" ++ dquote ++ "original_url" ++ dquote ++ ">Read more</a>) to the source article or paper. Do not include any code fences like ``` in the output." ].

Definition buildBrief : M string :=
try_catch
  ('(aiFeed, ycFeed, worldFeed, productHuntSummary, marketData) <-
     Promise_all5
       (fetchAndParseRSS w "http://arxiv.org/rss/cs.AI")
       (fetchAndParseRSS w "https://news.ycombinator.com/rss")
       (fetchAndParseRSS w "https://rss.nytimes.com/services/xml/rss/nyt/World.xml")
       fetchProductHuntPosts
       fetchMarketData ;;
   completion <- askModel w (prompt aiFeed ycFeed worldFeed productHuntSummary marketData) ;;
   briefOf completion)
  (fun error =>
     console_error [PStr "Error building brief:"; PExn error] ;;;
     throw error).

Definition sendEmail (body : string) : M unit :=
deliver w (env w "RESEND_API_KEY") "Your Daily Brief — " [("html", JStr body)].

Definition handler (reqMethod : string) : M Reply :=
handlerOf w buildBrief sendEmail reqMethod.

End Handler.

End DailyBrief.

(** ** [src/unnamed/part_000], first document: feeds and markets *)

Module MarketsBrief.

Section Handler.

Variable w : World.

Definition fetchMarketData : M string := fetchGlobalQuotes w.

Definition aiSummary (aiFeed : list FeedItem) : string := summarize renderWithoutLink aiFeed.
Definition ycSummary (ycFeed : list FeedItem) : string := summarize renderWithoutLink ycFeed.
Definition worldSummary (worldFeed : list FeedItem) : string := summarize renderWithoutLink worldFeed.

Definition prompt (aiFeed ycFeed worldFeed : list FeedItem) (marketData : string) : string :=
join nl
  [ "";
    "Give me a crisp bullet summary (≤2 sentences each) of:";
    "1. notable AI research news (especially large-model papers),";
    "2. any YC/Techstars company milestones,";
    "3. top world news,";
    "4. market close snapshot (S&P 500, Nasdaq, Bitcoin).";
    "";
    "Raw feeds:";
    "AI:";
    aiSummary aiFeed;
    "";
    "YC/TECH:";
    ycSummary ycFeed;
    "";
    "WORLD NEWS:";
    worldSummary worldFeed;
    "";
    "MARKETS:";
    marketData;
    "";
    "Format the response as a clean, professional daily brief with clear sections and bullet points." ].

Definition buildBrief : M string :=
try_catch
  ('(aiFeed, ycFeed, worldFeed, marketData) <-
     Promise_all4
       (fetchAndParseRSS w "http://arxiv.org/rss/cs.AI")
       (fetchAndParseRSS w "https://news.ycombinator.com/rss")
       (fetchAndParseRSS w "https://rss.nytimes.com/services/xml/rss/nyt/World.xml")
       fetchMarketData ;;
   completion <- askModel w (prompt aiFeed ycFeed worldFeed marketData) ;;
   briefOf completion)
  (fun error =>
     console_error [PStr "Error building brief:"; PExn error] ;;;
     throw error).

Definition sendEmail (body : string) : M unit :=
deliver w (env w "RESEND_API_KEY") "Your Daily AI & Markets Brief — "
  [("text", JStr body);
   ("html", JStr ("<pre style=" ++ dquote ++
                  "font-family: monospace; white-space: pre-wrap; font-size: 14px;" ++
                  dquote ++ ">" ++ body ++ "</pre>"))].

Definition handler (reqMethod : string) : M Reply :=
handlerOf w buildBrief sendEmail reqMethod.

End Handler.

End MarketsBrief.

(** ** [src/unnamed/part_000], second document: with Product Hunt *)

Module HuntBrief.

Section Handler.

Variable w : World.

Definition fetchMarketData : M string := fetchGlobalQuotes w.

Definition fetchProductHuntPosts : M string :=
try_catch
  (t <- Date_now w ;;
   let today := split_head "T" (toISOString w t) in
   t' <- Date_now w ;;
   let tomorrow := split_head "T" (toISOString w (t' + 86400000)) in
   productHuntPosts w today tomorrow)
  (fun error =>
     console_error [PStr "Error fetching Product Hunt posts:"; PExn error] ;;;
     ret "Product Hunt data unavailable").

Definition aiSummary (aiFeed : list FeedItem) : string := summarize renderWithLink aiFeed.
Definition ycSummary (ycFeed : list FeedItem) : string := summarize renderWithLink ycFeed.
Definition worldSummary (worldFeed : list FeedItem) : string := summarize renderWithLink worldFeed.

Definition prompt (aiFeed ycFeed worldFeed : list FeedItem)
  (productHuntSummary marketData : string) : string :=
join nl
  [ "";
    "Give me a crisp bullet summary (≤2 sentences each) of:";
    "1. notable AI research news (especially large-model papers),";
    "2. any YC/Techstars company milestones,";
    "3. top world news,";
    "4. top products launched on Product Hunt today,";
    "5. top stories from Hacker News,";
    "6. market close snapshot (S&P 500, Nasdaq, Bitcoin).";
    "";
    "Raw feeds:";
    "AI:";
    aiSummary aiFeed;
    "";
    "YC/TECH:";
    ycSummary ycFeed;
    "";
    "WORLD NEWS:";
    worldSummary worldFeed;
    "";
    "PRODUCT HUNT:";
    productHuntSummary;
    "";
    "HACKER NEWS:";
    ycSummary ycFeed ++ "  // Reuse for HN stories";
    "";
    "MARKETS:";
    marketData;
    "";
    "Format the response as a clean, professional daily brief using HTML with clear sections (use <h2> for headings), bullet points (<ul><li>), and ensure it's mobile-friendly with sans-serif font and good spacing. For each summary bullet, include a clickable link (<a href=" ++ dquote ++ "original_url" ++ dquote ++ ">Read more</a>) to the source article or paper. Do not include any code fences like ``` in the output." ].

Definition buildBrief : M string :=
try_catch
  ('(aiFeed, ycFeed, worldFeed, productHuntSummary, marketData) <-
     Promise_all5
       (fetchAndParseRSS w "http://arxiv.org/rss/cs.AI")
       (fetchAndParseRSS w "https://news.ycombinator.com/rss")
       (fetchAndParseRSS w "https://rss.nytimes.com/services/xml/rss/nyt/World.xml")
       fetchProductHuntPosts
       fetchMarketData ;;
   completion <- askModel w (prompt aiFeed ycFeed worldFeed productHuntSummary marketData) ;;
   briefOf completion)
  (fun error =>
     console_error [PStr "Error building brief:"; PExn error] ;;;
     throw error).

Definition sendEmail (body : string) : M unit :=
deliver w (env w "RESEND_API_KEY") "Your Daily Brief — " [("html", JStr body)].

Definition handler (reqMethod : string) : M Reply :=
handlerOf w buildBrief sendEmail reqMethod.

End Handler.

End HuntBrief.

(** * The vocabulary of the properties *)

(** The items [result.rss?.channel?.[0]?.item] finds, if any. *)
Definition itemsOf (doc : RSSFeed) : option (list FeedItem) :=
  match rss doc with
  | Some r =>
      match channel r with
      | Some (c :: _) => item c
      | _ => None
      end
  | None => None
  end.

(** What can go wrong between the request and the items. *)
Inductive FeedFailure (w : World) (u : string) : Prop :=
| Unreachable e :
    fetch w (GET u) = Throw e -> FeedFailure w u
| Unreadable r e :
    fetch w (GET u) = Ok r -> text r = Throw e -> FeedFailure w u
| Malformed r xml e :
    fetch w (GET u) = Ok r -> text r = Ok xml ->
    parseStringPromise w xml = Throw e -> FeedFailure w u
| NoDocument r xml :
    fetch w (GET u) = Ok r -> text r = Ok xml ->
    parseStringPromise w xml = Ok None -> FeedFailure w u
| NoItems r xml doc :
    fetch w (GET u) = Ok r -> text r = Ok xml ->
    parseStringPromise w xml = Ok (Some doc) -> itemsOf doc = None -> FeedFailure w u.

(** The answer of the feed's server, when the document it carries has
    items, whatever its status. *)
Inductive FeedServed (w : World) (u : string) (items : list FeedItem) : Prop :=
| Served r xml doc :
    fetch w (GET u) = Ok r -> text r = Ok xml ->
    parseStringPromise w xml = Ok (Some doc) -> itemsOf doc = Some items ->
    FeedServed w u items.


(** How a field of an item shows in its line: the first value when it is a
    non-empty string, the placeholder in every other case. *)
Inductive Shown (placeholder : string) : option (list string) -> string -> Prop :=
| ShownValue v rest :
    v <> "" -> Shown placeholder (Some (v :: rest)) v
| ShownEmptyString rest :
    Shown placeholder (Some ("" :: rest)) placeholder
| ShownNoValue :
    Shown placeholder (Some []) placeholder
| ShownMissing :
    Shown placeholder None placeholder.

(** The rendering of an item in the words of the specification: the
    placeholder for exactly the missing fields, the value of a present field
    as it is, in the line [{title} ({link}) - {description}]. *)
Definition specifiedField (field : option (list string)) (placeholder : string) : string :=
  match field with
  | None => placeholder
  | Some values => hd "" values
  end.

Definition specifiedLine (it : FeedItem) : string :=
  specifiedField (title it) "No title" ++ " (" ++
  specifiedField (link it) "No link" ++ ") - " ++
  specifiedField (description it) "No description".

(** The order of [sort]: the order of the code units. *)
Definition le (s t : string) : Prop := Str.leb s t = true.

(** [d0] and [d1] are the two greatest of the keys, [d1] the greatest:
    every other key is at most [d0]. *)
Definition MostRecentTwo (keys : list string) (d0 d1 : string) : Prop :=
  In d0 keys /\ In d1 keys /\ Str.ltb d0 d1 = true /\
  forall k, In k keys -> k = d1 \/ Str.leb k d0 = true.

(** A date of the calendar and the key of its observation in a time
    series, [YYYY-MM-DD]. *)
Record Date : Type := { year : N; month : N; day : N }.

Definition decimalDigit (n : N) : N := (48 + n mod 10)%N.

Definition isoDate (d : Date) : string :=
  [decimalDigit (year d / 1000); decimalDigit (year d / 100);
   decimalDigit (year d / 10); decimalDigit (year d); 45%N;
   decimalDigit (month d / 10); decimalDigit (month d); 45%N;
   decimalDigit (day d / 10); decimalDigit (day d)].

Definition ValidDate (d : Date) : Prop :=
  (year d < 10000 /\ 1 <= month d <= 12 /\ 1 <= day d <= 31)%N.

(** The order of the calendar. *)
Definition Earlier (a b : Date) : Prop :=
  (year a < year b \/
   year a = year b /\ (month a < month b \/ month a = month b /\ day a < day b))%N.

(** Why the quote of a symbol cannot be had, in [daily-brief.ts]. *)
Inductive SymbolFailure (w : World) (symbol : string) : Prop :=
| SymbolFetchRejected e :
    fetch w (GET (DailyBrief.timeSeriesUrl w symbol)) = Throw e ->
    SymbolFailure w symbol
| SymbolStatus r :
    fetch w (GET (DailyBrief.timeSeriesUrl w symbol)) = Ok r ->
    ok r = false ->
    SymbolFailure w symbol
| SymbolNotJSON r e :
    fetch w (GET (DailyBrief.timeSeriesUrl w symbol)) = Ok r ->
    json r = Throw e ->
    SymbolFailure w symbol
| SymbolNoTimeSeries r data :
    fetch w (GET (DailyBrief.timeSeriesUrl w symbol)) = Ok r ->
    json r = Ok data ->
    truthy (get_opt (Some data) "Time Series (Daily)") = false ->
    SymbolFailure w symbol
| SymbolTooFewDates r data ts :
    fetch w (GET (DailyBrief.timeSeriesUrl w symbol)) = Ok r ->
    json r = Ok data ->
    ownProperty data "Time Series (Daily)" = Some ts ->
    (List.length (Object_keys ts) < 2)%nat ->
    SymbolFailure w symbol.

(** Why the price of bitcoin cannot be had, in [daily-brief.ts]. *)
Inductive BitcoinFailure (w : World) : Prop :=
| BitcoinFetchRejected e :
    fetch w (GET DailyBrief.coinGeckoUrl) = Throw e -> BitcoinFailure w
| BitcoinStatus r :
    fetch w (GET DailyBrief.coinGeckoUrl) = Ok r -> ok r = false ->
    BitcoinFailure w
| BitcoinNotJSON r e :
    fetch w (GET DailyBrief.coinGeckoUrl) = Ok r -> json r = Throw e ->
    BitcoinFailure w
| BitcoinMissing r data :
    fetch w (GET DailyBrief.coinGeckoUrl) = Ok r -> json r = Ok data ->
    truthy (get_opt (Some data) "bitcoin") = false ->
    BitcoinFailure w.

(** A request of the collector of [part_000] that gets no JSON. *)
Inductive NoAnswer (w : World) (u : string) : Prop :=
| AnswerRejected e :
    fetch w (GET u) = Throw e -> NoAnswer w u
| AnswerNotJSON r e :
    fetch w (GET u) = Ok r -> json r = Throw e -> NoAnswer w u.

(** A request that gets a JSON value other than [null]. *)
Definition Answers (w : World) (u : string) (j : JSON) : Prop :=
  exists r, fetch w (GET u) = Ok r /\ json r = Ok j /\ j <> JNull.

(** The text [text] is how the value [v] prints. *)
Definition Prints (w : World) (v : Value) (text : string) : Prop :=
  Value_toString (finiteToString w) v = Ok text.

(** A value that cannot be printed: converting it to a string throws. *)
Definition Unprintable (w : World) (v : Value) : Prop :=
  exists e, Value_toString (finiteToString w) v = Throw e.

(** What a snapshot of [part_000] is to read for a field of an answer: "N/A"
    when the provider left it out (the section or the field is missing, or
    the field has a falsy value), the text of its value in every other
    case. *)
Inductive Reads (w : World) (answer : JSON) (section field : string) : string -> Prop :=
| ReadsNothing :
    truthy (get_opt (ownProperty answer section) field) = false ->
    Reads w answer section field "N/A"
| ReadsValue v text :
    get_opt (ownProperty answer section) field = Some v ->
    truthy (Some v) = true ->
    Prints w (Some v) text ->
    Reads w answer section field text.

(** A field of an answer that has a value, which cannot be printed. *)
Definition FieldUnprintable (w : World) (answer : JSON) (section field : string) : Prop :=
  truthy (get_opt (ownProperty answer section) field) = true /\
  Unprintable w (get_opt (ownProperty answer section) field).

(** Every request a computation sends satisfies [P]. *)
Definition sends {A : Type} (P : Request -> Prop) (m : M A) : Prop :=
  forall st, exists new,
    requests (snd (m st)) = (requests st ++ new)%list /\ Forall P new.

(** A computation that never throws. *)
Definition total {A : Type} (m : M A) : Prop :=
  forall st, exists a st', m st = (Ok a, st').

(** A request that is not for the mail API. *)
Definition notMail (r : Request) : Prop := url r <> resendUrl.

(** The chat completion API is down: every call is rejected. *)
Definition ModelDown (w : World) : Prop :=
  forall params, exists e, chat_completions_create w params = Throw e.

(** The chat completion API answers every call, with no text in the first
    choice: the content is [null] or the empty string. *)
Definition ModelSilent (w : World) : Prop :=
  forall params, exists choice others,
    chat_completions_create w params = Ok {| choices := choice :: others |} /\
    (content (message choice) = None \/ content (message choice) = Some "").

(** The lines of a text. *)
Fixpoint lines (s : string) : list string :=
  match s with
  | [] => [""]
  | c :: s' =>
      if (c =? 10)%N then "" :: lines s'
      else match lines s' with
           | [] => [[c]]
           | l :: ls => (c :: l) :: ls
           end
  end.

Fixpoint linesAfter (header : string) (ls : list string) : option (list string) :=
  match ls with
  | [] => None
  | l :: rest => if Str.eqb l header then Some rest else linesAfter header rest
  end.

Fixpoint untilBlank (ls : list string) : list string :=
  match ls with
  | [] => []
  | l :: rest => if Str.eqb l "" then [] else l :: untilBlank rest
  end.

(** The section of a prompt under a header: the lines that follow the
    header, up to the next blank line. *)
Definition sectionLines (header prompt : string) : option (list string) :=
  option_map untilBlank (linesAfter header (lines prompt)).

Definition sectionOf (header prompt : string) : option string :=
  option_map (fun ls => join nl (untilBlank ls)) (linesAfter header (lines prompt)).

(** The chat completion API answers every call with the text [html], not
    empty, in its first choice. *)
Definition ModelAnswers (w : World) (html : string) : Prop :=
  html <> "" /\
  forall params, exists choice others,
    chat_completions_create w params = Ok {| choices := choice :: others |} /\
    content (message choice) = Some html.

(** The mail API accepts every request. *)
Definition MailAccepted (w : World) : Prop :=
  forall req, url req = resendUrl -> exists r, fetch w req = Ok r /\ ok r = true.

(** The mail API rejects every request, or answers with a status that is
    not 2xx. *)
Definition MailRefused (w : World) : Prop :=
  forall req, url req = resendUrl ->
    (exists e, fetch w req = Throw e) \/ (exists r, fetch w req = Ok r /\ ok r = false).

(** The Product Hunt API answers with an error payload. *)
Definition HuntErrors (w : World) : Prop :=
  forall req, url req = "https://api.producthunt.com/v2/api/graphql" ->
    exists r data,
      fetch w req = Ok r /\ json r = Ok data /\
      truthy (get_opt (Some data) "errors") = true.

(** The chat completion API answers every call with no choice at all. *)
Definition ModelEmpty (w : World) : Prop :=
  forall params, chat_completions_create w params = Ok {| choices := [] |}.

(** The chat completion API rejects every call with the exception [e]. *)
Definition ModelThrows (w : World) (e : Exn) : Prop :=
  forall params, chat_completions_create w params = Throw e.

(** The mail API answers every request with the response [r]. *)
Definition MailAnswers (w : World) (r : Response) : Prop :=
  forall req, url req = resendUrl -> fetch w req = Ok r.

(** The body of the answer 500 for an exception: its message when it is an
    [Error], "Unknown error" for any other thrown value. *)
Definition failureReply (e : Exn) : Reply :=
  {| code := 500;
     payload := JObj [("error", JStr "Failed to send daily brief");
                      ("details", JStr (match e with
                                        | Error msg => msg
                                        | NotAnError _ => "Unknown error"
                                        end))] |}.

(** How a POST invocation can end, from the state [st]: with an answer,
    after requests of which at most one, the last, is for the mail API;
    with 200 only when that request was accepted. *)
Definition HandlerOutcome (w : World) (st : State) (run : Result Reply * State) : Prop :=
  exists reply new,
    fst run = Ok reply /\
    requests (snd run) = (requests st ++ new)%list /\
    ((code reply = 500 /\ Forall notMail new) \/
     (exists before mail,
        new = (before ++ [mail])%list /\ Forall notMail before /\
        url mail = resendUrl /\ method mail = "POST" /\
        (code reply = 500 \/
         (code reply = 200 /\ exists r, fetch w mail = Ok r /\ ok r = true)))).


(** A value that is no number: [toFixed] cannot be called on it. *)
Definition NotANumber (v : Value) : Prop := forall x, v <> Some (JNum x).

(** The line of a Product Hunt post whose fields can be printed. *)
Inductive PostLine (w : World) (node : JSON) : string -> Prop :=
| PostLineOf name u tagline votes :
    Prints w (ownProperty node "name") name ->
    Prints w (ownProperty node "url") u ->
    Prints w (ownProperty node "tagline") tagline ->
    Prints w (ownProperty node "votesCount") votes ->
    PostLine w node
      (name ++ " (" ++ u ++ ") - " ++ tagline ++ " (Votes: " ++ votes ++ ")").

(** The Product Hunt API answers every request with the JSON value [data],
    with whatever status. *)
Definition HuntAnswers (w : World) (data : JSON) : Prop :=
  forall req, url req = "https://api.producthunt.com/v2/api/graphql" ->
    exists r, fetch w req = Ok r /\ json r = Ok data.

(** [data] reports no error and lists the posts [nodes], each in an edge:
    [data.data.posts.edges[i].node]. *)
Definition Posts (data : JSON) (nodes : list JSON) : Prop :=
  truthy (ownProperty data "errors") = false /\
  exists d posts edges,
    ownProperty data "data" = Some d /\ d <> JNull /\
    ownProperty d "posts" = Some posts /\ posts <> JNull /\
    ownProperty posts "edges" = Some (JArr edges) /\
    Forall2 (fun edge node => ownProperty edge "node" = Some node /\ node <> JNull)
            edges nodes.

(** A computation that asks the chat completion API for nothing. *)
Definition asksNothing {A : Type} (m : M A) : Prop :=
  forall st, chats (snd (m st)) = chats st.

(** What [buildBrief] asks of the chat completion API for a prompt. *)
Definition completionRequest (prompt : string) : ChatParams :=
  {| model := "gpt-4o-mini";
     messages := [ {| role := "user"; content := Some prompt |} ];
     temperature := Number.of_decimal false 7 (-1);
     max_tokens := 1500 |}.

(** [items] is what the feed at [u] gives: nothing when fetching it fails,
    its items when it is served. *)
Definition Collected (w : World) (u : string) (items : list FeedItem) : Prop :=
  (FeedFailure w u -> items = []) /\
  (forall served, FeedServed w u served -> items = served).


(** A text with no line break in it. *)
Definition oneLine (s : string) : Prop :=
  forallb (fun c => negb (c =? 10)%N) s = true.

(** A well-formed item: its title, its link and its description each have
    a first value, which is not empty and holds no line break. *)
Definition wellFormedField (field : option (list string)) : Prop :=
  exists v rest, field = Some (v :: rest) /\ v <> "" /\ oneLine v.

Definition WellFormed (it : FeedItem) : Prop :=
  wellFormedField (title it) /\ wellFormedField (link it) /\
  wellFormedField (description it).

(** The line of an item in the first handler of [part_000], which leaves
    the link out. *)
Definition specifiedShortLine (it : FeedItem) : string :=
  specifiedField (title it) "No title" ++ " - " ++
  specifiedField (description it) "No description".

(** What the feed at [u] gives the Aggregator: its items when it is served,
    nothing when fetching it fails. *)
Inductive Gives (w : World) (u : string) : list FeedItem -> Prop :=
| GivesItems items : FeedServed w u items -> Gives w u items
| GivesNothing : FeedFailure w u -> Gives w u [].

(** The text made of the given lines, with a line break between two of
    them. *)
Definition unlines (ls : list string) : string :=
  match ls with
  | [] => ""
  | l :: rest => l ++ flat_map (fun x => 10%N :: x) rest
  end.

(** The text [text] stands in the prompt as the section under [header]:
    between the line of the header and the empty line before the header of
    the section that follows, [next]. *)
Definition SectionText (header next prompt text : string) : Prop :=
  exists before after,
    prompt = before ++ nl ++ header ++ nl ++ text ++ nl ++ nl ++ next ++ nl ++ after.

(** A line with a hyphen in it. *)
Definition hasHyphen (s : string) : bool := existsb (N.eqb 45) s.

(** The headers of the sections of the feeds. *)
Definition sectionHeaders : list string := ["AI:"; "YC/TECH:"; "WORLD NEWS:"].

(** A text in which the three feeds are set, each under its header and
    followed by an empty line, between an introduction and what follows. *)
Definition template (line : FeedItem -> string) (intro rest : list string)
  (ai yc world : list FeedItem) : string :=
  join nl (intro ++
           "AI:" :: summarize line ai :: "" ::
           "YC/TECH:" :: summarize line yc :: "" ::
           "WORLD NEWS:" :: summarize line world :: "" :: rest).

(** The change in percent in the words of the specification:
    [100 * change / previous close], to two decimals. *)
Definition specifiedChangePercent (w : World) (latest previous : Number.t) : string :=
  Number.toFixed (finiteToString w)
    (Number.div (Number.mul (Number.of_Z 100) (Number.sub latest previous)) previous) 2.

(** The snapshot of [part_000] for the five texts it reads. *)
Definition quotesSnapshot (p1 c1 p2 c2 p3 : string) : string :=
  "Market snapshot: S&P 500: " ++ p1 ++ " (" ++ c1 ++ "), Nasdaq: " ++ p2 ++
  " (" ++ c2 ++ "), Bitcoin: $" ++ p3.

(** A computation that leaves a part of the state as it finds it. *)
Definition keeps {A X : Type} (part : State -> X) (m : M A) : Prop :=
  forall st, part (snd (m st)) = part st.

(** The request the mail API is to get for a mail with the given subject,
    with the given fields for its text. *)
Definition MailRequest (w : World) (subject : string) (fields : list (string * JSON))
  (req : Request) : Prop :=
  url req = "https://api.resend.com/emails" /\
  method req = "POST" /\
  headers req
  = [("Authorization",
      "Bearer " ++ match env w "RESEND_API_KEY" with
                   | Some key => key
                   | None => "undefined"
                   end);
     ("Content-Type", "application/json")] /\
  body req
  = Some (JSON_stringify w
            (JObj ([("from", JStr "Daily Brief <on@resend.dev>");
                    ("to", JArr [JStr "alhait.omar@gmail.com"]);
                    ("subject", JStr subject)] ++ fields))).

(** * Example worlds *)

(** *** A world for examples: nothing answers *)

Definition offline : World :=
  {| env := fun _ => None;
     fetch := fun _ => Throw (Error "fetch failed");
     parseStringPromise := fun _ => Throw (Error "Non-whitespace before first tag.");
     chat_completions_create := fun _ => Throw (Error "Connection error.");
     clock := fun _ => 0;
     finiteToString := fun _ _ => "";
     JSON_stringify := fun _ => "";
     toISOString := fun _ => "1970-01-01T00:00:00.000Z";
     toLocaleDateString := fun _ _ => "1/1/1970" |}.

(** The same world with another network. *)
Definition withNetwork (net : Request -> Result Response) (w : World) : World :=
  {| env := env w;
     fetch := net;
     parseStringPromise := parseStringPromise w;
     chat_completions_create := chat_completions_create w;
     clock := clock w;
     finiteToString := finiteToString w;
     JSON_stringify := JSON_stringify w;
     toISOString := toISOString w;
     toLocaleDateString := toLocaleDateString w |}.

Definition withParser (parser : string -> Result Parsed) (w : World) : World :=
  {| env := env w;
     fetch := fetch w;
     parseStringPromise := parser;
     chat_completions_create := chat_completions_create w;
     clock := clock w;
     finiteToString := finiteToString w;
     JSON_stringify := JSON_stringify w;
     toISOString := toISOString w;
     toLocaleDateString := toLocaleDateString w |}.

Definition withModel (llm : ChatParams -> Result ChatCompletion) (w : World) : World :=
  {| env := env w;
     fetch := fetch w;
     parseStringPromise := parseStringPromise w;
     chat_completions_create := llm;
     clock := clock w;
     finiteToString := finiteToString w;
     JSON_stringify := JSON_stringify w;
     toISOString := toISOString w;
     toLocaleDateString := toLocaleDateString w |}.

(** A response with a JSON body (its text is not put down: the examples
    that use it read the body as JSON). *)
Definition jsonResponse (j : JSON) : Response :=
  {| ok := true; status := 200; statusText := "OK";
     text := Ok ""; json := Ok j |}.

(** *** A feed served with status 500 *)

Definition story : FeedItem :=
  {| title := Some ["Show HN"]; description := Some ["Comments"];
     link := Some ["https://example.org/"]; pubDate := None |}.

Definition errorPage : Response :=
  {| ok := false; status := 500; statusText := "Internal Server Error";
     text := Ok "<rss><channel><item>...</item></channel></rss>";
     json := Throw (Error "Unexpected token <") |}.

Definition failingServer : World :=
  withParser
    (fun _ => Ok (Some {| rss := Some {| channel := Some [ {| item := Some [story] |} ] |} |}))
    (withNetwork (fun _ => Ok errorPage) offline).


(** *** Items *)

(** [<item><title></title><description>d</description></item>] *)
Definition untitled : FeedItem :=
  {| title := Some [""]; description := Some ["d"]; link := None; pubDate := None |}.

(** *** Markets *)

(** A network that knows some URLs and rejects the others. *)
Definition route (routes : list (string * Response)) (req : Request) : Result Response :=
  match assoc (url req) routes with
  | Some r => Ok r
  | None => Throw (Error "fetch failed")
  end.

Definition observation (close : string) : JSON :=
  JObj [("1. open", JStr "100.0000"); ("4. close", JStr close); ("5. volume", JStr "1000")].

(** An answer of TIME_SERIES_DAILY, the latest date first. *)
Definition dailySeries (previous latest : string) : JSON :=
  JObj [("Meta Data", JObj [("1. Information", JStr "Daily Prices")]);
        ("Time Series (Daily)",
         JObj [("2024-01-03", observation latest);
               ("2024-01-02", observation previous);
               ("2023-12-29", observation "95.0000")])].

Definition coinGecko : JSON :=
  JObj [("bitcoin",
         JObj [("usd", JNum (Number.of_decimal false 650005 (-1)));
               ("usd_24h_change", JNum (Number.of_decimal true 1234 (-3)))])].

(** Markets that answer with the given series for SPY and QQQ. *)
Definition tradingDay (spy qqq : JSON) : World :=
  withNetwork
    (route [(DailyBrief.timeSeriesUrl offline "SPY", jsonResponse spy);
            (DailyBrief.timeSeriesUrl offline "QQQ", jsonResponse qqq);
            (DailyBrief.coinGeckoUrl, jsonResponse coinGecko)])
    offline.

Definition risingDay : World :=
  tradingDay (dailySeries "100.0000" "110.0000") (dailySeries "400.0000" "398.0000").

(** SPY closed at zero the day before. *)
Definition afterZeroClose : World :=
  tradingDay (dailySeries "0.0000" "110.0000") (dailySeries "400.0000" "398.0000").

(** The provider of [part_000] refuses one symbol, with status 200 and an
    error in the body, and answers for the two others. *)
Definition oneSymbolRefused : World :=
  withNetwork
    (route [(globalQuoteUrl offline "^GSPC",
             jsonResponse (JObj [("Error Message", JStr "Invalid API call.")]));
            (globalQuoteUrl offline "^IXIC",
             jsonResponse
               (JObj [("Global Quote",
                       JObj [("01. symbol", JStr "^IXIC");
                             ("05. price", JStr "15000.1000");
                             ("10. change percent", JStr "0.5000%")])]));
            (exchangeRateUrl offline,
             jsonResponse
               (JObj [("Realtime Currency Exchange Rate",
                       JObj [("5. Exchange Rate", JStr "65000.50000000")])]))])
    offline.

(** *** A model that answers with no content *)

Definition silentModel : World :=
  withModel
    (fun _ => Ok {| choices := [ {| message := {| role := "assistant"; content := None |} |} ] |})
    offline.

(** *** A day on which everything but the feeds and the markets works *)

Definition mailOnly : World :=
  withModel
    (fun _ => Ok {| choices := [ {| message := {| role := "assistant";
                                                 content := Some "<h2>Brief</h2>" |} |} ] |})
    (withNetwork
       (fun req => if Str.eqb (url req) resendUrl
                   then Ok {| ok := true; status := 200; statusText := "OK";
                              text := Ok ""; json := Ok (JObj [("id", JStr "1")]) |}
                   else Throw (Error "fetch failed"))
       offline).

(** *** More models and mail servers *)

Definition emptyModel : World :=
  withModel (fun _ => Ok {| choices := [] |}) offline.

Definition quota : Exn := Error "429 You exceeded your current quota".

Definition overQuota : World := withModel (fun _ => Throw quota) offline.

Definition unauthorized : Response :=
  {| ok := false; status := 401; statusText := "Unauthorized";
     text := Ok "";
     json := Ok (JObj [("name", JStr "validation_error");
                       ("message", JStr "API key is invalid")]) |}.

(** A model that writes a heading, and a mail API that refuses the key. *)
Definition badMailKey : World :=
  withModel (chat_completions_create mailOnly)
    (withNetwork
       (fun req => if Str.eqb (url req) resendUrl then Ok unauthorized
                   else Throw (Error "fetch failed"))
       offline).

(** A time series whose latest observation has no close. *)
Definition seriesWithoutClose : JSON :=
  JObj [("Time Series (Daily)",
         JObj [("2024-01-03", JObj [("1. open", JStr "100.0000")]);
               ("2024-01-02", observation "100.0000")])].

Definition dayWithoutClose : World :=
  tradingDay seriesWithoutClose (dailySeries "400.0000" "398.0000").

(** *** CoinGecko without the change over 24 hours *)

Definition coinGeckoWithoutChange : JSON :=
  JObj [("bitcoin",
         JObj [("usd", JNum (Number.of_decimal false 650005 (-1)));
               ("usd_24h_change", JNull)])].

Definition changeUnknown : World :=
  withNetwork
    (route [(DailyBrief.timeSeriesUrl offline "SPY",
             jsonResponse (dailySeries "100.0000" "110.0000"));
            (DailyBrief.timeSeriesUrl offline "QQQ",
             jsonResponse (dailySeries "400.0000" "398.0000"));
            (DailyBrief.coinGeckoUrl, jsonResponse coinGeckoWithoutChange)])
    offline.

(** SPY is refused with status 429, the rest of the network answers. *)
Definition spyThrottled : World :=
  withNetwork
    (route [(DailyBrief.timeSeriesUrl offline "SPY",
             {| ok := false; status := 429; statusText := "Too Many Requests";
                text := Ok "rate limit"; json := Throw (Error "Unexpected token r") |});
            (DailyBrief.timeSeriesUrl offline "QQQ",
             jsonResponse (dailySeries "400.0000" "398.0000"));
            (DailyBrief.coinGeckoUrl, jsonResponse coinGecko)])
    offline.

(** *** Product Hunt *)

(** A printer of numbers for the examples: the integers in decimal. *)
Definition printIntegers (m : positive) (e : Z) : string :=
  match e with
  | Zneg k => if Z.pos m mod 2 ^ Z.pos k =? 0 then Z_to_string (Z.pos m / 2 ^ Z.pos k)
              else "(a fraction)"
  | _ => Z_to_string (Z.pos m * 2 ^ e)
  end.

Definition twoPosts : JSON :=
  JObj [("data",
         JObj [("posts",
                JObj [("edges",
                       JArr [JObj [("node",
                                    JObj [("name", JStr "Alpha");
                                          ("tagline", JStr "First");
                                          ("url", JStr "https://ph.example/a");
                                          ("votesCount", JNum (Number.of_Z 120))])];
                             JObj [("node",
                                    JObj [("name", JStr "Beta");
                                          ("url", JStr "https://ph.example/b");
                                          ("votesCount", JNum (Number.of_Z 7))])]])])])].

(** Product Hunt answers with two posts, the second without a tagline. *)
Definition huntDay : World :=
  {| env := env offline;
     fetch := fun req =>
       if Str.eqb (url req) "https://api.producthunt.com/v2/api/graphql"
       then Ok (jsonResponse twoPosts) else Throw (Error "fetch failed");
     parseStringPromise := parseStringPromise offline;
     chat_completions_create := chat_completions_create offline;
     clock := clock offline;
     finiteToString := printIntegers;
     JSON_stringify := JSON_stringify offline;
     toISOString := toISOString offline;
     toLocaleDateString := toLocaleDateString offline |}.


(** SPY closes at 160.0000, then at 183.0000. *)
Definition steepDay : World :=
  tradingDay (dailySeries "160.0000" "183.0000") (dailySeries "400.0000" "398.0000").

(** *** Days with news

    Each of the three feeds is served with its own stories, numbered from
    1; nothing else answers.  The pages are abbreviated to the names of
    their feeds. *)
Definition numbered (feed : string) (n : nat) : FeedItem :=
  {| title := Some [feed ++ " " ++ Z_to_string (Z.of_nat n)];
     description := Some ["Story " ++ Z_to_string (Z.of_nat n)];
     link := Some ["https://example.org/" ++ Z_to_string (Z.of_nat n)];
     pubDate := None |}.

Definition stories (feed : string) (count : nat) : list FeedItem :=
  map (numbered feed) (seq 1 count).

Definition feedPage (feed : string) : Response :=
  {| ok := true; status := 200; statusText := "OK";
     text := Ok feed;
     json := Throw (Error "Unexpected token <") |}.

Definition newsOf (count : nat) : World :=
  withParser
    (fun feed => Ok (Some {| rss := Some {| channel :=
                               Some [ {| item := Some (stories feed count) |} ] |} |}))
    (withNetwork
       (route [("http://arxiv.org/rss/cs.AI", feedPage "AI");
               ("https://news.ycombinator.com/rss", feedPage "HN");
               ("https://rss.nytimes.com/services/xml/rss/nyt/World.xml",
                feedPage "World")])
       offline).

(** Twelve stories in every feed. *)
Definition newsDay : World := newsOf 12.

(** Three stories in every feed. *)
Definition quietDay : World := newsOf 3.

(** *** A feed with an empty body

    The server answers with no text at all, for which the parser gives no
    document. *)
Definition blankFeed : World :=
  withParser (fun _ => Ok None)
    (withNetwork
       (fun _ => Ok {| ok := true; status := 200; statusText := "OK";
                       text := Ok ""; json := Throw (Error "Unexpected end of JSON input") |})
       offline).
(** * Properties *)

(** ** Strings *)

Lemma eqb_spec (s t : string) : reflect (s = t) (Str.eqb s t).
Proof.
  revert t. induction s as [|a s IH]; intros [|b t]; cbn; try (constructor; congruence).
  destruct (N.eqb_spec a b) as [-> | Hne]; cbn.
  - destruct (IH t) as [-> | Hne]; constructor; congruence.
  - constructor. congruence.
Qed.

Lemma eqb_refl (s : string) : Str.eqb s s = true.
Proof. now destruct (eqb_spec s s). Qed.

Lemma eqb_neq (s t : string) : Str.eqb s t = false <-> s <> t.
Proof. destruct (eqb_spec s t); split; congruence. Qed.

Lemma string_dec (s t : string) : {s = t} + {s <> t}.
Proof. destruct (eqb_spec s t); [now left | now right]. Qed.

Lemma compare_refl (s : string) : Str.compare s s = Eq.
Proof. induction s as [|a s IH]; cbn; [reflexivity|]. now rewrite N.compare_refl. Qed.

Lemma compare_eq (s t : string) : Str.compare s t = Eq -> s = t.
Proof.
  revert t. induction s as [|a s IH]; intros [|b t]; cbn; try easy.
  destruct (N.compare a b) eqn:Hab; try discriminate.
  apply N.compare_eq in Hab. intros H. f_equal; [exact Hab | now apply IH].
Qed.

Lemma compare_antisym (s t : string) : Str.compare t s = CompOpp (Str.compare s t).
Proof.
  revert t. induction s as [|a s IH]; intros [|b t]; cbn; try reflexivity.
  rewrite (N.compare_antisym a b).
  destruct (N.compare a b); cbn; [apply IH | reflexivity | reflexivity].
Qed.

Lemma leb_cons (a b : N) (s t : string) :
  Str.leb (a :: s) (b :: t) =
  match N.compare a b with
  | Eq => Str.leb s t
  | Lt => true
  | Gt => false
  end.
Proof. unfold Str.leb; cbn. now destruct (N.compare a b). Qed.

Lemma leb_refl (s : string) : Str.leb s s = true.
Proof. unfold Str.leb. now rewrite compare_refl. Qed.

Lemma leb_trans (s t u : string) :
  Str.leb s t = true -> Str.leb t u = true -> Str.leb s u = true.
Proof.
  revert t u. induction s as [|a s IH]; intros [|b t] [|c u]; try easy.
  rewrite !leb_cons.
  destruct (N.compare a b) eqn:Hab; try discriminate;
    destruct (N.compare b c) eqn:Hbc; try discriminate; intros H1 H2.
  - apply N.compare_eq in Hab, Hbc. subst. rewrite N.compare_refl. now apply (IH t u).
  - apply N.compare_eq in Hab. subst. now rewrite Hbc.
  - apply N.compare_eq in Hbc. subst. now rewrite Hab.
  - rewrite N.compare_lt_iff in Hab, Hbc.
    replace (N.compare a c) with Lt; [reflexivity|].
    symmetry. apply N.compare_lt_iff. now apply N.lt_trans with b.
Qed.

Lemma leb_total (s t : string) : Str.leb s t = true \/ Str.leb t s = true.
Proof.
  unfold Str.leb. rewrite (compare_antisym s t).
  destruct (Str.compare s t); cbn; tauto.
Qed.

Lemma leb_antisym (s t : string) : Str.leb s t = true -> Str.leb t s = true -> s = t.
Proof.
  unfold Str.leb. rewrite (compare_antisym s t).
  destruct (Str.compare s t) eqn:H; cbn; try discriminate.
  intros _ _. now apply compare_eq.
Qed.

Lemma ltb_not_leb (s t : string) :
  Str.ltb s t = true -> Str.leb t s = true -> False.
Proof.
  unfold Str.ltb, Str.leb. rewrite (compare_antisym s t).
  now destruct (Str.compare s t).
Qed.

Lemma ltb_irrefl (s : string) : Str.ltb s s = true -> False.
Proof. intros H. apply (ltb_not_leb s s H), leb_refl. Qed.

(** ** The feed fetcher *)

Lemma fetchAndParseRSS_cases w u st :
  exists items st',
    fetchAndParseRSS w u st = (Ok items, st') /\
    requests st' = (requests st ++ [GET u])%list /\
    chats st' = chats st /\ ticks st' = ticks st /\
    (FeedFailure w u -> items = []) /\
    (forall served, FeedServed w u served -> items = served).
Proof.
  unfold fetchAndParseRSS, try_catch, bind, fetch_, settled, ret, console_error.
  destruct (fetch w (GET u)) as [r | e] eqn:Hf; cbn.
  2:{ eexists _, _; split; [reflexivity|]; cbn; repeat split.
      intros served H; destruct H; congruence. }
  destruct (text r) as [xml | e] eqn:Ht; cbn.
  2:{ eexists _, _; split; [reflexivity|]; cbn; repeat split.
      intros served H; destruct H; congruence. }
  destruct (parseStringPromise w xml) as [[doc|] | e] eqn:Hp; cbn.
  2,3: eexists _, _; (split; [reflexivity|]); cbn; repeat split;
       intros served H; destruct H; congruence.
  eexists _, _; split; [reflexivity|]; cbn; repeat split.
  - intros [e Hf' | r' e Hf' Ht' | r' xml' e Hf' Ht' Hp' | r' xml' Hf' Ht' Hp'
           | r' xml' doc' Hf' Ht' Hp' Hi].
    1-4: congruence.
    assert (r' = r) by congruence; subst r'.
    assert (xml' = xml) by congruence; subst xml'.
    assert (doc' = doc) by congruence; subst doc'.
    unfold itemsOf in Hi.
    destruct (rss doc) as [rs|]; [|reflexivity].
    destruct (channel rs) as [[|c cs]|]; try reflexivity.
    now rewrite Hi.
  - intros served [r' xml' doc' Hf' Ht' Hp' Hi].
    assert (r' = r) by congruence; subst r'.
    assert (xml' = xml) by congruence; subst xml'.
    assert (doc' = doc) by congruence; subst doc'.
    unfold itemsOf in Hi.
    destruct (rss doc) as [rs|]; [|discriminate].
    destruct (channel rs) as [[|c cs]|]; try discriminate.
    now rewrite Hi.
Qed.

(** C2, as amended: for every URL and every outcome of the request, of the
    reading of the body and of the XML parse, [fetchAndParseRSS] never
    throws; it returns the empty list when the request is rejected, the
    body cannot be read, the parse is rejected or gives no document, or
    the document has no rss/channel/item structure; and it returns the
    items of the document in every other case, whatever the status of the
    response, which it never reads. *)
Theorem fetchAndParseRSS_never_throws (w : World) (u : string) (st : State) :
  exists items st',
    fetchAndParseRSS w u st = (Ok items, st') /\
    (FeedFailure w u -> items = []) /\
    (forall served, FeedServed w u served -> items = served).
Proof.
  destruct (fetchAndParseRSS_cases w u st)
    as (items & st' & Hrun & _ & _ & _ & Hfail & Hserved).
  now exists items, st'.
Qed.

(** C2, as stated, fails: a response with a non-2xx status whose body is a
    feed is not an empty collection. *)
Lemma fetchAndParseRSS_reads_error_page :
  fetch failingServer (GET "https://news.ycombinator.com/rss") = Ok errorPage /\
  ok errorPage = false /\
  status errorPage = 500 /\
  fst (fetchAndParseRSS failingServer "https://news.ycombinator.com/rss" initial)
    = Ok [story].
Proof. repeat split. Qed.

(** Every feed either fails or is served. *)
Lemma feed_fails_or_serves (w : World) (u : string) :
  FeedFailure w u \/ exists items, FeedServed w u items.
Proof.
  destruct (fetch w (GET u)) as [r | e] eqn:Hf; [|left; now apply (Unreachable w u e)].
  destruct (text r) as [xml | e] eqn:Ht; [|left; now apply (Unreadable w u r e)].
  destruct (parseStringPromise w xml) as [[doc|] | e] eqn:Hp.
  - destruct (itemsOf doc) as [items|] eqn:Hi.
    + right. exists items. now apply (Served w u items r xml doc).
    + left. now apply (NoItems w u r xml doc).
  - left. now apply (NoDocument w u r xml).
  - left. now apply (Malformed w u r xml e).
Qed.

(** ** Arrays *)

Lemma firstn_min_length {A : Type} (n : nat) (l : list A) :
  firstn (Nat.min n (List.length l)) l = firstn n l.
Proof.
  destruct (Nat.le_ge_cases n (List.length l)) as [H | H].
  - now rewrite Nat.min_l.
  - rewrite Nat.min_r by assumption.
    now rewrite firstn_all, firstn_all2.
Qed.

(** [l.slice(0, n)] is the first [n] elements. *)
Lemma slice_from_start {A : Type} (l : list A) (n : Z) :
  0 <= n -> slice l 0 (Some n) = firstn (Z.to_nat n) l.
Proof.
  intros Hn. unfold slice, relativeIndex.
  replace (0 <? 0) with false by reflexivity.
  replace (n <? 0) with false by (symmetry; apply Z.ltb_ge; lia).
  rewrite (Z.min_l 0) by lia. cbn [Z.to_nat skipn].
  rewrite <- (firstn_min_length (Z.to_nat n) l). f_equal. lia.
Qed.

(** [l.slice(-2)] is the last two elements... *)
Lemma slice_last_two {A : Type} (older : list A) (a b : A) :
  slice (older ++ [a; b]) (-2) None = [a; b].
Proof.
  unfold slice, relativeIndex.
  replace (-2 <? 0) with true by reflexivity.
  rewrite length_app. cbn [List.length].
  replace (Z.max (Z.of_nat (List.length older + 2) + -2) 0)
    with (Z.of_nat (List.length older)) by lia.
  rewrite Nat2Z.id, skipn_app, skipn_all, Nat.sub_diag. cbn [skipn app].
  replace (Z.to_nat _) with 2%nat by lia. reflexivity.
Qed.

(** ... and all of a shorter array. *)
Lemma slice_last_two_short {A : Type} (l : list A) :
  (List.length l < 2)%nat -> slice l (-2) None = l.
Proof.
  intros H. unfold slice, relativeIndex.
  replace (-2 <? 0) with true by reflexivity.
  replace (Z.max (Z.of_nat (List.length l) + -2) 0) with 0 by lia.
  cbn [Z.to_nat skipn]. apply firstn_all2. lia.
Qed.

(** ** The order of strings and [sort] *)

Lemma insert_sorted_perm (x : string) (l : list string) :
  Permutation (insert_sorted x l) (x :: l).
Proof.
  induction l as [|y l IH]; cbn; [reflexivity|].
  destruct (Str.leb x y); [reflexivity|].
  rewrite IH. apply perm_swap.
Qed.

(** [sort] rearranges the array... *)
Lemma sort_perm (l : list string) : Permutation (sort l) l.
Proof.
  induction l as [|x l IH]; cbn; [reflexivity|].
  unfold sort in IH. rewrite insert_sorted_perm. now constructor.
Qed.

Lemma insert_sorted_sorted (x : string) (l : list string) :
  StronglySorted le l -> StronglySorted le (insert_sorted x l).
Proof.
  induction 1 as [|y l Hs IH Hy]; cbn.
  - repeat constructor.
  - destruct (Str.leb x y) eqn:Hxy.
    + constructor; [now constructor|].
      constructor; [exact Hxy|].
      eapply Forall_impl; [|exact Hy].
      intros z Hz. exact (leb_trans _ _ _ Hxy Hz).
    + constructor; [exact IH|].
      rewrite insert_sorted_perm. constructor; [|exact Hy].
      destruct (leb_total x y) as [H | H]; [congruence | exact H].
Qed.

(** ... into ascending order. *)
Lemma sort_sorted (l : list string) : StronglySorted le (sort l).
Proof.
  induction l as [|x l IH]; cbn; [constructor|].
  now apply insert_sorted_sorted.
Qed.

Lemma sort_length (l : list string) : List.length (sort l) = List.length l.
Proof. apply Permutation_length, sort_perm. Qed.

(** In a sorted array without repetitions, the two greatest elements are
    the last two. *)
Lemma sorted_ends_with (s : list string) (d0 d1 : string) :
  StronglySorted le s -> NoDup s -> MostRecentTwo s d0 d1 ->
  exists older, s = (older ++ [d0; d1])%list.
Proof.
  induction 1 as [|x s Hs IH Hx]; intros Hnd (H0 & H1 & Hlt & Hmax).
  - destruct H0.
  - inversion Hnd as [|? ? Hnotin Hnd']; subst.
    assert (Hx' : forall y, In y s -> le x y) by (now apply Forall_forall).
    assert (Hbelow : forall y, In y s -> y <> d1 -> le y d0).
    { intros y Hy Hne. destruct (Hmax y (or_intror Hy)); [contradiction | assumption]. }
    destruct (string_dec x d1) as [-> | Hxd1].
    { (* the least element is the latest date: nothing else fits *)
      destruct H0 as [-> | H0]; [now apply ltb_irrefl in Hlt|].
      exfalso. apply (ltb_not_leb d0 d1 Hlt). now apply Hx'. }
    destruct (string_dec x d0) as [-> | Hxd0].
    { (* the least element is [d0]: the rest is [d1] alone *)
      destruct H1 as [H1 | H1]; [congruence|].
      exists []. cbn. f_equal.
      destruct s as [|y s']; [destruct H1|].
      assert (y = d1).
      { destruct (string_dec y d1) as [|Hy]; [assumption|]. exfalso.
        apply Hnotin. left. apply leb_antisym.
        - apply Hbelow; [now left | assumption].
        - apply Hx'. now left. }
      subst y. f_equal.
      destruct s' as [|z s'']; [reflexivity|]. exfalso.
      inversion Hnd' as [|? ? Hd1 _]; subst.
      assert (z <> d1) by (intros ->; apply Hd1; now left).
      apply Hnotin. right. left. apply leb_antisym.
      - apply Hbelow; [right; now left | assumption].
      - apply Hx'. right. now left. }
    destruct H0 as [H0 | H0]; [congruence|].
    destruct H1 as [H1 | H1]; [congruence|].
    destruct (IH Hnd') as [older Hold].
    { repeat split; try assumption. intros k Hk. apply Hmax. now right. }
    exists (x :: older). cbn. now rewrite Hold.
Qed.

Lemma dedup_in (l : list string) (k : string) : In k (dedup l) <-> In k l.
Proof.
  induction l as [|x l IH]; cbn; [tauto|].
  rewrite filter_In, IH.
  destruct (eqb_spec x k) as [-> | Hne]; cbn; intuition congruence.
Qed.

Lemma dedup_NoDup (l : list string) : NoDup (dedup l).
Proof.
  induction l as [|x l IH]; cbn; constructor.
  - rewrite filter_In, eqb_refl. cbn. intuition congruence.
  - now apply NoDup_filter.
Qed.

Lemma assoc_in {A : Type} (k : string) (l : list (string * A)) :
  In k (map fst l) <-> exists v, assoc k l = Some v.
Proof.
  induction l as [|[k' v'] l IH]; cbn.
  - split; [tauto | intros [v H]; discriminate].
  - destruct (eqb_spec k' k) as [-> | Hne].
    + split; [now exists v' | now left].
    + rewrite <- IH. intuition congruence.
Qed.

(** The two most recent dates of a time series are the ones the collector
    selects. *)
Lemma lastTwoDates_most_recent (fields : list (string * JSON)) (d0 d1 : string) :
  MostRecentTwo (Object_keys (JObj fields)) d0 d1 ->
  DailyBrief.lastTwoDates (JObj fields) = [d0; d1].
Proof.
  intros (H0 & H1 & Hlt & Hmax).
  unfold DailyBrief.lastTwoDates.
  destruct (sorted_ends_with (sort (Object_keys (JObj fields))) d0 d1) as [older ->].
  - apply sort_sorted.
  - eapply Permutation_NoDup; [symmetry; apply sort_perm|]. apply dedup_NoDup.
  - repeat split; try assumption.
    + eapply Permutation_in; [symmetry; apply sort_perm | exact H0].
    + eapply Permutation_in; [symmetry; apply sort_perm | exact H1].
    + intros k Hk. apply Hmax. eapply Permutation_in; [apply sort_perm | exact Hk].
  - apply slice_last_two.
Qed.

(** ** Rounding *)

(** [toFixed] prints the integer nearest to the number scaled by [10^f],
    the larger one of two that are as near: for a number [m * 2^(-k)], [n]
    with [-1/2 < n - m * 10^f / 2^k <= 1/2]; and the scaled number itself
    when it is an integer. *)
Lemma nearestScaled_nearest (m : positive) (f : nat) :
  (forall k : positive,
     let n := Number.nearestScaled m (Z.neg k) f in
     2 * (Z.pos m * 10 ^ Z.of_nat f) - 2 ^ Z.pos k < 2 * n * 2 ^ Z.pos k
       <= 2 * (Z.pos m * 10 ^ Z.of_nat f) + 2 ^ Z.pos k) /\
  (forall e : Z, 0 <= e ->
     Number.nearestScaled m e f = Z.pos m * 10 ^ Z.of_nat f * 2 ^ e).
Proof.
  split.
  - intros k. cbv zeta. unfold Number.nearestScaled.
    set (scaled := Z.pos m * 10 ^ Z.of_nat f).
    assert (Hp : 0 < 2 ^ Z.pos k) by (apply Z.pow_pos_nonneg; lia).
    rewrite Z.pow_add_r by lia. change (2 ^ 1) with 2.
    set (p := 2 ^ Z.pos k) in *.
    pose proof (Z.div_mod (2 * scaled + p) (p * 2) ltac:(lia)) as Hdiv.
    pose proof (Z.mod_pos_bound (2 * scaled + p) (p * 2) ltac:(lia)) as Hmod.
    set (n := (2 * scaled + p) / (p * 2)) in *.
    nia.
  - intros e He. unfold Number.nearestScaled. destruct e; try reflexivity. lia.
Qed.

(** ** The rendering of the feeds *)

Lemma or_default_shown (field : option (list string)) (placeholder : string) :
  Shown placeholder field (or_default (first field) placeholder).
Proof.
  destruct field as [[|v rest]|]; cbn; try constructor.
  destruct (eqb_spec v "") as [-> | Hv]; now constructor.
Qed.

Lemma shown_or_default (field : option (list string)) (placeholder shown : string) :
  Shown placeholder field shown -> or_default (first field) placeholder = shown.
Proof.
  intros [v rest Hv | rest | |]; cbn; try reflexivity.
  apply eqb_neq in Hv. now rewrite Hv.
Qed.

(** C6, as amended: in the line of every item, each of the title, the link
    and the description shows as its first value when that is a non-empty
    string and as its placeholder ("No title", "No link", "No description")
    when the field is missing, has no value, or has the empty string as its
    first value.  [daily-brief.ts] and the second handler of [part_000]
    render [{title} ({link}) - {description}]; the first handler of
    [part_000] renders [{title} - {description}], without the link. *)
Theorem render_shows_fields (it : FeedItem) :
  exists t l d,
    Shown "No title" (title it) t /\
    Shown "No link" (link it) l /\
    Shown "No description" (description it) d /\
    renderWithLink it = t ++ " (" ++ l ++ ") - " ++ d /\
    renderWithoutLink it = t ++ " - " ++ d.
Proof.
  exists (or_default (first (title it)) "No title"),
         (or_default (first (link it)) "No link"),
         (or_default (first (description it)) "No description").
  repeat split; apply or_default_shown.
Qed.

(** C6, as stated, fails twice: a title that is present and empty is
    replaced by the placeholder, and the first handler of [part_000] has
    another line format, without the link. *)
Lemma render_differs_from_specified :
  title untitled = Some [""] /\
  renderWithLink untitled = "No title (No link) - d" /\
  specifiedLine untitled = " (No link) - d" /\
  renderWithoutLink story = "Show HN - Comments" /\
  specifiedLine story = "Show HN (https://example.org/) - Comments".
Proof. repeat split. Qed.

(** C10: a title, a link or a description that is present and has the
    empty string as its first value is rendered by its placeholder, in a
    line that is the very line of the item without that field, whatever the
    other fields show: "No title" in place of the title, "No link" in
    place of the link, "No description" in place of the description, in
    both line formats. *)
Theorem empty_first_value_as_absent
  (ti de li pd : option (list string)) (others : list string) (t l d : string) :
  Shown "No title" ti t -> Shown "No link" li l -> Shown "No description" de d ->
  let blank := Some ("" :: others) in
  (renderWithLink (Build_FeedItem blank de li pd) = "No title" ++ " (" ++ l ++ ") - " ++ d /\
   renderWithLink (Build_FeedItem None de li pd) = "No title" ++ " (" ++ l ++ ") - " ++ d /\
   renderWithLink (Build_FeedItem ti de blank pd) = t ++ " (" ++ "No link" ++ ") - " ++ d /\
   renderWithLink (Build_FeedItem ti de None pd) = t ++ " (" ++ "No link" ++ ") - " ++ d /\
   renderWithLink (Build_FeedItem ti blank li pd)
     = t ++ " (" ++ l ++ ") - " ++ "No description" /\
   renderWithLink (Build_FeedItem ti None li pd)
     = t ++ " (" ++ l ++ ") - " ++ "No description") /\
  (renderWithoutLink (Build_FeedItem blank de li pd) = "No title" ++ " - " ++ d /\
   renderWithoutLink (Build_FeedItem None de li pd) = "No title" ++ " - " ++ d /\
   renderWithoutLink (Build_FeedItem ti blank li pd) = t ++ " - " ++ "No description" /\
   renderWithoutLink (Build_FeedItem ti None li pd) = t ++ " - " ++ "No description").
Proof.
  intros Ht Hl Hd. cbv zeta.
  apply shown_or_default in Ht, Hl, Hd.
  unfold renderWithLink, renderWithoutLink. cbn [title link description].
  rewrite Ht, Hl, Hd. repeat split.
Qed.

(** An item with a title and a link, and an empty description. *)
Lemma empty_first_value_as_absent_witness :
  renderWithLink {| title := Some ["Show HN"]; description := Some [""];
                    link := Some ["https://example.org/"]; pubDate := None |}
  = "Show HN (https://example.org/) - No description" /\
  renderWithLink {| title := Some ["Show HN"]; description := None;
                    link := Some ["https://example.org/"]; pubDate := None |}
  = "Show HN (https://example.org/) - No description".
Proof.
  destruct (empty_first_value_as_absent
              (Some ["Show HN"]) (Some ["Comments"]) (Some ["https://example.org/"]) None []
              "Show HN" "https://example.org/" "Comments")
    as ((_ & _ & _ & _ & Hblank & Habsent) & _).
  - constructor. discriminate.
  - constructor. discriminate.
  - constructor. discriminate.
  - split; [exact Hblank | exact Habsent].
Defined.

(** ** The lines of a text *)

Lemma lines_oneLine (s : string) : oneLine s -> lines s = [s].
Proof.
  unfold oneLine. induction s as [|c s IH]; cbn; [reflexivity|].
  intros H. apply andb_prop in H as [Hc Hs].
  apply negb_true_iff in Hc. rewrite Hc, (IH Hs). reflexivity.
Qed.

Lemma lines_not_empty (s : string) : lines s <> [].
Proof.
  destruct s as [|c s]; cbn; [discriminate|].
  destruct (c =? 10)%N; [discriminate|]. now destruct (lines s).
Qed.

(** A line break separates the lines before it from the lines after it. *)
Lemma lines_app_nl (a b : string) : lines (a ++ nl ++ b) = (lines a ++ lines b)%list.
Proof.
  induction a as [|c a IH]; [reflexivity|].
  change ((c :: a) ++ nl ++ b) with (c :: (a ++ nl ++ b)).
  cbn [lines]. rewrite IH.
  destruct (c =? 10)%N; [reflexivity|].
  pose proof (lines_not_empty a) as Hne.
  now destruct (lines a).
Qed.

Lemma lines_join (x : string) (l : list string) :
  lines (join nl (x :: l)) = flat_map lines (x :: l).
Proof.
  revert x. induction l as [|y l IH]; intros x.
  - cbn. now rewrite app_nil_r.
  - change (join nl (x :: y :: l)) with (x ++ nl ++ join nl (y :: l)).
    rewrite lines_app_nl, IH. reflexivity.
Qed.

Lemma lines_join_app (before : list string) (x : string) (after : list string) :
  lines (join nl (before ++ x :: after)) = flat_map lines (before ++ x :: after).
Proof. destruct before as [|y before]; apply lines_join. Qed.

Lemma flat_map_lines_oneLine (l : list string) :
  Forall oneLine l -> flat_map lines l = l.
Proof.
  induction 1 as [|x l Hx Hl IH]; cbn; [reflexivity|].
  now rewrite (lines_oneLine x Hx), IH.
Qed.

(** The lines of a section: one per item, and one empty line when there is
    no item. *)
Lemma summarize_lines (render : FeedItem -> string) (feed : list FeedItem) :
  Forall (fun it => oneLine (render it)) (firstn 10 feed) ->
  lines (summarize render feed)
  = (map render (firstn 10 feed) ++
     match firstn 10 feed with [] => [""] | _ => [] end)%list.
Proof.
  unfold summarize. rewrite slice_from_start by lia.
  change (Z.to_nat 10) with 10%nat.
  destruct (firstn 10 feed) as [|it items]; [reflexivity|].
  intros H. cbn [map]. rewrite lines_join, app_nil_r.
  apply flat_map_lines_oneLine.
  change (Forall oneLine (map render (it :: items))).
  now apply Forall_map.
Qed.

Lemma linesAfter_skip (header : string) (before rest : list string) :
  Forall (fun l => l <> header) before ->
  linesAfter header (before ++ rest) = linesAfter header rest.
Proof.
  induction 1 as [|l before Hl Hb IH]; cbn; [reflexivity|].
  apply eqb_neq in Hl. now rewrite Hl.
Qed.

Lemma untilBlank_app (body rest : list string) :
  Forall (fun l => l <> "") body ->
  untilBlank (body ++ "" :: rest) = body.
Proof.
  induction 1 as [|l body Hl Hb IH]; cbn; [reflexivity|].
  apply eqb_neq in Hl. rewrite Hl. now f_equal.
Qed.

Lemma hasHyphen_neq (s t : string) : hasHyphen s = true -> hasHyphen t = false -> s <> t.
Proof. intros Hs Ht ->. congruence. Qed.

Lemma oneLine_app (s t : string) : oneLine s -> oneLine t -> oneLine (s ++ t).
Proof. unfold oneLine. intros Hs Ht. now rewrite forallb_app, Hs, Ht. Qed.

Lemma or_default_oneLine (field : option (list string)) (placeholder : string) :
  oneLine placeholder ->
  (forall v rest, field = Some (v :: rest) -> oneLine v) ->
  oneLine (or_default (first field) placeholder).
Proof.
  intros Hp Hv. destruct field as [[|v rest]|]; cbn; try exact Hp.
  destruct (Str.eqb v ""); [exact Hp|]. now apply (Hv v rest).
Qed.

(** The line of a well-formed item is the one that is specified, in a
    single line, with a hyphen in it. *)
Lemma wellFormed_field (field : option (list string)) (placeholder : string) :
  wellFormedField field ->
  or_default (first field) placeholder = specifiedField field placeholder /\
  oneLine (specifiedField field placeholder).
Proof.
  intros (v & rest & -> & Hv & Hline). cbn.
  apply eqb_neq in Hv. now rewrite Hv.
Qed.

Lemma wellFormed_line (it : FeedItem) :
  WellFormed it ->
  (renderWithLink it = specifiedLine it /\ oneLine (specifiedLine it) /\
   hasHyphen (specifiedLine it) = true) /\
  (renderWithoutLink it = specifiedShortLine it /\ oneLine (specifiedShortLine it) /\
   hasHyphen (specifiedShortLine it) = true).
Proof.
  intros (Ht & Hl & Hd).
  destruct (wellFormed_field _ "No title" Ht) as [Et Lt].
  destruct (wellFormed_field _ "No link" Hl) as [El Ll].
  destruct (wellFormed_field _ "No description" Hd) as [Ed Ld].
  unfold renderWithLink, renderWithoutLink, specifiedLine, specifiedShortLine.
  rewrite Et, El, Ed. repeat split.
  - repeat apply oneLine_app; assumption || reflexivity.
  - unfold hasHyphen. rewrite !existsb_app. cbn. now rewrite !orb_true_r.
  - repeat apply oneLine_app; assumption || reflexivity.
  - unfold hasHyphen. rewrite !existsb_app. cbn. now rewrite !orb_true_r.
Qed.

Lemma join_unlines (ls : list string) : join nl ls = unlines ls.
Proof.
  destruct ls as [|l ls]; [reflexivity|].
  revert l. induction ls as [|x ls IH]; intros l; cbn.
  - now rewrite app_nil_r.
  - f_equal. f_equal. specialize (IH x). cbn in IH. exact IH.
Qed.

Lemma summarize_unlines (render : FeedItem -> string) (feed : list FeedItem) :
  summarize render feed = unlines (map render (firstn 10 feed)).
Proof.
  unfold summarize. rewrite slice_from_start by lia.
  change (Z.to_nat 10) with 10%nat. apply join_unlines.
Qed.

Lemma join_app_nl (a b : list string) :
  a <> [] -> b <> [] -> join nl (a ++ b)%list = join nl a ++ nl ++ join nl b.
Proof.
  intros Ha Hb. induction a as [|x a IH]; [contradiction|].
  destruct a as [|y a].
  - destruct b; [contradiction|]. reflexivity.
  - change (join nl ((x :: y :: a) ++ b)%list)
      with (x ++ nl ++ join nl ((y :: a) ++ b)%list).
    rewrite IH by discriminate.
    change (join nl (x :: y :: a)) with (x ++ nl ++ join nl (y :: a)).
    now rewrite <- !app_assoc.
Qed.

Lemma join_section (pre post : list string) (header text next : string) :
  pre <> [] -> post <> [] ->
  SectionText header next (join nl (pre ++ header :: text :: "" :: next :: post)%list) text.
Proof.
  intros Hpre Hpost. exists (join nl pre), (join nl post).
  rewrite join_app_nl by (assumption || discriminate).
  destruct post as [|p post]; [contradiction|]. reflexivity.
Qed.

(** *** The sections of a prompt

    A prompt is a fixed text in which three sections are set, each under its
    header and followed by an empty line. *)

Section Template.

Variable line : FeedItem -> string.
Variables intro rest : list string.
Variables ai yc world : list FeedItem.

Hypothesis intro_lines : flat_map lines intro = intro.
Hypothesis intro_headers :
  forallb (fun l => forallb (fun h => negb (Str.eqb l h)) sectionHeaders) intro = true.
Hypothesis ai_lines :
  Forall (fun it => oneLine (line it) /\ hasHyphen (line it) = true) (firstn 10 ai).
Hypothesis yc_lines :
  Forall (fun it => oneLine (line it) /\ hasHyphen (line it) = true) (firstn 10 yc).
Hypothesis world_lines :
  Forall (fun it => oneLine (line it) /\ hasHyphen (line it) = true) (firstn 10 world).

Lemma intro_skipped (h : string) (after : list string) :
  In h sectionHeaders -> linesAfter h (intro ++ after) = linesAfter h after.
Proof using intro_headers.
  intros Hh. apply linesAfter_skip.
  apply Forall_forall. intros l Hl ->.
  rewrite forallb_forall in intro_headers.
  specialize (intro_headers h Hl). rewrite forallb_forall in intro_headers.
  specialize (intro_headers h Hh). now rewrite eqb_refl in intro_headers.
Qed.

Lemma summary_skipped (feed : list FeedItem) (h : string) (after : list string) :
  Forall (fun it => oneLine (line it) /\ hasHyphen (line it) = true) (firstn 10 feed) ->
  hasHyphen h = false -> h <> "" ->
  linesAfter h (lines (summarize line feed) ++ after) = linesAfter h after.
Proof using Type.
  intros Hfeed Hh Hne. apply linesAfter_skip.
  rewrite summarize_lines by (eapply Forall_impl; [|exact Hfeed]; now intros it [H _]).
  apply Forall_app. split.
  - apply Forall_map. eapply Forall_impl; [|exact Hfeed].
    intros it [_ H]. now apply hasHyphen_neq.
  - destruct (firstn 10 feed); repeat constructor. congruence.
Qed.

Lemma summary_section (feed : list FeedItem) (after : list string) :
  Forall (fun it => oneLine (line it) /\ hasHyphen (line it) = true) (firstn 10 feed) ->
  untilBlank (lines (summarize line feed) ++ "" :: after) = map line (firstn 10 feed).
Proof using Type.
  intros Hfeed.
  rewrite summarize_lines by (eapply Forall_impl; [|exact Hfeed]; now intros it [H _]).
  rewrite <- app_assoc.
  destruct (firstn 10 feed) as [|it items]; [reflexivity|].
  change ((@nil string) ++ "" :: after)%list with ("" :: after).
  apply untilBlank_app.
  apply Forall_map. eapply Forall_impl; [|exact Hfeed].
  intros it' [_ H]. now apply hasHyphen_neq.
Qed.

Lemma template_sections :
  sectionLines "AI:" (template line intro rest ai yc world) = Some (map line (firstn 10 ai)) /\
  sectionLines "YC/TECH:" (template line intro rest ai yc world) = Some (map line (firstn 10 yc)) /\
  sectionLines "WORLD NEWS:" (template line intro rest ai yc world) = Some (map line (firstn 10 world)).
Proof using intro_lines intro_headers ai_lines yc_lines world_lines.
  assert (Hlines : lines (template line intro rest ai yc world)
                   = (intro ++
                      "AI:" :: lines (summarize line ai) ++ "" ::
                      "YC/TECH:" :: lines (summarize line yc) ++ "" ::
                      "WORLD NEWS:" :: lines (summarize line world) ++ "" ::
                      flat_map lines rest)%list).
  { unfold template. rewrite lines_join_app, flat_map_app, intro_lines. reflexivity. }
  unfold sectionLines. rewrite Hlines. repeat split.
  - rewrite intro_skipped by (cbn; tauto).
    cbn [linesAfter Str.eqb N.eqb Pos.eqb andb option_map].
    now rewrite summary_section.
  - rewrite intro_skipped by (cbn; tauto).
    cbn [linesAfter Str.eqb N.eqb Pos.eqb andb].
    rewrite summary_skipped by (assumption || reflexivity || discriminate).
    cbn [linesAfter Str.eqb N.eqb Pos.eqb andb option_map].
    now rewrite summary_section.
  - rewrite intro_skipped by (cbn; tauto).
    cbn [linesAfter Str.eqb N.eqb Pos.eqb andb].
    rewrite summary_skipped by (assumption || reflexivity || discriminate).
    cbn [linesAfter Str.eqb N.eqb Pos.eqb andb].
    rewrite summary_skipped by (assumption || reflexivity || discriminate).
    cbn [linesAfter Str.eqb N.eqb Pos.eqb andb option_map].
    now rewrite summary_section.
Qed.

End Template.

(** Each section of a feed stands between its header and the next one,
    whatever the other feeds hold. *)
Lemma template_section_texts (line : FeedItem -> string) (intro rest : list string)
  (next : string) (ai yc world : list FeedItem) :
  intro <> [] -> rest <> [] ->
  let prompt := template line intro (next :: rest) ai yc world in
  SectionText "AI:" "YC/TECH:" prompt (summarize line ai) /\
  SectionText "YC/TECH:" "WORLD NEWS:" prompt (summarize line yc) /\
  SectionText "WORLD NEWS:" next prompt (summarize line world).
Proof.
  intros Hintro Hrest. cbv zeta. unfold template. repeat split.
  - apply join_section; [assumption | discriminate].
  - replace (intro ++
             "AI:" :: summarize line ai :: "" ::
             "YC/TECH:" :: summarize line yc :: "" ::
             "WORLD NEWS:" :: summarize line world :: "" :: next :: rest)%list
      with ((intro ++ ["AI:"; summarize line ai; ""]) ++
            "YC/TECH:" :: summarize line yc :: "" ::
            "WORLD NEWS:" :: summarize line world :: "" :: next :: rest)%list
      by (now rewrite <- app_assoc).
    apply join_section; [|discriminate].
    intros H. now apply app_eq_nil in H as [_ H].
  - replace (intro ++
             "AI:" :: summarize line ai :: "" ::
             "YC/TECH:" :: summarize line yc :: "" ::
             "WORLD NEWS:" :: summarize line world :: "" :: next :: rest)%list
      with ((intro ++ ["AI:"; summarize line ai; ""; "YC/TECH:"; summarize line yc; ""]) ++
            "WORLD NEWS:" :: summarize line world :: "" :: next :: rest)%list
      by (now rewrite <- app_assoc).
    apply join_section; [|assumption].
    intros H. now apply app_eq_nil in H as [_ H].
Qed.

Lemma wellFormed_section_text (line specified : FeedItem -> string)
  (header next prompt : string) (feed : list FeedItem) :
  (forall it, WellFormed it -> line it = specified it) ->
  SectionText header next prompt (summarize line feed) ->
  Forall WellFormed (firstn 10 feed) ->
  SectionText header next prompt (unlines (map specified (firstn 10 feed))).
Proof.
  intros Hline Hsection Hfeed.
  rewrite summarize_unlines in Hsection.
  replace (map specified (firstn 10 feed)) with (map line (firstn 10 feed)); [assumption|].
  apply map_ext_in. intros it Hin.
  rewrite Forall_forall in Hfeed. now apply Hline, Hfeed.
Qed.

(** ** The market collector of [daily-brief.ts] *)

#[local] Arguments get : simpl never.
#[local] Arguments ownProperty : simpl never.
#[local] Arguments truthy : simpl never.

Lemma get_defined (v : JSON) (key : string) st :
  v <> JNull -> get (Some v) key st = (Ok (ownProperty v key), st).
Proof. destruct v; intros H; try reflexivity. contradiction. Qed.

Lemma ownProperty_not_null (v : JSON) (key : string) (x : JSON) :
  ownProperty v key = Some x -> v <> JNull.
Proof. intros H ->. discriminate. Qed.

Lemma parseFloat_prints (w : World) (v : Value) (s : string) :
  Prints w v s -> parseFloat (finiteToString w) v = Ok (Number.parseFloat s).
Proof. unfold Prints, parseFloat. now intros ->. Qed.

(** The run of the loop body up to the two closes. *)
Lemma fetchSymbol_closes (w : World) (symbol : string) (st : State)
  (r : Response) (data ts : JSON) (d0 d1 : string) (o0 o1 : JSON) :
  fetch w (GET (DailyBrief.timeSeriesUrl w symbol)) = Ok r ->
  ok r = true ->
  json r = Ok data ->
  ownProperty data "Time Series (Daily)" = Some ts ->
  truthy (Some ts) = true ->
  DailyBrief.lastTwoDates ts = [d0; d1] ->
  ownProperty ts d0 = Some o0 -> o0 <> JNull ->
  ownProperty ts d1 = Some o1 -> o1 <> JNull ->
  exists st1,
    DailyBrief.fetchSymbol w symbol st
    = (latestShown <- toString_ w (ownProperty o1 "4. close") ;;
       previousShown <- toString_ w (ownProperty o0 "4. close") ;;
       console_log [PStr ("Raw close values for " ++ symbol ++ ": latest=" ++
                          latestShown ++ ", previous=" ++ previousShown)] ;;;
       DailyBrief.quoteOfCloses w (ownProperty o1 "4. close") (ownProperty o0 "4. close")) st1.
Proof.
  intros Hf Hok Hj Hts Htruthy Hdates H0 Hn0 H1 Hn1.
  unfold DailyBrief.fetchSymbol.
  unfold bind at 1, fetch_. rewrite Hf.
  unfold bind at 1 2. rewrite Hok. cbn [negb ret].
  unfold bind at 1, settled. rewrite Hj.
  unfold bind at 1.
  rewrite (get_defined data _ _ (ownProperty_not_null _ _ _ Hts)), Hts, Htruthy.
  cbn [negb]. rewrite Hdates, H1, H0.
  unfold bind at 1. rewrite (get_defined o1 _ _ Hn1).
  unfold bind at 1. rewrite (get_defined o0 _ _ Hn0).
  now eexists.
Qed.

(** The run of the loop body on a well-formed answer. *)
Lemma fetchSymbol_quote (w : World) (symbol : string) (st : State)
  (r : Response) (data ts : JSON) (d0 d1 : string) (o0 o1 : JSON) (s0 s1 : string) :
  fetch w (GET (DailyBrief.timeSeriesUrl w symbol)) = Ok r ->
  ok r = true ->
  json r = Ok data ->
  ownProperty data "Time Series (Daily)" = Some ts ->
  truthy (Some ts) = true ->
  DailyBrief.lastTwoDates ts = [d0; d1] ->
  ownProperty ts d0 = Some o0 -> o0 <> JNull ->
  ownProperty ts d1 = Some o1 -> o1 <> JNull ->
  Prints w (ownProperty o0 "4. close") s0 ->
  Prints w (ownProperty o1 "4. close") s1 ->
  fst (DailyBrief.fetchSymbol w symbol st)
  = Ok {| DailyBrief.price := Number.parseFloat s1;
          DailyBrief.changePercent :=
            Number.toFixed (finiteToString w)
              (Number.mul
                 (Number.div (Number.sub (Number.parseFloat s1) (Number.parseFloat s0))
                             (Number.parseFloat s0))
                 (Number.of_Z 100)) 2 |}.
Proof.
  intros Hf Hok Hj Hts Htruthy Hdates H0 Hn0 H1 Hn1 P0 P1.
  destruct (fetchSymbol_closes w symbol st r data ts d0 d1 o0 o1) as (st1 & ->);
    try assumption.
  unfold DailyBrief.quoteOfCloses, bind, toString_, parseFloat_, settled.
  rewrite (parseFloat_prints w _ _ P0), (parseFloat_prints w _ _ P1).
  unfold Prints in P0, P1. rewrite P1, P0. reflexivity.
Qed.

(** A close that cannot be printed makes the loop body throw. *)
Lemma fetchSymbol_unprintable (w : World) (symbol : string) (st : State)
  (r : Response) (data ts : JSON) (d0 d1 : string) (o0 o1 : JSON) :
  fetch w (GET (DailyBrief.timeSeriesUrl w symbol)) = Ok r ->
  ok r = true ->
  json r = Ok data ->
  ownProperty data "Time Series (Daily)" = Some ts ->
  truthy (Some ts) = true ->
  DailyBrief.lastTwoDates ts = [d0; d1] ->
  ownProperty ts d0 = Some o0 -> o0 <> JNull ->
  ownProperty ts d1 = Some o1 -> o1 <> JNull ->
  Unprintable w (ownProperty o0 "4. close") \/ Unprintable w (ownProperty o1 "4. close") ->
  exists e st', DailyBrief.fetchSymbol w symbol st = (Throw e, st').
Proof.
  intros Hf Hok Hj Hts Htruthy Hdates H0 Hn0 H1 Hn1 Hun.
  destruct (fetchSymbol_closes w symbol st r data ts d0 d1 o0 o1) as (st1 & ->);
    try assumption.
  unfold bind at 1, toString_, settled.
  destruct (Value_toString (finiteToString w) (ownProperty o1 "4. close")) as [s1 | e1] eqn:E1;
    [|now eexists _, _].
  unfold bind at 1.
  destruct (Value_toString (finiteToString w) (ownProperty o0 "4. close")) as [s0 | e0] eqn:E0;
    [|now eexists _, _].
  exfalso. destruct Hun as [[e He] | [e He]]; unfold Prints in *; congruence.
Qed.

(** *** Keys that are dates

    The collector sorts the keys of the series as strings.  For keys of the
    form [YYYY-MM-DD] that order is the order of the calendar. *)

Lemma compare_decimalDigit (x y : N) (s t : string) :
  Str.compare (decimalDigit x :: s) (decimalDigit y :: t)
  = match N.compare (x mod 10) (y mod 10) with
    | Eq => Str.compare s t
    | c => c
    end.
Proof.
  cbn [Str.compare]. unfold decimalDigit.
  destruct (N.compare_spec (x mod 10) (y mod 10)) as [H | H | H].
  - rewrite H. now rewrite N.compare_refl.
  - assert (Hlt : (48 + x mod 10 < 48 + y mod 10)%N) by lia.
    apply N.compare_lt_iff in Hlt. now rewrite Hlt.
  - assert (Hgt : (48 + y mod 10 < 48 + x mod 10)%N) by lia.
    apply N.compare_gt_iff in Hgt. now rewrite Hgt.
Qed.

Lemma four_digits (n : N) :
  (n < 10000 ->
   n = 1000 * ((n / 1000) mod 10) + 100 * ((n / 100) mod 10) + 10 * ((n / 10) mod 10)
       + n mod 10)%N.
Proof. intros H. zify. Z.to_euclidean_division_equations. lia. Qed.

Lemma two_digits (n : N) : (n < 100 -> n = 10 * ((n / 10) mod 10) + n mod 10)%N.
Proof. intros H. zify. Z.to_euclidean_division_equations. lia. Qed.

Lemma isoDate_order (a b : Date) :
  ValidDate a -> ValidDate b ->
  (Str.ltb (isoDate a) (isoDate b) = true <-> Earlier a b).
Proof.
  destruct a as [ya ma da], b as [yb mb db].
  unfold ValidDate, Earlier, isoDate, Str.ltb. cbn [year month day].
  intros (Hya & Hma & Hda) (Hyb & Hmb & Hdb).
  pose proof (four_digits ya Hya) as Eya. pose proof (four_digits yb Hyb) as Eyb.
  pose proof (two_digits ma) as Ema. pose proof (two_digits mb) as Emb.
  pose proof (two_digits da) as Eda. pose proof (two_digits db) as Edb.
  assert (Hsame : forall c s t, Str.compare (c :: s) (c :: t) = Str.compare s t)
    by (intros c s t; cbn [Str.compare]; now rewrite N.compare_refl).
  repeat (rewrite compare_decimalDigit || rewrite Hsame). clear Hsame.
  cbn [Str.compare].
  assert (Hdigit : forall n, (n mod 10 < 10)%N) by (intros n; now apply N.mod_lt).
  pose proof (Hdigit (ya / 1000)%N). pose proof (Hdigit (yb / 1000)%N).
  pose proof (Hdigit (ya / 100)%N). pose proof (Hdigit (yb / 100)%N).
  pose proof (Hdigit (ya / 10)%N). pose proof (Hdigit (yb / 10)%N).
  pose proof (Hdigit ya). pose proof (Hdigit yb).
  pose proof (Hdigit (ma / 10)%N). pose proof (Hdigit (mb / 10)%N).
  pose proof (Hdigit ma). pose proof (Hdigit mb).
  pose proof (Hdigit (da / 10)%N). pose proof (Hdigit (db / 10)%N).
  pose proof (Hdigit da). pose proof (Hdigit db).
  clear Hdigit.
  generalize dependent ((ya / 1000) mod 10)%N. generalize dependent ((yb / 1000) mod 10)%N.
  generalize dependent ((ya / 100) mod 10)%N. generalize dependent ((yb / 100) mod 10)%N.
  generalize dependent ((ya / 10) mod 10)%N. generalize dependent ((yb / 10) mod 10)%N.
  generalize dependent (ya mod 10)%N. generalize dependent (yb mod 10)%N.
  generalize dependent ((ma / 10) mod 10)%N. generalize dependent ((mb / 10) mod 10)%N.
  generalize dependent (ma mod 10)%N. generalize dependent (mb mod 10)%N.
  generalize dependent ((da / 10) mod 10)%N. generalize dependent ((db / 10) mod 10)%N.
  generalize dependent (da mod 10)%N. generalize dependent (db mod 10)%N.
  intros.
  repeat match goal with
         | |- context [N.compare ?x ?y] =>
             destruct (N.compare_spec x y);
             [subst | split; [lia | reflexivity] | split; [discriminate | lia]]
         end.
  split; [discriminate | lia].
Qed.

(** The keys of the two latest dates are the two greatest keys. *)
Lemma mostRecentTwo_dates (dates : list Date) (d0 d1 : Date) :
  Forall ValidDate dates ->
  In d0 dates -> In d1 dates -> Earlier d0 d1 ->
  (forall d, In d dates -> d = d1 \/ d = d0 \/ Earlier d d0) ->
  MostRecentTwo (map isoDate dates) (isoDate d0) (isoDate d1).
Proof.
  intros Hvalid H0 H1 Hearlier Hlatest.
  rewrite Forall_forall in Hvalid.
  repeat split.
  - now apply in_map.
  - now apply in_map.
  - apply isoDate_order; auto.
  - intros k Hk. apply in_map_iff in Hk as (d & <- & Hd).
    destruct (Hlatest d Hd) as [-> | [-> | He]].
    + now left.
    + right. apply leb_refl.
    + right. apply (isoDate_order d d0) in He; auto.
      unfold Str.ltb in He. unfold Str.leb.
      now destruct (Str.compare (isoDate d) (isoDate d0)).
Qed.

Lemma mostRecentTwo_keys (fields : list (string * JSON)) (d0 d1 : string) :
  MostRecentTwo (map fst fields) d0 d1 -> MostRecentTwo (Object_keys (JObj fields)) d0 d1.
Proof.
  intros (H0 & H1 & Hlt & Hmax). cbn [Object_keys]. repeat split.
  - now apply dedup_in.
  - now apply dedup_in.
  - exact Hlt.
  - intros k Hk. apply Hmax. now apply dedup_in.
Qed.

Lemma hundred : Number.of_Z 100 = S754_finite false 7036874417766400 (-46).
Proof. reflexivity. Qed.

(** The two greatest keys are determined by the keys. *)
Lemma mostRecentTwo_unique (keys : list string) (d0 d1 e0 e1 : string) :
  MostRecentTwo keys d0 d1 -> MostRecentTwo keys e0 e1 -> d0 = e0 /\ d1 = e1.
Proof.
  intros (Hd0 & Hd1 & Hd & Hdmax) (He0 & He1 & He & Hemax).
  assert (H1 : d1 = e1).
  { destruct (Hemax d1 Hd1) as [H | H]; [exact H|].
    destruct (Hdmax e1 He1) as [H' | H']; [now symmetry|].
    exfalso.
    (* d1 <= e0 < e1 <= d0 < d1 *)
    apply (ltb_not_leb d0 d1 Hd).
    apply (leb_trans d1 e0 d0 H).
    apply (leb_trans e0 e1 d0); [|exact H'].
    unfold Str.ltb in He. unfold Str.leb. now destruct (Str.compare e0 e1). }
  subst e1. split; [|reflexivity].
  apply leb_antisym.
  - destruct (Hemax d0 Hd0) as [H | H]; [|exact H].
    exfalso. subst d0. now apply (ltb_irrefl d1).
  - destruct (Hdmax e0 He0) as [H | H]; [|exact H].
    exfalso. subst e0. now apply (ltb_irrefl d1).
Qed.

(** C3, as amended: for every answer of the time-series provider, with a
    2xx status, whose series is an object in which [d0] and [d1] are the
    two greatest keys in the order of [sort()] (the order of the code
    units: every other key is at most [d0], and [d0] is below [d1]) and
    hold observations other than [null] whose closes print as [s0] and
    [s1], the collector selects these two keys and computes, in binary64,
    change = latest close - previous close and
    changePercent = (change / previous close) * 100, the quotient first,
    which it renders by [toFixed(2)], to the nearest hundredth (see
    [nearestScaled_nearest]); previous close 100 and latest close 110 yield
    "10.00".  For keys of the form [YYYY-MM-DD], the keys of the two latest
    dates are the two greatest keys. *)
Theorem fetchSymbol_change_percent (w : World) (symbol : string) (st : State)
  (r : Response) (data : JSON) (fields : list (string * JSON))
  (d0 d1 : string) (o0 o1 : JSON) (s0 s1 : string) :
  fetch w (GET (DailyBrief.timeSeriesUrl w symbol)) = Ok r ->
  ok r = true ->
  json r = Ok data ->
  ownProperty data "Time Series (Daily)" = Some (JObj fields) ->
  MostRecentTwo (map fst fields) d0 d1 ->
  assoc d0 fields = Some o0 -> o0 <> JNull ->
  assoc d1 fields = Some o1 -> o1 <> JNull ->
  Prints w (ownProperty o0 "4. close") s0 ->
  Prints w (ownProperty o1 "4. close") s1 ->
  let latest := Number.parseFloat s1 in
  let previous := Number.parseFloat s0 in
  let change := SFsub 53 1024 latest previous in
  let percent := SFmul 53 1024 (SFdiv 53 1024 change previous) (Number.of_Z 100) in
  DailyBrief.lastTwoDates (JObj fields) = [d0; d1] /\
  fst (DailyBrief.fetchSymbol w symbol st)
  = Ok {| DailyBrief.price := latest;
          DailyBrief.changePercent := Number.toFixed (finiteToString w) percent 2 |} /\
  (previous = Number.of_Z 100 -> latest = Number.of_Z 110 ->
   Number.toFixed (finiteToString w) percent 2 = "10.00") /\
  (forall (dates : list Date) (a b : Date),
     map fst fields = map isoDate dates ->
     Forall ValidDate dates -> In a dates -> In b dates -> Earlier a b ->
     (forall d, In d dates -> d = b \/ d = a \/ Earlier d a) ->
     d0 = isoDate a /\ d1 = isoDate b).
Proof.
  intros Hf Hok Hj Hts Hrecent H0 Hn0 H1 Hn1 P0 P1.
  pose proof (lastTwoDates_most_recent fields d0 d1 (mostRecentTwo_keys _ _ _ Hrecent))
    as Hdates.
  cbv zeta. split; [exact Hdates|]. split; [|split].
  - now apply (fetchSymbol_quote w symbol st r data (JObj fields) d0 d1 o0 o1 s0 s1).
  - intros -> ->. reflexivity.
  - intros dates a b Hkeys Hvalid Ha Hb Hearlier Hlatest.
    pose proof (mostRecentTwo_dates dates a b Hvalid Ha Hb Hearlier Hlatest) as Hiso.
    rewrite <- Hkeys in Hiso.
    exact (mostRecentTwo_unique _ _ _ _ _ Hrecent Hiso).
Qed.

(** SPY closes at 100.0000, then at 110.0000. *)
Lemma fetchSymbol_change_percent_witness :
  fst (DailyBrief.fetchSymbol risingDay "SPY" initial)
  = Ok {| DailyBrief.price := Number.of_Z 110; DailyBrief.changePercent := "10.00" |}.
Proof.
  refine (proj1 (proj2
    (fetchSymbol_change_percent risingDay "SPY" initial
       (jsonResponse (dailySeries "100.0000" "110.0000"))
       (dailySeries "100.0000" "110.0000")
       [("2024-01-03", observation "110.0000");
        ("2024-01-02", observation "100.0000");
        ("2023-12-29", observation "95.0000")]
       "2024-01-02" "2024-01-03"
       (observation "100.0000") (observation "110.0000") "100.0000" "110.0000"
       eq_refl eq_refl eq_refl eq_refl _ eq_refl _ eq_refl _ eq_refl eq_refl))).
  - repeat split; cbn; try tauto.
    intros k [<- | [<- | [<- | []]]]; cbn; tauto.
  - discriminate.
  - discriminate.
Defined.

(** C3, as stated, fails: the claim multiplies by 100 before it divides,
    the collector after.  From a close of 160 to a close of 183 the change
    is 14.375 percent, which the formula of the claim gives exactly and
    [toFixed(2)] prints as "14.38"; the collector first rounds the quotient
    23 / 160, gets a product just below 14.375, and prints "14.37". *)
Lemma fetchSymbol_rounds_the_quotient :
  fst (DailyBrief.fetchSymbol steepDay "SPY" initial)
  = Ok {| DailyBrief.price := Number.of_Z 183; DailyBrief.changePercent := "14.37" |} /\
  specifiedChangePercent steepDay (Number.of_Z 183) (Number.of_Z 160) = "14.38".
Proof. split; reflexivity. Qed.

(** A previous close of zero is divided by. *)
Lemma zero_close_divided (w : World) (latest : Number.t) (s : bool) :
  let shown :=
    Number.toFixed (finiteToString w)
      (Number.mul (Number.div (Number.sub latest (S754_zero s)) (S754_zero s))
                  (Number.of_Z 100)) 2 in
  shown = "Infinity" \/ shown = "-Infinity" \/ shown = "NaN".
Proof.
  rewrite hundred.
  destruct latest as [[|] | [|] | | [|] m e]; destruct s; cbn; tauto.
Qed.

(** The snapshot, from the quotes of the loop and the answer of
    CoinGecko. *)
Lemma snapshot_of_quotes (w : World) (st : State)
  (spy qqq : DailyBrief.Quote) (r : Response) (data bitcoin : JSON)
  (usd change24h : Number.t) :
  (forall s, fst (DailyBrief.fetchSymbol w "SPY" s) = Ok spy) ->
  (forall s, fst (DailyBrief.fetchSymbol w "QQQ" s) = Ok qqq) ->
  fetch w (GET DailyBrief.coinGeckoUrl) = Ok r ->
  ok r = true ->
  json r = Ok data ->
  ownProperty data "bitcoin" = Some bitcoin ->
  truthy (Some bitcoin) = true ->
  ownProperty bitcoin "usd" = Some (JNum usd) ->
  ownProperty bitcoin "usd_24h_change" = Some (JNum change24h) ->
  fst (DailyBrief.fetchMarketData w st)
  = Ok ("Market snapshot: S&P 500 (via SPY): $" ++
        Number.toFixed (finiteToString w) (DailyBrief.price spy) 2 ++
        " (" ++ DailyBrief.changePercent spy ++ "%), Nasdaq (via QQQ): $" ++
        Number.toFixed (finiteToString w) (DailyBrief.price qqq) 2 ++
        " (" ++ DailyBrief.changePercent qqq ++ "%), Bitcoin: $" ++
        Number.toFixed (finiteToString w) usd 2 ++
        " (" ++ Number.toFixed (finiteToString w) change24h 2 ++ "%)").
Proof.
  intros Hspy Hqqq Hf Hok Hj Hbtc Htruthy Husd Hchange.
  unfold DailyBrief.fetchMarketData, try_catch, bind at 1.
  cbn [DailyBrief.forSymbols]. unfold bind at 1.
  pose proof (Hspy st) as H1.
  destruct (DailyBrief.fetchSymbol w "SPY" st) as [r1 st1]. cbn in H1. subst r1.
  unfold bind at 1.
  pose proof (Hqqq st1) as H2.
  destruct (DailyBrief.fetchSymbol w "QQQ" st1) as [r2 st2]. cbn in H2. subst r2.
  unfold ret at 1, bind at 1, fetch_. rewrite Hf.
  unfold bind at 1 2. rewrite Hok. cbn [negb ret].
  unfold bind at 1, settled. rewrite Hj.
  assert (Hbitcoin : bitcoin <> JNull) by (intros ->; discriminate Htruthy).
  unfold bind at 1.
  rewrite (get_defined data _ _ (ownProperty_not_null _ _ _ Hbtc)), Hbtc.
  unfold bind at 1 2. rewrite Htruthy. cbn [negb ret].
  unfold bind at 1. rewrite (get_defined bitcoin _ _ Hbitcoin), Husd.
  unfold bind at 1. rewrite (get_defined bitcoin _ _ Hbitcoin), Hchange.
  reflexivity.
Qed.

(** C4, as amended: for every answer of the time-series provider, with a
    2xx status, whose series is an object in which the two greatest keys
    hold observations other than [null] whose closes can be printed, when
    the previous close parses to zero the loop of [fetchMarketData] divides
    by it all the same: its body returns normally with the quote of the
    symbol, no failure is raised, and the change in that quote reads
    "Infinity", "-Infinity" or "NaN".  When moreover the quote of the other
    symbol is computed and CoinGecko answers with numbers for the price of
    bitcoin and its change, [fetchMarketData] returns the snapshot with
    that text as the change of the symbol, not the placeholder. *)
Theorem fetchSymbol_zero_close (w : World) (symbol : string) (st : State)
  (r : Response) (data : JSON) (fields : list (string * JSON))
  (d0 d1 : string) (o0 o1 : JSON) (s0 s1 : string) (s : bool) :
  fetch w (GET (DailyBrief.timeSeriesUrl w symbol)) = Ok r ->
  ok r = true ->
  json r = Ok data ->
  ownProperty data "Time Series (Daily)" = Some (JObj fields) ->
  MostRecentTwo (map fst fields) d0 d1 ->
  assoc d0 fields = Some o0 -> o0 <> JNull ->
  assoc d1 fields = Some o1 -> o1 <> JNull ->
  Prints w (ownProperty o0 "4. close") s0 ->
  Prints w (ownProperty o1 "4. close") s1 ->
  Number.parseFloat s0 = S754_zero s ->
  exists q,
    fst (DailyBrief.fetchSymbol w symbol st) = Ok q /\
    DailyBrief.price q = Number.parseFloat s1 /\
    (DailyBrief.changePercent q = "Infinity" \/
     DailyBrief.changePercent q = "-Infinity" \/
     DailyBrief.changePercent q = "NaN") /\
    forall (other : DailyBrief.Quote) (answer : Response) (prices bitcoin : JSON)
           (usd change24h : Number.t),
      fetch w (GET DailyBrief.coinGeckoUrl) = Ok answer ->
      ok answer = true ->
      json answer = Ok prices ->
      ownProperty prices "bitcoin" = Some bitcoin ->
      truthy (Some bitcoin) = true ->
      ownProperty bitcoin "usd" = Some (JNum usd) ->
      ownProperty bitcoin "usd_24h_change" = Some (JNum change24h) ->
      (symbol = "SPY" ->
       (forall s', fst (DailyBrief.fetchSymbol w "QQQ" s') = Ok other) ->
       fst (DailyBrief.fetchMarketData w st)
       = Ok ("Market snapshot: S&P 500 (via SPY): $" ++
             Number.toFixed (finiteToString w) (DailyBrief.price q) 2 ++
             " (" ++ DailyBrief.changePercent q ++ "%), Nasdaq (via QQQ): $" ++
             Number.toFixed (finiteToString w) (DailyBrief.price other) 2 ++
             " (" ++ DailyBrief.changePercent other ++ "%), Bitcoin: $" ++
             Number.toFixed (finiteToString w) usd 2 ++
             " (" ++ Number.toFixed (finiteToString w) change24h 2 ++ "%)")) /\
      (symbol = "QQQ" ->
       (forall s', fst (DailyBrief.fetchSymbol w "SPY" s') = Ok other) ->
       fst (DailyBrief.fetchMarketData w st)
       = Ok ("Market snapshot: S&P 500 (via SPY): $" ++
             Number.toFixed (finiteToString w) (DailyBrief.price other) 2 ++
             " (" ++ DailyBrief.changePercent other ++ "%), Nasdaq (via QQQ): $" ++
             Number.toFixed (finiteToString w) (DailyBrief.price q) 2 ++
             " (" ++ DailyBrief.changePercent q ++ "%), Bitcoin: $" ++
             Number.toFixed (finiteToString w) usd 2 ++
             " (" ++ Number.toFixed (finiteToString w) change24h 2 ++ "%)")).
Proof.
  intros Hf Hok Hj Hts Hrecent H0 Hn0 H1 Hn1 P0 P1 Hzero.
  assert (Hquote : forall s', fst (DailyBrief.fetchSymbol w symbol s')
            = Ok {| DailyBrief.price := Number.parseFloat s1;
                    DailyBrief.changePercent :=
                      Number.toFixed (finiteToString w)
                        (Number.mul
                           (Number.div
                              (Number.sub (Number.parseFloat s1) (Number.parseFloat s0))
                              (Number.parseFloat s0))
                           (Number.of_Z 100)) 2 |}).
  { intros s'.
    apply (fetchSymbol_quote w symbol s' r data (JObj fields) d0 d1 o0 o1 s0 s1);
      try assumption; try reflexivity.
    now apply lastTwoDates_most_recent, mostRecentTwo_keys. }
  eexists. split; [apply Hquote|]. split; [reflexivity|]. split.
  - cbn [DailyBrief.changePercent]. rewrite Hzero. apply zero_close_divided.
  - intros other answer prices bitcoin usd change24h Ha Haok Haj Hbtc Htruthy Husd Hchange.
    split; intros -> Hother.
    + now apply (snapshot_of_quotes w st _ other answer prices bitcoin usd change24h).
    + now apply (snapshot_of_quotes w st other _ answer prices bitcoin usd change24h).
Qed.

(** SPY closes at 0.0000, then at 110.0000. *)
Lemma fetchSymbol_zero_close_witness :
  exists q,
    fst (DailyBrief.fetchSymbol afterZeroClose "SPY" initial) = Ok q /\
    DailyBrief.price q = Number.parseFloat "110.0000" /\
    (DailyBrief.changePercent q = "Infinity" \/
     DailyBrief.changePercent q = "-Infinity" \/
     DailyBrief.changePercent q = "NaN") /\
    fst (DailyBrief.fetchMarketData afterZeroClose initial)
    = Ok ("Market snapshot: S&P 500 (via SPY): $110.00 (" ++ DailyBrief.changePercent q ++
          "%), Nasdaq (via QQQ): $398.00 (-0.50%), Bitcoin: $65000.50 (-1.23%)").
Proof.
  destruct (fetchSymbol_zero_close afterZeroClose "SPY" initial
       (jsonResponse (dailySeries "0.0000" "110.0000"))
       (dailySeries "0.0000" "110.0000")
       [("2024-01-03", observation "110.0000");
        ("2024-01-02", observation "0.0000");
        ("2023-12-29", observation "95.0000")]
       "2024-01-02" "2024-01-03"
       (observation "0.0000") (observation "110.0000") "0.0000" "110.0000" false
       eq_refl eq_refl eq_refl eq_refl)
    as (q & Hq & Hprice & Hchange & Hsnapshot);
    try reflexivity; try discriminate.
  - repeat split; cbn; try tauto.
    intros k [<- | [<- | [<- | []]]]; cbn; tauto.
  - exists q. split; [exact Hq|]. split; [exact Hprice|]. split; [exact Hchange|].
    rewrite (proj1 (Hsnapshot
                      {| DailyBrief.price := Number.of_Z 398;
                         DailyBrief.changePercent := "-0.50" |}
                      (jsonResponse coinGecko) coinGecko
                      (JObj [("usd", JNum (Number.of_decimal false 650005 (-1)));
                             ("usd_24h_change", JNum (Number.of_decimal true 1234 (-3)))])
                      (Number.of_decimal false 650005 (-1))
                      (Number.of_decimal true 1234 (-3))
                      eq_refl eq_refl eq_refl eq_refl eq_refl eq_refl eq_refl)
                   eq_refl (fun s' => eq_refl)).
    rewrite Hprice. reflexivity.
Defined.

(** C4, as stated, fails: after a close of zero the collector returns a
    snapshot with "Infinity" in it, not the placeholder of a failure. *)
Lemma fetchMarketData_divides_by_zero :
  fst (DailyBrief.fetchMarketData afterZeroClose initial)
  = Ok "Market snapshot: S&P 500 (via SPY): $110.00 (Infinity%), Nasdaq (via QQQ): $398.00 (-0.50%), Bitcoin: $65000.50 (-1.23%)".
Proof. reflexivity. Qed.

(** The snapshot of an ordinary day. *)
Example fetchMarketData_rising_day :
  fst (DailyBrief.fetchMarketData risingDay initial)
  = Ok "Market snapshot: S&P 500 (via SPY): $110.00 (10.00%), Nasdaq (via QQQ): $398.00 (-0.50%), Bitcoin: $65000.50 (-1.23%)".
Proof. reflexivity. Qed.

(** *** Failures *)

Lemma get_opt_falsy_get (data : JSON) (key : string) st :
  truthy (get_opt (Some data) key) = false ->
  (exists e, get (Some data) key st = (Throw e, st)) \/
  (exists v, get (Some data) key st = (Ok v, st) /\ truthy v = false).
Proof.
  destruct data; cbn; intros H; try (right; eexists; split; [reflexivity | exact H]).
  left. now eexists.
Qed.

(** A symbol whose quote cannot be had makes the loop body throw. *)
Lemma fetchSymbol_throws (w : World) (symbol : string) :
  SymbolFailure w symbol ->
  forall st, exists e st', DailyBrief.fetchSymbol w symbol st = (Throw e, st').
Proof.
  intros Hfail st.
  unfold DailyBrief.fetchSymbol.
  unfold bind at 1, fetch_.
  destruct Hfail as [e Hf | r Hf Hok | r e Hf Hj | r data Hf Hj Hts | r data ts Hf Hj Hts Hlen];
    rewrite Hf.
  - now eexists _, _.
  - unfold bind at 1 2. rewrite Hok. cbn [negb].
    unfold bind, settled. destruct (text r); cbn; now eexists _, _.
  - unfold bind at 1 2.
    destruct (ok r); cbn [negb];
      [|unfold bind, settled; destruct (text r); cbn; now eexists _, _].
    cbn [ret]. unfold bind at 1, settled. rewrite Hj. now eexists _, _.
  - unfold bind at 1 2.
    destruct (ok r); cbn [negb];
      [|unfold bind, settled; destruct (text r); cbn; now eexists _, _].
    cbn [ret]. unfold bind at 1, settled. rewrite Hj. unfold bind at 1.
    match goal with |- context [get _ ?k ?s] =>
      destruct (get_opt_falsy_get data k s Hts) as [[e ->] | [x [-> Hx]]] end.
    + now eexists _, _.
    + destruct x as [ts|]; [rewrite Hx|]; cbn; now eexists _, _.
  - unfold bind at 1 2.
    destruct (ok r); cbn [negb];
      [|unfold bind, settled; destruct (text r); cbn; now eexists _, _].
    cbn [ret]. unfold bind at 1, settled. rewrite Hj. unfold bind at 1.
    rewrite (get_defined data _ _ (ownProperty_not_null _ _ _ Hts)), Hts.
    destruct (truthy (Some ts)); cbn [negb]; [|cbn; now eexists _, _].
    assert (Hshort : (List.length (DailyBrief.lastTwoDates ts) < 2)%nat).
    { unfold DailyBrief.lastTwoDates.
      rewrite slice_last_two_short; rewrite sort_length; exact Hlen. }
    destruct (DailyBrief.lastTwoDates ts) as [|a [|b [|c l]]]; cbn in Hshort;
      try lia; cbn; now eexists _, _.
Qed.

Lemma forSymbols_throws (w : World) (symbol : string) (symbols : list string) :
  In symbol symbols -> SymbolFailure w symbol ->
  forall marketData st,
  exists e st', DailyBrief.forSymbols w symbols marketData st = (Throw e, st').
Proof.
  intros Hin Hfail.
  induction symbols as [|s rest IH]; [destruct Hin|].
  intros marketData st. cbn [DailyBrief.forSymbols]. unfold bind.
  destruct (DailyBrief.fetchSymbol w s st) as [[q | e] st1] eqn:Hrun.
  - destruct Hin as [-> | Hin].
    + destruct (fetchSymbol_throws w symbol Hfail st) as (e & st' & H). congruence.
    + apply (IH Hin).
  - now eexists _, _.
Qed.

(** The [try] block of [fetchMarketData], and what its [catch] does. *)
Lemma catch_market_placeholder (body : M string) (st : State) :
  (exists e st', body st = (Throw e, st')) ->
  fst (try_catch body
         (fun error =>
            console_error [PStr "Error fetching market data:"; PExn error] ;;;
            ret marketPlaceholder) st) = Ok marketPlaceholder.
Proof. intros (e & st' & H). unfold try_catch. now rewrite H. Qed.

Lemma fetchMarketData_placeholder (w : World) (st : State) :
  SymbolFailure w "SPY" \/ SymbolFailure w "QQQ" \/ BitcoinFailure w ->
  fst (DailyBrief.fetchMarketData w st) = Ok marketPlaceholder.
Proof.
  intros Hfail. apply catch_market_placeholder.
  unfold bind at 1.
  destruct (DailyBrief.forSymbols w ["SPY"; "QQQ"] [] st) as [[md | e] st1] eqn:Hloop;
    [|now eexists _, _].
  destruct Hfail as [H | [H | H]].
  - destruct (forSymbols_throws w "SPY" ["SPY"; "QQQ"] (or_introl eq_refl) H [] st)
      as (e & st' & Hthrow). congruence.
  - destruct (forSymbols_throws w "QQQ" ["SPY"; "QQQ"] (or_intror (or_introl eq_refl)) H [] st)
      as (e & st' & Hthrow). congruence.
  - unfold bind at 1, fetch_.
    destruct H as [e Hf | r Hf Hok | r e Hf Hj | r data Hf Hj Hbtc]; rewrite Hf.
    + now eexists _, _.
    + unfold bind at 1 2. rewrite Hok. cbn [negb].
      unfold bind, settled. destruct (text r); cbn; now eexists _, _.
    + unfold bind at 1 2.
      destruct (ok r); cbn [negb];
        [|unfold bind, settled; destruct (text r); cbn; now eexists _, _].
      cbn [ret]. unfold bind at 1, settled. rewrite Hj. now eexists _, _.
    + unfold bind at 1 2.
      destruct (ok r); cbn [negb];
        [|unfold bind, settled; destruct (text r); cbn; now eexists _, _].
      cbn [ret]. unfold bind at 1, settled. rewrite Hj. unfold bind at 1.
      match goal with |- context [get _ ?k ?s] =>
        destruct (get_opt_falsy_get data k s Hbtc) as [[e ->] | [x [-> Hx]]] end.
      * now eexists _, _.
      * unfold bind at 1 2. rewrite Hx. cbn. now eexists _, _.
Qed.

(** ** The market collector of [part_000] *)

Lemma fetchGlobalQuotes_placeholder (w : World) (st : State) :
  NoAnswer w (globalQuoteUrl w "^GSPC") \/
  NoAnswer w (globalQuoteUrl w "^IXIC") \/
  NoAnswer w (exchangeRateUrl w) ->
  fst (fetchGlobalQuotes w st) = Ok marketPlaceholder.
Proof.
  intros Hfail. apply catch_market_placeholder.
  unfold bind at 1 2 3 4 5 6, fetch_, settled.
  destruct (fetch w (GET (globalQuoteUrl w "^GSPC"))) as [r1 | e1] eqn:F1;
    [|now eexists _, _].
  destruct (json r1) as [sp500 | e1] eqn:J1; [|now eexists _, _].
  destruct (fetch w (GET (globalQuoteUrl w "^IXIC"))) as [r2 | e2] eqn:F2;
    [|now eexists _, _].
  destruct (json r2) as [nasdaq | e2] eqn:J2; [|now eexists _, _].
  destruct (fetch w (GET (exchangeRateUrl w))) as [r3 | e3] eqn:F3;
    [|now eexists _, _].
  destruct (json r3) as [bitcoin | e3] eqn:J3; [|now eexists _, _].
  exfalso.
  destruct Hfail as [H | [H | H]]; destruct H; congruence.
Qed.

Lemma fieldOrNA_defined (w : World) (answer : JSON) (section field : string) st :
  answer <> JNull ->
  fieldOrNA answer section field st
  = (Ok (or_else (get_opt (ownProperty answer section) field) (Some (JStr "N/A"))), st).
Proof.
  intros H. unfold fieldOrNA, bind. now rewrite (get_defined answer section st H).
Qed.


(** What the collector prints for a field of an answer. *)
Lemma reads_prints (w : World) (answer : JSON) (section field text : string) :
  Reads w answer section field text ->
  Value_toString (finiteToString w)
    (or_else (get_opt (ownProperty answer section) field) (Some (JStr "N/A"))) = Ok text.
Proof.
  intros [Hfalsy | v text' Hv Htruthy Hprints]; unfold or_else.
  - now rewrite Hfalsy.
  - now rewrite Hv, Htruthy.
Qed.

Lemma unprintable_throws (w : World) (answer : JSON) (section field : string) :
  FieldUnprintable w answer section field ->
  exists e,
    Value_toString (finiteToString w)
      (or_else (get_opt (ownProperty answer section) field) (Some (JStr "N/A"))) = Throw e.
Proof. intros [Htruthy [e He]]. exists e. unfold or_else. now rewrite Htruthy. Qed.


(** The run of the collector when the three requests are answered. *)
Lemma fetchGlobalQuotes_answered (w : World) (st : State) (sp500 nasdaq bitcoin : JSON) :
  Answers w (globalQuoteUrl w "^GSPC") sp500 ->
  Answers w (globalQuoteUrl w "^IXIC") nasdaq ->
  Answers w (exchangeRateUrl w) bitcoin ->
  let shown answer section field :=
    Value_toString (finiteToString w)
      (or_else (get_opt (ownProperty answer section) field) (Some (JStr "N/A"))) in
  fst (fetchGlobalQuotes w st)
  = match shown sp500 "Global Quote" "05. price",
          shown sp500 "Global Quote" "10. change percent",
          shown nasdaq "Global Quote" "05. price",
          shown nasdaq "Global Quote" "10. change percent",
          shown bitcoin "Realtime Currency Exchange Rate" "5. Exchange Rate" with
    | Ok p1, Ok c1, Ok p2, Ok c2, Ok p3 => Ok (quotesSnapshot p1 c1 p2 c2 p3)
    | _, _, _, _, _ => Ok marketPlaceholder
    end.
Proof.
  intros (r1 & F1 & J1 & N1) (r2 & F2 & J2 & N2) (r3 & F3 & J3 & N3). cbv zeta.
  unfold fetchGlobalQuotes, try_catch, bind at 1 2 3 4 5 6, fetch_, settled.
  rewrite F1, J1, F2, J2, F3, J3.
  unfold bind at 1. rewrite (fieldOrNA_defined w sp500) by assumption.
  unfold bind at 1. rewrite (fieldOrNA_defined w sp500) by assumption.
  unfold bind at 1. rewrite (fieldOrNA_defined w nasdaq) by assumption.
  unfold bind at 1. rewrite (fieldOrNA_defined w nasdaq) by assumption.
  unfold bind at 1. rewrite (fieldOrNA_defined w bitcoin) by assumption.
  unfold bind, toString_, settled.
  repeat match goal with
         | |- context [Value_toString ?f ?v] =>
             destruct (Value_toString f v); try reflexivity
         end.
Qed.

Lemma fetchGlobalQuotes_snapshot (w : World) (st : State) (sp500 nasdaq bitcoin : JSON)
  (p1 c1 p2 c2 p3 : string) :
  Answers w (globalQuoteUrl w "^GSPC") sp500 ->
  Answers w (globalQuoteUrl w "^IXIC") nasdaq ->
  Answers w (exchangeRateUrl w) bitcoin ->
  Reads w sp500 "Global Quote" "05. price" p1 ->
  Reads w sp500 "Global Quote" "10. change percent" c1 ->
  Reads w nasdaq "Global Quote" "05. price" p2 ->
  Reads w nasdaq "Global Quote" "10. change percent" c2 ->
  Reads w bitcoin "Realtime Currency Exchange Rate" "5. Exchange Rate" p3 ->
  fst (fetchGlobalQuotes w st) = Ok (quotesSnapshot p1 c1 p2 c2 p3).
Proof.
  intros A1 A2 A3 R1 R2 R3 R4 R5.
  rewrite (fetchGlobalQuotes_answered w st sp500 nasdaq bitcoin A1 A2 A3). cbv zeta.
  now rewrite (reads_prints _ _ _ _ _ R1), (reads_prints _ _ _ _ _ R2),
    (reads_prints _ _ _ _ _ R3), (reads_prints _ _ _ _ _ R4), (reads_prints _ _ _ _ _ R5).
Qed.

Lemma fetchGlobalQuotes_unprintable (w : World) (st : State) (sp500 nasdaq bitcoin : JSON) :
  Answers w (globalQuoteUrl w "^GSPC") sp500 ->
  Answers w (globalQuoteUrl w "^IXIC") nasdaq ->
  Answers w (exchangeRateUrl w) bitcoin ->
  FieldUnprintable w sp500 "Global Quote" "05. price" \/
  FieldUnprintable w sp500 "Global Quote" "10. change percent" \/
  FieldUnprintable w nasdaq "Global Quote" "05. price" \/
  FieldUnprintable w nasdaq "Global Quote" "10. change percent" \/
  FieldUnprintable w bitcoin "Realtime Currency Exchange Rate" "5. Exchange Rate" ->
  fst (fetchGlobalQuotes w st) = Ok marketPlaceholder.
Proof.
  intros A1 A2 A3 Hun.
  rewrite (fetchGlobalQuotes_answered w st sp500 nasdaq bitcoin A1 A2 A3). cbv zeta.
  destruct Hun as [H | [H | [H | [H | H]]]];
    destruct (unprintable_throws _ _ _ _ H) as [e ->];
    repeat match goal with
           | |- context [Value_toString ?f ?v] =>
               destruct (Value_toString f v); try reflexivity
           end;
    reflexivity.
Qed.

(** C1, as amended.  In [daily-brief.ts], whenever the request for SPY, for
    QQQ or for bitcoin is rejected, is answered with a status that is not
    2xx, or is answered without the JSON the collector looks for (no time
    series, fewer than two dates, no bitcoin entry), [fetchMarketData]
    returns exactly "Market data unavailable".  In [part_000] it returns
    that placeholder whenever one of the three requests is rejected or its
    body is not JSON.  When the three answers are JSON values other than
    [null] and every price or change the provider gave can be printed, it
    returns a snapshot in which every price or change the provider left out
    (as in an error it reports with status 200) reads "N/A", next to the
    figures of the other instruments; and when one of the prices or changes
    it gave cannot be printed, it returns the placeholder. *)
Theorem fetchMarketData_failure_policy (w : World) (st : State) :
  (SymbolFailure w "SPY" \/ SymbolFailure w "QQQ" \/ BitcoinFailure w ->
   fst (DailyBrief.fetchMarketData w st) = Ok marketPlaceholder) /\
  (NoAnswer w (globalQuoteUrl w "^GSPC") \/
   NoAnswer w (globalQuoteUrl w "^IXIC") \/
   NoAnswer w (exchangeRateUrl w) ->
   fst (MarketsBrief.fetchMarketData w st) = Ok marketPlaceholder /\
   fst (HuntBrief.fetchMarketData w st) = Ok marketPlaceholder) /\
  (forall sp500 nasdaq bitcoin,
     Answers w (globalQuoteUrl w "^GSPC") sp500 ->
     Answers w (globalQuoteUrl w "^IXIC") nasdaq ->
     Answers w (exchangeRateUrl w) bitcoin ->
     (forall p1 c1 p2 c2 p3,
        Reads w sp500 "Global Quote" "05. price" p1 ->
        Reads w sp500 "Global Quote" "10. change percent" c1 ->
        Reads w nasdaq "Global Quote" "05. price" p2 ->
        Reads w nasdaq "Global Quote" "10. change percent" c2 ->
        Reads w bitcoin "Realtime Currency Exchange Rate" "5. Exchange Rate" p3 ->
        let snapshot :=
          "Market snapshot: S&P 500: " ++ p1 ++ " (" ++ c1 ++ "), Nasdaq: " ++ p2 ++
          " (" ++ c2 ++ "), Bitcoin: $" ++ p3 in
        fst (MarketsBrief.fetchMarketData w st) = Ok snapshot /\
        fst (HuntBrief.fetchMarketData w st) = Ok snapshot) /\
     (FieldUnprintable w sp500 "Global Quote" "05. price" \/
      FieldUnprintable w sp500 "Global Quote" "10. change percent" \/
      FieldUnprintable w nasdaq "Global Quote" "05. price" \/
      FieldUnprintable w nasdaq "Global Quote" "10. change percent" \/
      FieldUnprintable w bitcoin "Realtime Currency Exchange Rate" "5. Exchange Rate" ->
      fst (MarketsBrief.fetchMarketData w st) = Ok marketPlaceholder /\
      fst (HuntBrief.fetchMarketData w st) = Ok marketPlaceholder)).
Proof.
  split; [|split].
  - apply fetchMarketData_placeholder.
  - intros H. split; apply fetchGlobalQuotes_placeholder; exact H.
  - intros sp500 nasdaq bitcoin A1 A2 A3. split.
    + intros p1 c1 p2 c2 p3 R1 R2 R3 R4 R5. cbv zeta.
      split; now apply (fetchGlobalQuotes_snapshot w st sp500 nasdaq bitcoin).
    + intros Hun. split; now apply (fetchGlobalQuotes_unprintable w st sp500 nasdaq bitcoin).
Qed.

(** With no network at all, both collectors return the placeholder. *)
Lemma fetchMarketData_failure_policy_witness :
  fst (DailyBrief.fetchMarketData offline initial) = Ok marketPlaceholder /\
  fst (MarketsBrief.fetchMarketData offline initial) = Ok marketPlaceholder.
Proof.
  destruct (fetchMarketData_failure_policy offline initial) as (Hseries & Hquotes & _).
  split.
  - apply Hseries. left. now apply (SymbolFetchRejected offline "SPY" (Error "fetch failed")).
  - apply Hquotes. left.
    now apply (AnswerRejected offline (globalQuoteUrl offline "^GSPC") (Error "fetch failed")).
Defined.

(** C1, as stated, fails: in [part_000], a provider error for one
    instrument gives a snapshot with "N/A" for it and the figures of the
    others, not the placeholder. *)
Lemma fetchMarketData_partial_snapshot :
  fetch oneSymbolRefused (GET (globalQuoteUrl oneSymbolRefused "^GSPC"))
  = Ok (jsonResponse (JObj [("Error Message", JStr "Invalid API call.")])) /\
  fst (MarketsBrief.fetchMarketData oneSymbolRefused initial)
  = Ok "Market snapshot: S&P 500: N/A (N/A), Nasdaq: 15000.1000 (0.5000%), Bitcoin: $65000.50000000" /\
  fst (HuntBrief.fetchMarketData oneSymbolRefused initial)
  = Ok "Market snapshot: S&P 500: N/A (N/A), Nasdaq: 15000.1000 (0.5000%), Bitcoin: $65000.50000000".
Proof. repeat split. Qed.


(** ** More about the market collector of [daily-brief.ts] *)

(** X6: when the quotes of SPY and QQQ are computed and CoinGecko answers
    with numbers for the price of bitcoin and its change, [fetchMarketData]
    returns the snapshot: each price and the change of bitcoin by
    [toFixed(2)], each change of a symbol as the loop rendered it. *)
Theorem fetchMarketData_snapshot (w : World) (st : State)
  (spy qqq : DailyBrief.Quote) (r : Response) (data bitcoin : JSON)
  (usd change24h : Number.t) :
  (forall s, fst (DailyBrief.fetchSymbol w "SPY" s) = Ok spy) ->
  (forall s, fst (DailyBrief.fetchSymbol w "QQQ" s) = Ok qqq) ->
  fetch w (GET DailyBrief.coinGeckoUrl) = Ok r ->
  ok r = true ->
  json r = Ok data ->
  ownProperty data "bitcoin" = Some bitcoin ->
  truthy (Some bitcoin) = true ->
  ownProperty bitcoin "usd" = Some (JNum usd) ->
  ownProperty bitcoin "usd_24h_change" = Some (JNum change24h) ->
  fst (DailyBrief.fetchMarketData w st)
  = Ok ("Market snapshot: S&P 500 (via SPY): $" ++
        Number.toFixed (finiteToString w) (DailyBrief.price spy) 2 ++
        " (" ++ DailyBrief.changePercent spy ++ "%), Nasdaq (via QQQ): $" ++
        Number.toFixed (finiteToString w) (DailyBrief.price qqq) 2 ++
        " (" ++ DailyBrief.changePercent qqq ++ "%), Bitcoin: $" ++
        Number.toFixed (finiteToString w) usd 2 ++
        " (" ++ Number.toFixed (finiteToString w) change24h 2 ++ "%)").
Proof. apply snapshot_of_quotes. Qed.

(** On the rising day. *)
Lemma fetchMarketData_snapshot_witness :
  fst (DailyBrief.fetchMarketData risingDay initial)
  = Ok "Market snapshot: S&P 500 (via SPY): $110.00 (10.00%), Nasdaq (via QQQ): $398.00 (-0.50%), Bitcoin: $65000.50 (-1.23%)".
Proof.
  refine (fetchMarketData_snapshot risingDay initial
            {| DailyBrief.price := Number.of_Z 110; DailyBrief.changePercent := "10.00" |}
            {| DailyBrief.price := Number.of_Z 398; DailyBrief.changePercent := "-0.50" |}
            (jsonResponse coinGecko) coinGecko
            (JObj [("usd", JNum (Number.of_decimal false 650005 (-1)));
                   ("usd_24h_change", JNum (Number.of_decimal true 1234 (-3)))])
            (Number.of_decimal false 650005 (-1)) (Number.of_decimal true 1234 (-3))
            _ _ eq_refl eq_refl eq_refl eq_refl eq_refl eq_refl eq_refl);
    intros s; reflexivity.
Defined.

(** *** Closes that are no numbers *)

Lemma percent_of_nan (w : World) (latest previous : Number.t) :
  latest = S754_nan \/ previous = S754_nan ->
  Number.toFixed (finiteToString w)
    (Number.mul (Number.div (Number.sub latest previous) previous) (Number.of_Z 100)) 2
  = "NaN".
Proof. intros [-> | ->]; [reflexivity | now destruct latest]. Qed.

(** X9: in the loop of [fetchMarketData], for an answer whose series is an
    object in which the two greatest keys hold observations other than
    [null]: when the closes can be printed and the text of one of them
    does not parse as a number, nothing is thrown, and the quote has the
    change "NaN", and a price that prints as "NaN" when it is the latest
    close that does not parse; this is so when the latest observation has
    no close at all (its text is then "undefined").  When one of the closes
    cannot be printed (an object with a property [toString] of its own),
    the body of the loop throws. *)
Theorem fetchSymbol_unparsable_close (w : World) (symbol : string) (st : State)
  (r : Response) (data : JSON) (fields : list (string * JSON))
  (d0 d1 : string) (o0 o1 : JSON) :
  fetch w (GET (DailyBrief.timeSeriesUrl w symbol)) = Ok r ->
  ok r = true ->
  json r = Ok data ->
  ownProperty data "Time Series (Daily)" = Some (JObj fields) ->
  MostRecentTwo (map fst fields) d0 d1 ->
  assoc d0 fields = Some o0 -> o0 <> JNull ->
  assoc d1 fields = Some o1 -> o1 <> JNull ->
  (forall s0 s1,
     Prints w (ownProperty o0 "4. close") s0 ->
     Prints w (ownProperty o1 "4. close") s1 ->
     Number.parseFloat s1 = S754_nan \/ Number.parseFloat s0 = S754_nan ->
     exists q,
       fst (DailyBrief.fetchSymbol w symbol st) = Ok q /\
       DailyBrief.changePercent q = "NaN" /\
       (Number.parseFloat s1 = S754_nan ->
        Number.toFixed (finiteToString w) (DailyBrief.price q) 2 = "NaN")) /\
  (forall s0,
     Prints w (ownProperty o0 "4. close") s0 ->
     ownProperty o1 "4. close" = None ->
     exists q,
       fst (DailyBrief.fetchSymbol w symbol st) = Ok q /\
       DailyBrief.changePercent q = "NaN" /\
       Number.toFixed (finiteToString w) (DailyBrief.price q) 2 = "NaN") /\
  (Unprintable w (ownProperty o0 "4. close") \/
   Unprintable w (ownProperty o1 "4. close") ->
   exists e st', DailyBrief.fetchSymbol w symbol st = (Throw e, st')).
Proof.
  intros Hf Hok Hj Hts Hrecent H0 Hn0 H1 Hn1.
  pose proof (lastTwoDates_most_recent fields d0 d1 (mostRecentTwo_keys _ _ _ Hrecent))
    as Hdates.
  assert (Hquote : forall s0 s1,
            Prints w (ownProperty o0 "4. close") s0 ->
            Prints w (ownProperty o1 "4. close") s1 ->
            Number.parseFloat s1 = S754_nan \/ Number.parseFloat s0 = S754_nan ->
            exists q,
              fst (DailyBrief.fetchSymbol w symbol st) = Ok q /\
              DailyBrief.changePercent q = "NaN" /\
              (Number.parseFloat s1 = S754_nan ->
               Number.toFixed (finiteToString w) (DailyBrief.price q) 2 = "NaN")).
  { intros s0 s1 P0 P1 Hnan. eexists. split; [|split].
    - now apply (fetchSymbol_quote w symbol st r data (JObj fields) d0 d1 o0 o1 s0 s1).
    - now apply percent_of_nan.
    - cbn [DailyBrief.price]. now intros ->. }
  split; [exact Hquote | split].
  - intros s0 P0 Hnone.
    destruct (Hquote s0 "undefined" P0) as (q & Hq & Hc & Hp).
    + unfold Prints. now rewrite Hnone.
    + now left.
    + exists q. repeat split; try assumption. now apply Hp.
  - intros Hun.
    now apply (fetchSymbol_unprintable w symbol st r data (JObj fields) d0 d1 o0 o1).
Qed.

(** The latest observation of SPY has no close. *)
Lemma fetchSymbol_unparsable_close_witness :
  exists q,
    fst (DailyBrief.fetchSymbol dayWithoutClose "SPY" initial) = Ok q /\
    DailyBrief.changePercent q = "NaN" /\
    Number.toFixed (finiteToString dayWithoutClose) (DailyBrief.price q) 2 = "NaN".
Proof.
  refine (proj1 (proj2 (fetchSymbol_unparsable_close dayWithoutClose "SPY" initial
       (jsonResponse seriesWithoutClose) seriesWithoutClose
       [("2024-01-03", JObj [("1. open", JStr "100.0000")]);
        ("2024-01-02", observation "100.0000")]
       "2024-01-02" "2024-01-03"
       (observation "100.0000") (JObj [("1. open", JStr "100.0000")])
       eq_refl eq_refl eq_refl eq_refl _ eq_refl _ eq_refl _)) "100.0000" eq_refl eq_refl).
  - repeat split; cbn; try tauto.
    intros k [<- | [<- | []]]; cbn; tauto.
  - discriminate.
  - discriminate.
Defined.

(** The snapshot of that day. *)
Example fetchMarketData_without_close :
  fst (DailyBrief.fetchMarketData dayWithoutClose initial)
  = Ok "Market snapshot: S&P 500 (via SPY): $NaN (NaN%), Nasdaq (via QQQ): $398.00 (-0.50%), Bitcoin: $65000.50 (-1.23%)".
Proof. reflexivity. Qed.

(** *** Prices that are no numbers *)

(** X16: when CoinGecko answers with a bitcoin entry whose price or whose
    change over 24 hours is no number (CoinGecko sends [null] for a change
    it does not know), [toFixed] cannot be called on it and the whole
    snapshot is lost: [fetchMarketData] returns "Market data unavailable",
    whatever the quotes of SPY and QQQ. *)
Theorem fetchMarketData_price_not_a_number (w : World) (st : State)
  (r : Response) (data bitcoin : JSON) :
  fetch w (GET DailyBrief.coinGeckoUrl) = Ok r ->
  json r = Ok data ->
  ownProperty data "bitcoin" = Some bitcoin ->
  NotANumber (ownProperty bitcoin "usd") \/
  NotANumber (ownProperty bitcoin "usd_24h_change") ->
  fst (DailyBrief.fetchMarketData w st) = Ok marketPlaceholder.
Proof.
  intros Hf Hj Hbtc Hnan.
  assert (Hthrows : forall expr v digits s, NotANumber v ->
            exists e, call_toFixed w expr v digits s = (Throw e, s)).
  { intros expr v digits s Hv. destruct v as [[| b | x | t | l | l]|]; try (now eexists).
    now destruct (Hv x). }
  apply catch_market_placeholder.
  unfold bind at 1.
  destruct (DailyBrief.forSymbols w ["SPY"; "QQQ"] [] st) as [[md | e] st1];
    [|now eexists _, _].
  unfold bind at 1, fetch_. rewrite Hf.
  unfold bind at 1 2.
  destruct (ok r); cbn [negb];
    [|unfold bind, settled; destruct (text r); cbn; now eexists _, _].
  cbn [ret]. unfold bind at 1, settled. rewrite Hj.
  unfold bind at 1.
  rewrite (get_defined data _ _ (ownProperty_not_null _ _ _ Hbtc)), Hbtc.
  unfold bind at 1 2.
  destruct (truthy (Some bitcoin)) eqn:Htruthy; cbn [negb]; [|cbn; now eexists _, _].
  assert (Hbitcoin : bitcoin <> JNull) by (intros ->; discriminate Htruthy).
  cbn [ret]. unfold bind at 1. rewrite (get_defined bitcoin _ _ Hbitcoin).
  unfold bind at 1. rewrite (get_defined bitcoin _ _ Hbitcoin).
  unfold bind at 1.
  destruct (ownProperty bitcoin "usd_24h_change") as [[| b | x | t | l | l]|] eqn:Hchange;
    try (cbn; now eexists _, _).
  destruct Hnan as [Husd | Hchange']; [|now destruct (Hchange' x)].
  cbn [call_toFixed ret]. unfold DailyBrief.entry, bind at 1.
  destruct (assoc "SPY" md); [|cbn; now eexists _, _].
  cbn [ret]. unfold bind at 1.
  destruct (assoc "QQQ" md); [|cbn; now eexists _, _].
  unfold ret at 1.
  match goal with |- context [call_toFixed w ?x ?v ?d ?s] =>
    destruct (Hthrows x v d s Husd) as [e ->] end.
  now eexists _, _.
Qed.

(** CoinGecko does not know the change of the day. *)
Lemma fetchMarketData_price_not_a_number_witness :
  fst (DailyBrief.fetchMarketData changeUnknown initial) = Ok marketPlaceholder.
Proof.
  refine (fetchMarketData_price_not_a_number changeUnknown initial
            (jsonResponse coinGeckoWithoutChange) coinGeckoWithoutChange
            (JObj [("usd", JNum (Number.of_decimal false 650005 (-1)));
                   ("usd_24h_change", JNull)])
            eq_refl eq_refl eq_refl _).
  right. intros x. discriminate.
Defined.

(** ** Which requests a computation sends *)

Section Sends.

Variable P : Request -> Prop.

Lemma sends_silent {A : Type} (m : M A) :
  (forall st, requests (snd (m st)) = requests st) -> sends P m.
Proof. intros H st. exists []. now rewrite H, app_nil_r. Qed.

Lemma sends_ret {A : Type} (a : A) : sends P (ret a).
Proof. now apply sends_silent. Qed.

Lemma sends_throw {A : Type} (e : Exn) : sends P (@throw A e).
Proof. now apply sends_silent. Qed.

Lemma sends_settled {A : Type} (r : Result A) : sends P (settled r).
Proof. now apply sends_silent. Qed.

Lemma sends_console_log args : sends P (console_log args).
Proof. now apply sends_silent. Qed.

Lemma sends_console_error args : sends P (console_error args).
Proof. now apply sends_silent. Qed.

Lemma sends_Date_now w : sends P (Date_now w).
Proof. now apply sends_silent. Qed.

Lemma sends_create w params : sends P (create_ w params).
Proof. now apply sends_silent. Qed.

Lemma sends_get v key : sends P (get v key).
Proof. apply sends_silent. intros st. now destruct v as [[]|]. Qed.

Lemma sends_destructure v key : sends P (destructure v key).
Proof. apply sends_silent. intros st. now destruct v. Qed.

Lemma sends_toString w v : sends P (toString_ w v).
Proof. now apply sends_silent. Qed.

Lemma sends_parseFloat w v : sends P (parseFloat_ w v).
Proof. now apply sends_silent. Qed.

Lemma sends_call_toFixed w expr v digits : sends P (call_toFixed w expr v digits).
Proof. apply sends_silent. intros st. now destruct v as [[]|]. Qed.

Lemma sends_fetch w req : P req -> sends P (fetch_ w req).
Proof. intros H st. exists [req]. split; [reflexivity | now constructor]. Qed.

Lemma sends_bind {A B : Type} (m : M A) (k : A -> M B) :
  sends P m -> (forall a, sends P (k a)) -> sends P (bind m k).
Proof.
  intros Hm Hk st. unfold bind.
  destruct (Hm st) as (new1 & H1 & F1).
  destruct (m st) as [[a | e] st1]; cbn in H1.
  - destruct (Hk a st1) as (new2 & H2 & F2).
    exists (new1 ++ new2)%list. rewrite H2, H1, app_assoc. split; [reflexivity|].
    now apply Forall_app.
  - now exists new1.
Qed.

Lemma sends_try_catch {A : Type} (m : M A) (h : Exn -> M A) :
  sends P m -> (forall e, sends P (h e)) -> sends P (try_catch m h).
Proof.
  intros Hm Hh st. unfold try_catch.
  destruct (Hm st) as (new1 & H1 & F1).
  destruct (m st) as [[a | e] st1]; cbn in H1.
  - now exists new1.
  - destruct (Hh e st1) as (new2 & H2 & F2).
    exists (new1 ++ new2)%list. rewrite H2, H1, app_assoc. split; [reflexivity|].
    now apply Forall_app.
Qed.

Lemma sends_both {A B : Type} (ma : M A) (mb : M B) :
  sends P ma -> sends P mb -> sends P (both ma mb).
Proof.
  intros Ha Hb st. unfold both.
  destruct (Ha st) as (new1 & H1 & F1).
  destruct (ma st) as [ra st1]; cbn in H1.
  destruct (Hb st1) as (new2 & H2 & F2).
  destruct (mb st1) as [rb st2]; cbn in H2.
  exists (new1 ++ new2)%list. split; [|now apply Forall_app].
  destruct ra, rb; cbn; now rewrite H2, H1, app_assoc.
Qed.

Lemma sends_all5 {A B C D E : Type}
  (ma : M A) (mb : M B) (mc : M C) (md : M D) (me : M E) :
  sends P ma -> sends P mb -> sends P mc -> sends P md -> sends P me ->
  sends P (Promise_all5 ma mb mc md me).
Proof.
  intros Ha Hb Hc Hd He st. unfold Promise_all5.
  pose proof (sends_both _ _ (sends_both _ _ (sends_both _ _ (sends_both _ _ Ha Hb) Hc) Hd) He st)
    as (new & H & F).
  exists new. split; [|exact F].
  destruct (both (both (both (both ma mb) mc) md) me st) as [[[[[[a b] c] d] e] | x] st'];
    exact H.
Qed.

Lemma sends_all4 {A B C D : Type} (ma : M A) (mb : M B) (mc : M C) (md : M D) :
  sends P ma -> sends P mb -> sends P mc -> sends P md ->
  sends P (Promise_all4 ma mb mc md).
Proof.
  intros Ha Hb Hc Hd st. unfold Promise_all4.
  pose proof (sends_both _ _ (sends_both _ _ (sends_both _ _ Ha Hb) Hc) Hd st)
    as (new & H & F).
  exists new. split; [|exact F].
  destruct (both (both (both ma mb) mc) md st) as [[[[[a b] c] d] | x] st'];
    exact H.
Qed.

Lemma sends_mapM {A B : Type} (f : A -> M B) (l : list A) :
  (forall a, sends P (f a)) -> sends P (mapM f l).
Proof.
  intros Hf. induction l as [|x l IH]; cbn [mapM].
  - apply sends_ret.
  - apply sends_bind; [apply Hf | intros y].
    apply sends_bind; [apply IH | intros ys]. apply sends_ret.
Qed.

End Sends.

(** Going through a computation, one statement at a time. *)
Ltac sends_step :=
  first
    [ apply sends_ret | apply sends_throw | apply sends_settled
    | apply sends_console_log | apply sends_console_error
    | apply sends_Date_now | apply sends_create | apply sends_get
    | apply sends_call_toFixed | apply sends_destructure
    | apply sends_toString | apply sends_parseFloat
    | apply sends_mapM; intros ?
    | apply sends_bind; [|intros ?]
    | apply sends_try_catch; [|intros ?]
    | apply sends_fetch; unfold notMail; cbn; discriminate
    | match goal with
      | |- sends _ (if ?b then _ else _) => destruct b
      | |- sends _ (match ?x with _ => _ end) => destruct x
      end ].

Ltac sends_all := repeat sends_step.

Lemma fetchAndParseRSS_sends (w : World) (u : string) :
  notMail (GET u) -> sends notMail (fetchAndParseRSS w u).
Proof.
  intros Hu. unfold fetchAndParseRSS.
  apply sends_try_catch; [|intros ?; sends_all].
  apply sends_bind; [now apply sends_fetch | intros ?]. sends_all.
Qed.

Lemma fetchGlobalQuotes_sends (w : World) : sends notMail (fetchGlobalQuotes w).
Proof.
  unfold fetchGlobalQuotes, fieldOrNA, globalQuoteUrl, exchangeRateUrl. sends_all.
Qed.

Lemma productHuntPosts_sends (w : World) (after before : string) :
  sends notMail (productHuntPosts w after before).
Proof. unfold productHuntPosts, renderPost. sends_all. Qed.

Lemma DailyBrief_fetchSymbol_sends (w : World) (symbol : string) :
  sends notMail (DailyBrief.fetchSymbol w symbol).
Proof.
  unfold DailyBrief.fetchSymbol, DailyBrief.quoteOfCloses, DailyBrief.timeSeriesUrl.
  sends_all.
Qed.

Lemma DailyBrief_forSymbols_sends (w : World) (symbols : list string) marketData :
  sends notMail (DailyBrief.forSymbols w symbols marketData).
Proof.
  revert marketData. induction symbols as [|s rest IH]; intros marketData;
    cbn [DailyBrief.forSymbols].
  - apply sends_ret.
  - apply sends_bind; [apply DailyBrief_fetchSymbol_sends | intros q; apply IH].
Qed.

Lemma DailyBrief_fetchMarketData_sends (w : World) :
  sends notMail (DailyBrief.fetchMarketData w).
Proof.
  unfold DailyBrief.fetchMarketData, DailyBrief.entry, DailyBrief.coinGeckoUrl.
  apply sends_try_catch; [|intros ?; sends_all].
  apply sends_bind; [apply DailyBrief_forSymbols_sends | intros ?]. sends_all.
Qed.

Lemma DailyBrief_fetchProductHuntPosts_sends (w : World) :
  sends notMail (DailyBrief.fetchProductHuntPosts w).
Proof.
  unfold DailyBrief.fetchProductHuntPosts.
  apply sends_try_catch; [|intros ?; sends_all].
  apply sends_bind; [apply sends_Date_now | intros ?].
  apply sends_bind; [apply sends_Date_now | intros ?].
  apply productHuntPosts_sends.
Qed.

Lemma HuntBrief_fetchProductHuntPosts_sends (w : World) :
  sends notMail (HuntBrief.fetchProductHuntPosts w).
Proof.
  unfold HuntBrief.fetchProductHuntPosts.
  apply sends_try_catch; [|intros ?; sends_all].
  apply sends_bind; [apply sends_Date_now | intros ?].
  apply sends_bind; [apply sends_Date_now | intros ?].
  apply productHuntPosts_sends.
Qed.

Lemma briefOf_sends (c : ChatCompletion) : sends notMail (briefOf c).
Proof. unfold briefOf. sends_all. Qed.

Lemma feeds_not_mail :
  notMail (GET "http://arxiv.org/rss/cs.AI") /\
  notMail (GET "https://news.ycombinator.com/rss") /\
  notMail (GET "https://rss.nytimes.com/services/xml/rss/nyt/World.xml").
Proof. repeat split; discriminate. Qed.

(** Building the brief sends nothing to the mail API. *)
Lemma DailyBrief_buildBrief_sends (w : World) : sends notMail (DailyBrief.buildBrief w).
Proof.
  destruct feeds_not_mail as (Hai & Hyc & Hworld).
  unfold DailyBrief.buildBrief.
  apply sends_try_catch; [|intros ?; sends_all].
  apply sends_bind.
  - apply sends_all5; try (now apply fetchAndParseRSS_sends).
    + apply DailyBrief_fetchProductHuntPosts_sends.
    + apply DailyBrief_fetchMarketData_sends.
  - intros [[[[ai yc] world] ph] md].
    apply sends_bind; [apply sends_create | intros c; apply briefOf_sends].
Qed.

Lemma MarketsBrief_buildBrief_sends (w : World) : sends notMail (MarketsBrief.buildBrief w).
Proof.
  destruct feeds_not_mail as (Hai & Hyc & Hworld).
  unfold MarketsBrief.buildBrief.
  apply sends_try_catch; [|intros ?; sends_all].
  apply sends_bind.
  - apply sends_all4; try (now apply fetchAndParseRSS_sends).
    apply fetchGlobalQuotes_sends.
  - intros [[[ai yc] world] md].
    apply sends_bind; [apply sends_create | intros c; apply briefOf_sends].
Qed.

Lemma HuntBrief_buildBrief_sends (w : World) : sends notMail (HuntBrief.buildBrief w).
Proof.
  destruct feeds_not_mail as (Hai & Hyc & Hworld).
  unfold HuntBrief.buildBrief.
  apply sends_try_catch; [|intros ?; sends_all].
  apply sends_bind.
  - apply sends_all5; try (now apply fetchAndParseRSS_sends).
    + apply HuntBrief_fetchProductHuntPosts_sends.
    + apply fetchGlobalQuotes_sends.
  - intros [[[[ai yc] world] ph] md].
    apply sends_bind; [apply sends_create | intros c; apply briefOf_sends].
Qed.

(** ** The summarizer and the entry point *)

Lemma askModel_throws (w : World) (prompt : string) (k : ChatCompletion -> M string) :
  ModelDown w ->
  forall st, exists e st', (completion <- askModel w prompt ;; k completion) st = (Throw e, st').
Proof.
  intros Hdown st. unfold bind, askModel, create_.
  destruct (Hdown {| model := "gpt-4o-mini";
                     messages := [ {| role := "user"; content := Some prompt |} ];
                     temperature := Number.of_decimal false 7 (-1);
                     max_tokens := 1500 |}) as [e ->].
  now eexists _, _.
Qed.

(** The [catch] of [buildBrief] throws again what the [try] threw. *)
Lemma rethrow_throws {A : Type} (collect : M A) (rest : A -> M string) :
  (forall x st, exists e st', rest x st = (Throw e, st')) ->
  forall st, exists e st',
    try_catch (x <- collect ;; rest x)
      (fun error =>
         console_error [PStr "Error building brief:"; PExn error] ;;; throw error) st
    = (Throw e, st').
Proof.
  intros Hrest st. unfold try_catch, bind at 1.
  destruct (collect st) as [[x | e] st1]; [|now eexists _, _].
  destruct (Hrest x st1) as (e & st2 & ->). now eexists _, _.
Qed.

Lemma DailyBrief_buildBrief_throws (w : World) :
  ModelDown w -> forall st, exists e st', DailyBrief.buildBrief w st = (Throw e, st').
Proof.
  intros Hdown. apply rethrow_throws.
  intros [[[[ai yc] world] ph] md]. now apply askModel_throws.
Qed.

Lemma MarketsBrief_buildBrief_throws (w : World) :
  ModelDown w -> forall st, exists e st', MarketsBrief.buildBrief w st = (Throw e, st').
Proof.
  intros Hdown. apply rethrow_throws.
  intros [[[ai yc] world] md]. now apply askModel_throws.
Qed.

Lemma HuntBrief_buildBrief_throws (w : World) :
  ModelDown w -> forall st, exists e st', HuntBrief.buildBrief w st = (Throw e, st').
Proof.
  intros Hdown. apply rethrow_throws.
  intros [[[[ai yc] world] ph] md]. now apply askModel_throws.
Qed.

(** When building the brief fails, the entry point answers 500 and has sent
    only what the building sent. *)
Lemma handlerOf_build_fails (w : World) (buildBrief : M string)
  (sendEmail : string -> M unit) (st : State) :
  (forall s, exists e s', buildBrief s = (Throw e, s')) ->
  sends notMail buildBrief ->
  exists reply st' new,
    handlerOf w buildBrief sendEmail "POST" st = (Ok reply, st') /\
    code reply = 500 /\
    requests st' = (requests st ++ new)%list /\
    Forall notMail new.
Proof.
  intros Hthrows Hsends.
  unfold handlerOf. cbn [Str.eqb N.eqb Pos.eqb andb negb].
  unfold try_catch, bind at 1, console_log.
  set (st1 := {| console := _ |}).
  unfold bind at 1.
  destruct (Hsends st1) as (new & Hreq & Hnew).
  destruct (Hthrows st1) as (e & st2 & Hrun). rewrite Hrun in *. cbn in Hreq.
  eexists _, _, new. repeat split; [|exact Hnew]. cbn. exact Hreq.
Qed.

(** C7: for every invocation in which the call to the summarization API
    throws, the entry point answers with status 500 and no request is sent
    to the mail API: [sendEmail] is never run.  This holds for the handler
    of [daily-brief.ts] and for the two of [part_000]. *)
Theorem handler_model_down (w : World) (st : State) :
  ModelDown w ->
  (exists reply st' new,
     DailyBrief.handler w "POST" st = (Ok reply, st') /\ code reply = 500 /\
     requests st' = (requests st ++ new)%list /\ Forall notMail new) /\
  (exists reply st' new,
     MarketsBrief.handler w "POST" st = (Ok reply, st') /\ code reply = 500 /\
     requests st' = (requests st ++ new)%list /\ Forall notMail new) /\
  (exists reply st' new,
     HuntBrief.handler w "POST" st = (Ok reply, st') /\ code reply = 500 /\
     requests st' = (requests st ++ new)%list /\ Forall notMail new).
Proof.
  intros Hdown. repeat split.
  - apply handlerOf_build_fails;
      [now apply DailyBrief_buildBrief_throws | apply DailyBrief_buildBrief_sends].
  - apply handlerOf_build_fails;
      [now apply MarketsBrief_buildBrief_throws | apply MarketsBrief_buildBrief_sends].
  - apply handlerOf_build_fails;
      [now apply HuntBrief_buildBrief_throws | apply HuntBrief_buildBrief_sends].
Qed.

(** With no network at all, the model is down. *)
Lemma handler_model_down_witness :
  exists reply st' new,
    DailyBrief.handler offline "POST" initial = (Ok reply, st') /\ code reply = 500 /\
    requests st' = (requests initial ++ new)%list /\ Forall notMail new.
Proof.
  refine (proj1 (handler_model_down offline initial _)).
  intros params. now exists (Error "Connection error.").
Defined.

(** ** What a computation leaves as it finds it *)

Section Keeps.

Context {X : Type}.
Variable part : State -> X.

Hypothesis apart_from_console :
  forall st c,
    part {| console := c; requests := requests st; chats := chats st; ticks := ticks st |}
    = part st.
Hypothesis apart_from_requests :
  forall st r,
    part {| console := console st; requests := r; chats := chats st; ticks := ticks st |}
    = part st.

Lemma keeps_ret {A : Type} (a : A) : keeps part (ret a).
Proof using Type. now intros st. Qed.

Lemma keeps_throw {A : Type} (e : Exn) : keeps part (@throw A e).
Proof using Type. now intros st. Qed.

Lemma keeps_settled {A : Type} (r : Result A) : keeps part (settled r).
Proof using Type. now intros st. Qed.

Lemma keeps_console_log args : keeps part (console_log args).
Proof using apart_from_console. intros st. apply apart_from_console. Qed.

Lemma keeps_console_error args : keeps part (console_error args).
Proof using apart_from_console. intros st. apply apart_from_console. Qed.

Lemma keeps_fetch w req : keeps part (fetch_ w req).
Proof using apart_from_requests. intros st. apply apart_from_requests. Qed.

Lemma keeps_get v key : keeps part (get v key).
Proof using Type. intros st. now destruct v as [[]|]. Qed.

Lemma keeps_destructure v key : keeps part (destructure v key).
Proof using Type. intros st. now destruct v. Qed.

Lemma keeps_toString w v : keeps part (toString_ w v).
Proof using Type. now intros st. Qed.

Lemma keeps_parseFloat w v : keeps part (parseFloat_ w v).
Proof using Type. now intros st. Qed.

Lemma keeps_call_toFixed w expr v digits : keeps part (call_toFixed w expr v digits).
Proof using Type. intros st. now destruct v as [[]|]. Qed.

Lemma keeps_bind {A B : Type} (m : M A) (k : A -> M B) :
  keeps part m -> (forall a, keeps part (k a)) -> keeps part (bind m k).
Proof using Type.
  intros Hm Hk st. unfold bind. specialize (Hm st).
  destruct (m st) as [[a | e] st1]; cbn in Hm; [|exact Hm].
  now rewrite Hk.
Qed.

Lemma keeps_try_catch {A : Type} (m : M A) (h : Exn -> M A) :
  keeps part m -> (forall e, keeps part (h e)) -> keeps part (try_catch m h).
Proof using Type.
  intros Hm Hh st. unfold try_catch. specialize (Hm st).
  destruct (m st) as [[a | e] st1]; cbn in Hm; [exact Hm|].
  now rewrite Hh.
Qed.

Lemma keeps_mapM {A B : Type} (f : A -> M B) (l : list A) :
  (forall a, keeps part (f a)) -> keeps part (mapM f l).
Proof using Type.
  intros Hf. induction l as [|x l IH]; cbn [mapM].
  - apply keeps_ret.
  - apply keeps_bind; [apply Hf | intros y].
    apply keeps_bind; [apply IH | intros ys]. apply keeps_ret.
Qed.

End Keeps.

Lemma keeps_chats_Date_now w : keeps chats (Date_now w).
Proof. now intros st. Qed.

Lemma keeps_ticks_create w params : keeps ticks (create_ w params).
Proof. now intros st. Qed.

Ltac keeps_step :=
  first
    [ apply keeps_ret | apply keeps_throw | apply keeps_settled
    | apply keeps_console_log; reflexivity
    | apply keeps_console_error; reflexivity
    | apply keeps_chats_Date_now | apply keeps_ticks_create
    | apply keeps_get | apply keeps_destructure
    | apply keeps_toString | apply keeps_parseFloat
    | apply keeps_call_toFixed
    | apply keeps_fetch; reflexivity
    | apply keeps_mapM; intros ?
    | apply keeps_bind; [|intros ?]
    | apply keeps_try_catch; [|intros ?]
    | match goal with
      | |- keeps _ (if ?b then _ else _) => destruct b
      | |- keeps _ (match ?x with _ => _ end) => destruct x
      end ].

Ltac keeps_all := repeat keeps_step.

Section KeepsBoth.

Context {X : Type}.
Variable part : State -> X.

Lemma DailyBrief_fetchSymbol_keeps (w : World) (symbol : string) :
  (forall st c,
     part {| console := c; requests := requests st; chats := chats st; ticks := ticks st |}
     = part st) ->
  (forall st r,
     part {| console := console st; requests := r; chats := chats st; ticks := ticks st |}
     = part st) ->
  keeps part (DailyBrief.fetchSymbol w symbol).
Proof.
  intros Hc Hr. unfold DailyBrief.fetchSymbol, DailyBrief.quoteOfCloses.
  repeat first
    [ apply keeps_ret | apply keeps_throw | apply keeps_settled
    | apply keeps_console_log; exact Hc
    | apply keeps_console_error; exact Hc
    | apply keeps_get | apply keeps_toString | apply keeps_parseFloat
    | apply keeps_fetch; exact Hr
    | apply keeps_bind; [|intros ?]
    | match goal with
      | |- keeps _ (if ?b then _ else _) => destruct b
      | |- keeps _ (match ?x with _ => _ end) => destruct x
      end ].
Qed.

End KeepsBoth.

Lemma DailyBrief_forSymbols_keeps {X : Type} (part : State -> X) (w : World)
  (symbols : list string) marketData :
  (forall st c,
     part {| console := c; requests := requests st; chats := chats st; ticks := ticks st |}
     = part st) ->
  (forall st r,
     part {| console := console st; requests := r; chats := chats st; ticks := ticks st |}
     = part st) ->
  keeps part (DailyBrief.forSymbols w symbols marketData).
Proof.
  intros Hc Hr. revert marketData.
  induction symbols as [|s rest IH]; intros marketData; cbn [DailyBrief.forSymbols].
  - apply keeps_ret.
  - apply keeps_bind; [now apply DailyBrief_fetchSymbol_keeps | intros q; apply IH].
Qed.

(** The collectors ask the model for nothing and, but for the two readings
    of [fetchProductHuntPosts], leave the clock alone. *)
Lemma DailyBrief_fetchMarketData_keeps :
  forall w, keeps chats (DailyBrief.fetchMarketData w) /\
            keeps ticks (DailyBrief.fetchMarketData w).
Proof.
  intros w. split; unfold DailyBrief.fetchMarketData, DailyBrief.entry;
    (apply keeps_try_catch; [|intros ?; keeps_all]);
    (apply keeps_bind; [now apply DailyBrief_forSymbols_keeps | intros ?]); keeps_all.
Qed.

Lemma fetchGlobalQuotes_keeps (w : World) :
  keeps chats (fetchGlobalQuotes w) /\ keeps ticks (fetchGlobalQuotes w).
Proof. split; unfold fetchGlobalQuotes, fieldOrNA; keeps_all. Qed.

Lemma productHuntPosts_keeps (w : World) (after before : string) :
  keeps chats (productHuntPosts w after before) /\
  keeps ticks (productHuntPosts w after before).
Proof. split; unfold productHuntPosts, renderPost; keeps_all. Qed.

Lemma DailyBrief_fetchProductHuntPosts_keeps (w : World) :
  keeps chats (DailyBrief.fetchProductHuntPosts w) /\
  (forall st, ticks (snd (DailyBrief.fetchProductHuntPosts w st)) = (ticks st + 2)%nat).
Proof.
  split.
  - unfold DailyBrief.fetchProductHuntPosts.
    apply keeps_try_catch; [|intros ?; keeps_all].
    apply keeps_bind; [apply keeps_chats_Date_now | intros ?].
    apply keeps_bind; [apply keeps_chats_Date_now | intros ?].
    apply productHuntPosts_keeps.
  - intros st. unfold DailyBrief.fetchProductHuntPosts, try_catch, bind at 1 2, Date_now.
    match goal with |- context [productHuntPosts w ?a ?b ?s] =>
      pose proof (proj2 (productHuntPosts_keeps w a b) s) as H;
      destruct (productHuntPosts w a b s) as [[x | e] s'] end;
      cbn in H |- *; rewrite H; cbn; lia.
Qed.

Lemma HuntBrief_fetchProductHuntPosts_keeps (w : World) :
  keeps chats (HuntBrief.fetchProductHuntPosts w) /\
  (forall st, ticks (snd (HuntBrief.fetchProductHuntPosts w st)) = (ticks st + 2)%nat).
Proof.
  split.
  - unfold HuntBrief.fetchProductHuntPosts.
    apply keeps_try_catch; [|intros ?; keeps_all].
    apply keeps_bind; [apply keeps_chats_Date_now | intros ?].
    apply keeps_bind; [apply keeps_chats_Date_now | intros ?].
    apply productHuntPosts_keeps.
  - intros st. unfold HuntBrief.fetchProductHuntPosts, try_catch, bind at 1 2, Date_now.
    match goal with |- context [productHuntPosts w ?a ?b ?s] =>
      pose proof (proj2 (productHuntPosts_keeps w a b) s) as H;
      destruct (productHuntPosts w a b s) as [[x | e] s'] end;
      cbn in H |- *; rewrite H; cbn; lia.
Qed.

(** *** Collectors never throw *)

Lemma total_try_return {A : Type} (m : M A) (args : Exn -> list Printed) (a : A) :
  total (try_catch m (fun error => console_error (args error) ;;; ret a)).
Proof.
  intros st. unfold try_catch.
  destruct (m st) as [[x | e] st1]; now eexists _, _.
Qed.

Lemma fetchAndParseRSS_total (w : World) (u : string) : total (fetchAndParseRSS w u).
Proof.
  intros st. destruct (fetchAndParseRSS_cases w u st) as (items & st' & H & _).
  now exists items, st'.
Qed.

Lemma both_total {A B : Type} (ma : M A) (mb : M B) :
  total ma -> total mb -> total (both ma mb).
Proof.
  intros Ha Hb st. unfold both.
  destruct (Ha st) as (a & st1 & ->). destruct (Hb st1) as (b & st2 & ->).
  now eexists _, _.
Qed.

Lemma Promise_all5_total {A B C D E : Type}
  (ma : M A) (mb : M B) (mc : M C) (md : M D) (me : M E) :
  total ma -> total mb -> total mc -> total md -> total me ->
  total (Promise_all5 ma mb mc md me).
Proof.
  intros Ha Hb Hc Hd He st. unfold Promise_all5.
  destruct (both_total _ _ (both_total _ _ (both_total _ _ (both_total _ _ Ha Hb) Hc) Hd) He st)
    as ([[[[a b] c] d] e] & st' & ->).
  now eexists _, _.
Qed.

Lemma Promise_all4_total {A B C D : Type} (ma : M A) (mb : M B) (mc : M C) (md : M D) :
  total ma -> total mb -> total mc -> total md ->
  total (Promise_all4 ma mb mc md).
Proof.
  intros Ha Hb Hc Hd st. unfold Promise_all4.
  destruct (both_total _ _ (both_total _ _ (both_total _ _ Ha Hb) Hc) Hd st)
    as ([[[a b] c] d] & st' & ->).
  now eexists _, _.
Qed.

(** *** A model with nothing to say *)

Lemma askModel_silent (w : World) (prompt : string) :
  ModelSilent w ->
  forall st, exists st',
    (completion <- askModel w prompt ;; briefOf completion) st = (Ok fallbackBrief, st').
Proof.
  intros Hsilent st. unfold bind, askModel, create_.
  destruct (Hsilent {| model := "gpt-4o-mini";
                       messages := [ {| role := "user"; content := Some prompt |} ];
                       temperature := Number.of_decimal false 7 (-1);
                       max_tokens := 1500 |}) as (choice & others & -> & Hcontent).
  unfold briefOf. cbn [choices].
  destruct Hcontent as [-> | ->]; now eexists.
Qed.

Lemma try_returns {A : Type} (collect : M A) (rest : A -> M string) (b : string) h :
  total collect ->
  (forall x st, exists st', rest x st = (Ok b, st')) ->
  forall st, exists st', try_catch (x <- collect ;; rest x) h st = (Ok b, st').
Proof.
  intros Hc Hrest st. unfold try_catch, bind at 1.
  destruct (Hc st) as (x & st1 & ->).
  destruct (Hrest x st1) as (st2 & ->). now eexists.
Qed.

Lemma DailyBrief_buildBrief_fallback (w : World) :
  ModelSilent w ->
  forall st, exists st', DailyBrief.buildBrief w st = (Ok fallbackBrief, st').
Proof.
  intros Hsilent. apply try_returns.
  - apply Promise_all5_total; try apply fetchAndParseRSS_total;
      exact (total_try_return _ (fun error => [PStr _; PExn error]) _).
  - intros [[[[ai yc] world] ph] md]. now apply askModel_silent.
Qed.

Lemma MarketsBrief_buildBrief_fallback (w : World) :
  ModelSilent w ->
  forall st, exists st', MarketsBrief.buildBrief w st = (Ok fallbackBrief, st').
Proof.
  intros Hsilent. apply try_returns.
  - apply Promise_all4_total; try apply fetchAndParseRSS_total;
      exact (total_try_return _ (fun error => [PStr _; PExn error]) _).
  - intros [[[ai yc] world] md]. now apply askModel_silent.
Qed.

Lemma HuntBrief_buildBrief_fallback (w : World) :
  ModelSilent w ->
  forall st, exists st', HuntBrief.buildBrief w st = (Ok fallbackBrief, st').
Proof.
  intros Hsilent. apply try_returns.
  - apply Promise_all5_total; try apply fetchAndParseRSS_total;
      exact (total_try_return _ (fun error => [PStr _; PExn error]) _).
  - intros [[[[ai yc] world] ph] md]. now apply askModel_silent.
Qed.

(** *** The run of the collectors *)

Lemma collector_run {A : Type} (m : M A) :
  total m -> keeps chats m ->
  forall st, exists a st', m st = (Ok a, st') /\ chats st' = chats st.
Proof.
  intros Ht Ha st. destruct (Ht st) as (a & st' & Hrun).
  exists a, st'. split; [exact Hrun|]. pose proof (Ha st) as H. now rewrite Hrun in H.
Qed.

Lemma feed_run (w : World) (u : string) (st : State) :
  exists items st',
    fetchAndParseRSS w u st = (Ok items, st') /\ chats st' = chats st /\
    ticks st' = ticks st /\ Collected w u items.
Proof.
  destruct (fetchAndParseRSS_cases w u st)
    as (items & st' & Hrun & _ & Hchats & Hticks & Hfail & Hserved).
  exists items, st'. repeat split; assumption.
Qed.

Lemma collected_gives (w : World) (u : string) (items given : list FeedItem) :
  Collected w u items -> Gives w u given -> items = given.
Proof.
  intros [Hfail Hserved] [served H | H]; [now apply Hserved | now apply Hfail].
Qed.

Lemma try_catch_bind_ok {A B : Type} (m : M A) (k : A -> M B) h st x st1 :
  m st = (Ok x, st1) -> try_catch (bind m k) h st = try_catch (k x) h st1.
Proof. unfold try_catch, bind. now intros ->. Qed.

(** What follows the collectors in [buildBrief], whatever the prompt: one
    request to the model, and the clock is not read. *)
Lemma summarizer_run (w : World) (prompt : string) (st : State) :
  let st' :=
    snd (try_catch
           (completion <- askModel w prompt ;; briefOf completion)
           (fun error =>
              console_error [PStr "Error building brief:"; PExn error] ;;;
              throw error) st) in
  chats st' = (chats st ++ [completionRequest prompt])%list /\ ticks st' = ticks st.
Proof.
  cbv zeta. unfold try_catch, bind, askModel, create_, briefOf.
  fold (completionRequest prompt).
  destruct (chat_completions_create w (completionRequest prompt)) as [c | e];
    [|now split].
  now destruct (choices c).
Qed.

(** [buildBrief] runs its collectors, which ask the model for nothing and
    never throw, then the summarizer on the prompt made of what they
    returned. *)
Lemma DailyBrief_buildBrief_run (w : World) (st : State) :
  exists ai yc world ph md st1,
    DailyBrief.buildBrief w st
    = try_catch
        (completion <- askModel w (DailyBrief.prompt ai yc world ph md) ;;
         briefOf completion)
        (fun error =>
           console_error [PStr "Error building brief:"; PExn error] ;;;
           throw error) st1 /\
    chats st1 = chats st /\ ticks st1 = (ticks st + 2)%nat /\
    Collected w "http://arxiv.org/rss/cs.AI" ai /\
    Collected w "https://news.ycombinator.com/rss" yc /\
    Collected w "https://rss.nytimes.com/services/xml/rss/nyt/World.xml" world.
Proof.
  destruct (feed_run w "http://arxiv.org/rss/cs.AI" st) as (ai & s1 & R1 & C1 & T1 & K1).
  destruct (feed_run w "https://news.ycombinator.com/rss" s1)
    as (yc & s2 & R2 & C2 & T2 & K2).
  destruct (feed_run w "https://rss.nytimes.com/services/xml/rss/nyt/World.xml" s2)
    as (world & s3 & R3 & C3 & T3 & K3).
  destruct (collector_run (DailyBrief.fetchProductHuntPosts w)
              (total_try_return _ (fun error => [PStr _; PExn error]) _)
              (proj1 (DailyBrief_fetchProductHuntPosts_keeps w)) s3) as (ph & s4 & R4 & C4).
  pose proof (proj2 (DailyBrief_fetchProductHuntPosts_keeps w) s3) as T4.
  rewrite R4 in T4. cbn in T4.
  destruct (collector_run (DailyBrief.fetchMarketData w)
              (total_try_return _ (fun error => [PStr _; PExn error]) _)
              (proj1 (DailyBrief_fetchMarketData_keeps w)) s4) as (md & s5 & R5 & C5).
  pose proof (proj2 (DailyBrief_fetchMarketData_keeps w) s4) as T5.
  rewrite R5 in T5. cbn in T5.
  exists ai, yc, world, ph, md, s5. repeat split; try assumption; try congruence;
    try apply K1; try apply K2; try apply K3.
  unfold DailyBrief.buildBrief.
  erewrite try_catch_bind_ok
    by (unfold Promise_all5, both; rewrite R1, R2, R3, R4, R5; reflexivity).
  reflexivity.
Qed.

Lemma MarketsBrief_buildBrief_run (w : World) (st : State) :
  exists ai yc world md st1,
    MarketsBrief.buildBrief w st
    = try_catch
        (completion <- askModel w (MarketsBrief.prompt ai yc world md) ;;
         briefOf completion)
        (fun error =>
           console_error [PStr "Error building brief:"; PExn error] ;;;
           throw error) st1 /\
    chats st1 = chats st /\ ticks st1 = ticks st /\
    Collected w "http://arxiv.org/rss/cs.AI" ai /\
    Collected w "https://news.ycombinator.com/rss" yc /\
    Collected w "https://rss.nytimes.com/services/xml/rss/nyt/World.xml" world.
Proof.
  destruct (feed_run w "http://arxiv.org/rss/cs.AI" st) as (ai & s1 & R1 & C1 & T1 & K1).
  destruct (feed_run w "https://news.ycombinator.com/rss" s1)
    as (yc & s2 & R2 & C2 & T2 & K2).
  destruct (feed_run w "https://rss.nytimes.com/services/xml/rss/nyt/World.xml" s2)
    as (world & s3 & R3 & C3 & T3 & K3).
  destruct (collector_run (MarketsBrief.fetchMarketData w)
              (total_try_return _ (fun error => [PStr _; PExn error]) _)
              (proj1 (fetchGlobalQuotes_keeps w)) s3) as (md & s4 & R4 & C4).
  pose proof (proj2 (fetchGlobalQuotes_keeps w) s3) as T4.
  unfold MarketsBrief.fetchMarketData in R4. rewrite R4 in T4. cbn in T4.
  exists ai, yc, world, md, s4. repeat split; try assumption; try congruence;
    try apply K1; try apply K2; try apply K3.
  unfold MarketsBrief.buildBrief.
  erewrite try_catch_bind_ok
    by (unfold Promise_all4, both, MarketsBrief.fetchMarketData;
        rewrite R1, R2, R3, R4; reflexivity).
  reflexivity.
Qed.

Lemma HuntBrief_buildBrief_run (w : World) (st : State) :
  exists ai yc world ph md st1,
    HuntBrief.buildBrief w st
    = try_catch
        (completion <- askModel w (HuntBrief.prompt ai yc world ph md) ;;
         briefOf completion)
        (fun error =>
           console_error [PStr "Error building brief:"; PExn error] ;;;
           throw error) st1 /\
    chats st1 = chats st /\ ticks st1 = (ticks st + 2)%nat /\
    Collected w "http://arxiv.org/rss/cs.AI" ai /\
    Collected w "https://news.ycombinator.com/rss" yc /\
    Collected w "https://rss.nytimes.com/services/xml/rss/nyt/World.xml" world.
Proof.
  destruct (feed_run w "http://arxiv.org/rss/cs.AI" st) as (ai & s1 & R1 & C1 & T1 & K1).
  destruct (feed_run w "https://news.ycombinator.com/rss" s1)
    as (yc & s2 & R2 & C2 & T2 & K2).
  destruct (feed_run w "https://rss.nytimes.com/services/xml/rss/nyt/World.xml" s2)
    as (world & s3 & R3 & C3 & T3 & K3).
  destruct (collector_run (HuntBrief.fetchProductHuntPosts w)
              (total_try_return _ (fun error => [PStr _; PExn error]) _)
              (proj1 (HuntBrief_fetchProductHuntPosts_keeps w)) s3) as (ph & s4 & R4 & C4).
  pose proof (proj2 (HuntBrief_fetchProductHuntPosts_keeps w) s3) as T4.
  rewrite R4 in T4. cbn in T4.
  destruct (collector_run (HuntBrief.fetchMarketData w)
              (total_try_return _ (fun error => [PStr _; PExn error]) _)
              (proj1 (fetchGlobalQuotes_keeps w)) s4) as (md & s5 & R5 & C5).
  pose proof (proj2 (fetchGlobalQuotes_keeps w) s4) as T5.
  unfold HuntBrief.fetchMarketData in R5. rewrite R5 in T5. cbn in T5.
  exists ai, yc, world, ph, md, s5. repeat split; try assumption; try congruence;
    try apply K1; try apply K2; try apply K3.
  unfold HuntBrief.buildBrief.
  erewrite try_catch_bind_ok
    by (unfold Promise_all5, both, HuntBrief.fetchMarketData;
        rewrite R1, R2, R3, R4, R5; reflexivity).
  reflexivity.
Qed.

(** How often [buildBrief] reads the clock. *)
Lemma buildBrief_ticks (w : World) (st : State) :
  ticks (snd (DailyBrief.buildBrief w st)) = (ticks st + 2)%nat /\
  ticks (snd (MarketsBrief.buildBrief w st)) = ticks st /\
  ticks (snd (HuntBrief.buildBrief w st)) = (ticks st + 2)%nat.
Proof.
  split; [|split].
  - destruct (DailyBrief_buildBrief_run w st) as (ai & yc & world & ph & md & st1 & -> & _ & T & _).
    now rewrite (proj2 (summarizer_run w _ st1)).
  - destruct (MarketsBrief_buildBrief_run w st) as (ai & yc & world & md & st1 & -> & _ & T & _).
    now rewrite (proj2 (summarizer_run w _ st1)).
  - destruct (HuntBrief_buildBrief_run w st) as (ai & yc & world & ph & md & st1 & -> & _ & T & _).
    now rewrite (proj2 (summarizer_run w _ st1)).
Qed.

(** *** Delivery *)

Lemma emailRequest_specified (w : World) (subject : string) (fields : list (string * JSON)) :
  MailRequest w subject fields (emailRequest w (env w "RESEND_API_KEY") subject fields).
Proof. repeat split. Qed.

(** [sendEmail] sends one request, whatever comes of it, and reads the
    clock once, for the date in the subject. *)
Lemma deliver_request (w : World) (apiKey : option string) (subjectPrefix : string)
  (bodyFields : list (string * JSON)) (st : State) :
  requests (snd (deliver w apiKey subjectPrefix bodyFields st))
  = (requests st ++
     [emailRequest w apiKey
        (subjectPrefix ++ toLocaleDateString w "en-US" (clock w (ticks st)))
        bodyFields])%list.
Proof.
  unfold deliver, try_catch, bind, Date_now, fetch_, toString_, settled.
  cbn [ticks requests].
  destruct (fetch w _) as [response | e]; [|reflexivity].
  destruct (ok response); cbn [negb]; [reflexivity|].
  destruct (json response) as [errorData | e]; [|reflexivity].
  destruct errorData; try reflexivity; unfold get, ret; cbv beta iota;
    match goal with |- context [Value_toString ?f ?v] => now destruct (Value_toString f v) end.
Qed.

(** What becomes of [sendEmail] when the mail API accepts the request. *)
Lemma deliver_accepted (w : World) apiKey subjectPrefix bodyFields (st : State) :
  MailAccepted w ->
  exists st', deliver w apiKey subjectPrefix bodyFields st = (Ok tt, st').
Proof.
  intros Hmail. unfold deliver, try_catch, bind, Date_now, fetch_.
  match goal with |- context [fetch w ?req] =>
    destruct (Hmail req eq_refl) as (r & -> & Hok) end.
  rewrite Hok. cbn. now eexists.
Qed.

(** ... and when it does not. *)
Lemma deliver_refused (w : World) apiKey subjectPrefix bodyFields (st : State) :
  MailRefused w ->
  exists e st', deliver w apiKey subjectPrefix bodyFields st = (Throw e, st').
Proof.
  intros Hmail. unfold deliver, try_catch, bind, Date_now, fetch_, toString_, settled.
  match goal with |- context [fetch w ?req] =>
    destruct (Hmail req eq_refl) as [[e ->] | (r & -> & Hok)] end.
  - cbn. now eexists _, _.
  - rewrite Hok. cbn [negb].
    destruct (json r) as [errorData | e]; [|cbn; now eexists _, _].
    destruct errorData; try (cbn; now eexists _, _); unfold get, ret; cbv beta iota;
      match goal with |- context [Value_toString ?f ?v] =>
        destruct (Value_toString f v); cbn; now eexists _, _ end.
Qed.

Lemma deliver_ok_accepted (w : World) apiKey subjectPrefix bodyFields (st : State) :
  fst (deliver w apiKey subjectPrefix bodyFields st) = Ok tt ->
  exists r,
    fetch w (emailRequest w apiKey
               (subjectPrefix ++ toLocaleDateString w "en-US" (clock w (ticks st)))
               bodyFields) = Ok r /\
    ok r = true.
Proof.
  unfold deliver, try_catch, bind, Date_now, fetch_, toString_, settled. cbn [ticks].
  destruct (fetch w _) as [r | e]; [|discriminate].
  destruct (ok r) eqn:Hok; cbn [negb].
  - intros _. now exists r.
  - destruct (json r) as [errorData | e]; [|discriminate].
    destruct errorData; try discriminate; unfold get, ret; cbv beta iota;
      match goal with |- context [Value_toString ?f ?v] =>
        now destruct (Value_toString f v) end.
Qed.

(** What [sendEmail] throws when the mail API answers with a status that is
    not 2xx. *)
Lemma deliver_refusal (w : World) apiKey subjectPrefix bodyFields (r : Response) (st : State) :
  MailAnswers w r -> ok r = false ->
  (forall errorData, json r = Ok errorData -> errorData <> JNull ->
     exists st',
       deliver w apiKey subjectPrefix bodyFields st
       = (Throw (match Value_toString (finiteToString w)
                         (or_else (ownProperty errorData "message")
                                  (Some (JStr (statusText r)))) with
                 | Ok shown => Error ("Resend API error: " ++ shown)
                 | Throw e => e
                 end), st')) /\
  (json r = Ok JNull ->
   exists st',
     deliver w apiKey subjectPrefix bodyFields st
     = (Throw (TypeError "null (reading 'message')"), st')) /\
  (forall e, json r = Throw e ->
     exists st', deliver w apiKey subjectPrefix bodyFields st = (Throw e, st')).
Proof.
  intros Hmail Hok.
  unfold deliver, try_catch, bind, Date_now, fetch_, toString_, settled.
  match goal with |- context [fetch w ?req] => rewrite (Hmail req eq_refl) end.
  rewrite Hok. cbn [negb]. split; [|split].
  - intros errorData -> Hnn.
    rewrite (get_defined errorData _ _ Hnn).
    destruct (Value_toString _ _); now eexists.
  - intros ->. now eexists.
  - intros e ->. now eexists.
Qed.

(** *** The entry point *)

(** When the brief is built, the entry point hands it to [sendEmail]: the
    request for the mail API is the last one sent. *)
Lemma handlerOf_delivers (w : World) (buildBrief : M string)
  (sendEmail : string -> M unit) (brief : string) (st : State)
  (requestOf : State -> Request) (readings : nat) :
  (forall s, exists s', buildBrief s = (Ok brief, s')) ->
  sends notMail buildBrief ->
  (forall s, ticks (snd (buildBrief s)) = (ticks s + readings)%nat) ->
  (forall s, requests (snd (sendEmail brief s)) = (requests s ++ [requestOf s])%list) ->
  exists new s,
    requests (snd (handlerOf w buildBrief sendEmail "POST" st))
    = (requests st ++ new ++ [requestOf s])%list /\
    Forall notMail new /\
    ticks s = (ticks st + readings)%nat.
Proof.
  intros Hbuilt Hsends Hticks Hmail.
  unfold handlerOf. cbn [Str.eqb N.eqb Pos.eqb andb negb].
  unfold try_catch, bind at 1, console_log.
  set (st1 := {| console := _ |}).
  unfold bind at 1.
  destruct (Hsends st1) as (new & Hreq & Hnew).
  pose proof (Hticks st1) as Hread.
  destruct (Hbuilt st1) as (st2 & Hrun). rewrite Hrun in *. cbn in Hreq, Hread.
  unfold bind at 1. set (st3 := {| console := _ |}).
  exists new, st3. split; [|split; [exact Hnew | exact Hread]].
  unfold bind at 1.
  pose proof (Hmail st3) as Hsent.
  destruct (sendEmail brief st3) as [[[] | e] st4]; cbn in Hsent |- *;
    rewrite Hsent; subst st3; cbn; now rewrite Hreq, app_assoc.
Qed.

Lemma handlerOf_accepted (w : World) (buildBrief : M string)
  (sendEmail : string -> M unit) (brief : string) (st : State) :
  (forall s, exists s', buildBrief s = (Ok brief, s')) ->
  (forall s, exists s', sendEmail brief s = (Ok tt, s')) ->
  exists reply,
    fst (handlerOf w buildBrief sendEmail "POST" st) = Ok reply /\ code reply = 200.
Proof.
  intros Hbuilt Hmail. unfold handlerOf. cbn [Str.eqb N.eqb Pos.eqb andb negb].
  unfold try_catch, bind at 1, console_log.
  set (st1 := {| console := _ |}). unfold bind at 1.
  destruct (Hbuilt st1) as (st2 & ->).
  unfold bind at 1. set (st3 := {| console := _ |}). unfold bind at 1.
  destruct (Hmail st3) as (st4 & ->).
  cbn. now eexists.
Qed.

Lemma handlerOf_outcome (w : World) (buildBrief : M string)
  (sendEmail : string -> M unit) (requestOf : string -> State -> Request) (st : State) :
  sends notMail buildBrief ->
  (forall b s, requests (snd (sendEmail b s)) = (requests s ++ [requestOf b s])%list) ->
  (forall b s, url (requestOf b s) = resendUrl /\ method (requestOf b s) = "POST") ->
  (forall b s, fst (sendEmail b s) = Ok tt ->
               exists r, fetch w (requestOf b s) = Ok r /\ ok r = true) ->
  HandlerOutcome w st (handlerOf w buildBrief sendEmail "POST" st).
Proof.
  intros Hsends Hmail Hurl Hok.
  assert (Hrun : exists reply st' new,
             handlerOf w buildBrief sendEmail "POST" st = (Ok reply, st') /\
             requests st' = (requests st ++ new)%list /\
             ((code reply = 500 /\ Forall notMail new) \/
              (exists before mail,
                 new = (before ++ [mail])%list /\ Forall notMail before /\
                 url mail = resendUrl /\ method mail = "POST" /\
                 (code reply = 500 \/
                  (code reply = 200 /\ exists r, fetch w mail = Ok r /\ ok r = true))))).
  { unfold handlerOf. cbn [Str.eqb N.eqb Pos.eqb andb negb].
    unfold try_catch, bind at 1, console_log.
    set (st1 := {| console := _ |}). unfold bind at 1.
    destruct (Hsends st1) as (new & Hreq & Hnew).
    destruct (buildBrief st1) as [[b | e] st2]; cbn in Hreq.
    2:{ eexists _, _, new. split; [reflexivity|]. cbn. split; [exact Hreq|].
        left. now split. }
    unfold bind at 1. set (st3 := {| console := _ |}). unfold bind at 1.
    pose proof (Hmail b st3) as Hsent. pose proof (Hok b st3) as Haccepted.
    destruct (Hurl b st3) as [Hu Hm].
    destruct (sendEmail b st3) as [[[] | e] st4]; cbn in Hsent, Haccepted.
    - eexists _, _, (new ++ [requestOf b st3])%list. split; [reflexivity|]. cbn. split.
      + rewrite Hsent. subst st3. cbn. now rewrite Hreq, app_assoc.
      + right. exists new, (requestOf b st3). repeat split; try assumption.
        right. split; [reflexivity|]. now apply Haccepted.
    - eexists _, _, (new ++ [requestOf b st3])%list. split; [reflexivity|]. cbn. split.
      + rewrite Hsent. subst st3. cbn. now rewrite Hreq, app_assoc.
      + right. exists new, (requestOf b st3). repeat split; try assumption.
        now left. }
  destruct Hrun as (reply & st' & new & -> & Hreq & Hcases).
  now exists reply, new.
Qed.

Lemma handlerOf_build_throws_reply (w : World) (buildBrief : M string)
  (sendEmail : string -> M unit) (e : Exn) (st : State) :
  (forall s, exists s', buildBrief s = (Throw e, s')) ->
  fst (handlerOf w buildBrief sendEmail "POST" st) = Ok (failureReply e).
Proof.
  intros Hthrows. unfold handlerOf. cbn [Str.eqb N.eqb Pos.eqb andb negb].
  unfold try_catch, bind at 1, console_log.
  set (st1 := {| console := _ |}). unfold bind at 1.
  destruct (Hthrows st1) as (st2 & ->). reflexivity.
Qed.

Lemma handlerOf_mail_throws_reply (w : World) (buildBrief : M string)
  (sendEmail : string -> M unit) (brief : string) (e : Exn) (st : State) :
  (forall s, exists s', buildBrief s = (Ok brief, s')) ->
  (forall s, exists s', sendEmail brief s = (Throw e, s')) ->
  fst (handlerOf w buildBrief sendEmail "POST" st) = Ok (failureReply e).
Proof.
  intros Hbuilt Hmail. unfold handlerOf. cbn [Str.eqb N.eqb Pos.eqb andb negb].
  unfold try_catch, bind at 1, console_log.
  set (st1 := {| console := _ |}). unfold bind at 1.
  destruct (Hbuilt st1) as (st2 & ->).
  unfold bind at 1. set (st3 := {| console := _ |}). unfold bind at 1.
  destruct (Hmail st3) as (st4 & ->). reflexivity.
Qed.

(** C8: for every invocation in which the summarization API answers and the
    content of its first choice is missing or empty, [buildBrief] returns
    the fixed text "Failed to generate brief", and the entry point goes on
    to delivery: the last request it sends, and the only one for the mail
    API, is the POST of [sendEmail], whose body is the JSON text of a mail
    from "Daily Brief <on@resend.dev>" to the fixed recipient, with the
    date of the clock's reading at that moment in its subject and that
    fixed text as its body ([html], and [text] too in the first handler of
    [part_000], which wraps it in [<pre>] for the HTML).  This holds for the
    handler of [daily-brief.ts] and for the two of [part_000]. *)
Theorem handler_model_silent (w : World) (st : State) :
  ModelSilent w ->
  ((forall s, fst (DailyBrief.buildBrief w s) = Ok "Failed to generate brief") /\
   exists before mail,
     requests (snd (DailyBrief.handler w "POST" st))
     = (requests st ++ before ++ [mail])%list /\
     Forall notMail before /\
     MailRequest w
       ("Your Daily Brief — " ++ toLocaleDateString w "en-US" (clock w (ticks st + 2)))
       [("html", JStr "Failed to generate brief")] mail) /\
  ((forall s, fst (MarketsBrief.buildBrief w s) = Ok "Failed to generate brief") /\
   exists before mail,
     requests (snd (MarketsBrief.handler w "POST" st))
     = (requests st ++ before ++ [mail])%list /\
     Forall notMail before /\
     MailRequest w
       ("Your Daily AI & Markets Brief — " ++
        toLocaleDateString w "en-US" (clock w (ticks st)))
       [("text", JStr "Failed to generate brief");
        ("html", JStr ("<pre style=" ++ dquote ++
                       "font-family: monospace; white-space: pre-wrap; font-size: 14px;" ++
                       dquote ++ ">" ++ "Failed to generate brief" ++ "</pre>"))] mail) /\
  ((forall s, fst (HuntBrief.buildBrief w s) = Ok "Failed to generate brief") /\
   exists before mail,
     requests (snd (HuntBrief.handler w "POST" st))
     = (requests st ++ before ++ [mail])%list /\
     Forall notMail before /\
     MailRequest w
       ("Your Daily Brief — " ++ toLocaleDateString w "en-US" (clock w (ticks st + 2)))
       [("html", JStr "Failed to generate brief")] mail).
Proof.
  intros Hsilent.
  pose proof (DailyBrief_buildBrief_fallback w Hsilent) as Hdaily.
  pose proof (MarketsBrief_buildBrief_fallback w Hsilent) as Hmarkets.
  pose proof (HuntBrief_buildBrief_fallback w Hsilent) as Hhunt.
  split; [|split]; split.
  - intros s. destruct (Hdaily s) as (s' & ->). reflexivity.
  - destruct (handlerOf_delivers w (DailyBrief.buildBrief w) (DailyBrief.sendEmail w)
                fallbackBrief st _ 2 Hdaily (DailyBrief_buildBrief_sends w)
                (fun s => proj1 (buildBrief_ticks w s))
                (deliver_request w _ _ _)) as (new & s & Hreq & Hnew & Hticks).
    eexists new, _. split; [exact Hreq|]. split; [exact Hnew|].
    rewrite Hticks. apply emailRequest_specified.
  - intros s. destruct (Hmarkets s) as (s' & ->). reflexivity.
  - destruct (handlerOf_delivers w (MarketsBrief.buildBrief w) (MarketsBrief.sendEmail w)
                fallbackBrief st _ 0
                Hmarkets (MarketsBrief_buildBrief_sends w)
                (fun s => eq_trans (proj1 (proj2 (buildBrief_ticks w s)))
                                   (eq_sym (Nat.add_0_r (ticks s))))
                (deliver_request w _ _ _)) as (new & s & Hreq & Hnew & Hticks).
    eexists new, _. split; [exact Hreq|]. split; [exact Hnew|].
    rewrite Nat.add_0_r in Hticks. rewrite Hticks. apply emailRequest_specified.
  - intros s. destruct (Hhunt s) as (s' & ->). reflexivity.
  - destruct (handlerOf_delivers w (HuntBrief.buildBrief w) (HuntBrief.sendEmail w)
                fallbackBrief st _ 2 Hhunt (HuntBrief_buildBrief_sends w)
                (fun s => proj2 (proj2 (buildBrief_ticks w s)))
                (deliver_request w _ _ _)) as (new & s & Hreq & Hnew & Hticks).
    eexists new, _. split; [exact Hreq|]. split; [exact Hnew|].
    rewrite Hticks. apply emailRequest_specified.
Qed.

(** A model that answers with [content: null]. *)
Lemma handler_model_silent_witness :
  fst (DailyBrief.buildBrief silentModel initial) = Ok "Failed to generate brief" /\
  exists before mail,
    requests (snd (DailyBrief.handler silentModel "POST" initial))
    = (requests initial ++ before ++ [mail])%list /\
    Forall notMail before /\
    MailRequest silentModel
      ("Your Daily Brief — " ++
       toLocaleDateString silentModel "en-US" (clock silentModel (ticks initial + 2)))
      [("html", JStr "Failed to generate brief")] mail.
Proof.
  assert (Hsilent : ModelSilent silentModel).
  { intros params. eexists _, _. split; [reflexivity | now left]. }
  destruct (handler_model_silent silentModel initial Hsilent) as ((Hbrief & Hmail) & _).
  split; [apply Hbrief | exact Hmail].
Defined.

(** ** The prompt *)

(** C9 fails on the code: in the prompt of [daily-brief.ts] and of the second
    handler of [part_000], the section HACKER NEWS is not the section
    YC/TECH.  Both interpolate [ycSummary], but in the second the text of a
    comment, inside the template literal, follows it on the same line. *)
Theorem prompt_hacker_news_section :
  sectionOf "YC/TECH:" (DailyBrief.prompt [] [story] [] "" "")
  = Some "Show HN (https://example.org/) - Comments" /\
  sectionOf "HACKER NEWS:" (DailyBrief.prompt [] [story] [] "" "")
  = Some "Show HN (https://example.org/) - Comments  // Reuse for HN stories" /\
  sectionOf "YC/TECH:" (HuntBrief.prompt [] [story] [] "" "")
  = Some "Show HN (https://example.org/) - Comments" /\
  sectionOf "HACKER NEWS:" (HuntBrief.prompt [] [story] [] "" "")
  = Some "Show HN (https://example.org/) - Comments  // Reuse for HN stories".
Proof. repeat split. Qed.

(** ** More about the entry point *)

(** X1: any method but POST is refused with 405, before anything is fetched,
    logged or sent: the state is untouched. *)
Theorem handler_method_not_allowed (w : World) (reqMethod : string) (st : State) :
  reqMethod <> "POST" ->
  let refusal := {| code := 405; payload := JObj [("error", JStr "Method not allowed")] |} in
  DailyBrief.handler w reqMethod st = (Ok refusal, st) /\
  MarketsBrief.handler w reqMethod st = (Ok refusal, st) /\
  HuntBrief.handler w reqMethod st = (Ok refusal, st).
Proof.
  intros Hm. cbv zeta.
  unfold DailyBrief.handler, MarketsBrief.handler, HuntBrief.handler, handlerOf.
  apply eqb_neq in Hm. rewrite Hm. now repeat split.
Qed.

(** A GET. *)
Lemma handler_method_not_allowed_witness :
  DailyBrief.handler offline "GET" initial
  = (Ok {| code := 405; payload := JObj [("error", JStr "Method not allowed")] |}, initial).
Proof.
  refine (proj1 (handler_method_not_allowed offline "GET" initial _)). discriminate.
Defined.

Lemma askModel_answers (w : World) (html prompt : string) :
  ModelAnswers w html ->
  forall st, exists st',
    (completion <- askModel w prompt ;; briefOf completion) st = (Ok html, st').
Proof.
  intros [Hne Hanswers] st. unfold bind, askModel, create_.
  destruct (Hanswers {| model := "gpt-4o-mini";
                        messages := [ {| role := "user"; content := Some prompt |} ];
                        temperature := Number.of_decimal false 7 (-1);
                        max_tokens := 1500 |}) as (choice & others & -> & Hcontent).
  unfold briefOf. cbn [choices]. rewrite Hcontent. cbn [or_default].
  apply eqb_neq in Hne. rewrite Hne. now eexists.
Qed.

Lemma DailyBrief_buildBrief_answers (w : World) (html : string) :
  ModelAnswers w html ->
  forall st, exists st', DailyBrief.buildBrief w st = (Ok html, st').
Proof.
  intros Hanswers. apply try_returns.
  - apply Promise_all5_total; try apply fetchAndParseRSS_total;
      exact (total_try_return _ (fun error => [PStr _; PExn error]) _).
  - intros [[[[ai yc] world] ph] md]. now apply askModel_answers.
Qed.

(** X2: the whole pipeline, when the summary is written and the mail
    accepted: the entry point answers 200; the last request it sent, and
    the only one for the mail API, is the POST of a mail from
    "Daily Brief <on@resend.dev>" to the fixed recipient, whose [html] is
    the summary and whose subject is "Your Daily Brief — " followed by the
    date of the clock's reading at that moment. *)
Theorem handler_sends_the_brief (w : World) (html : string) (st : State) :
  ModelAnswers w html -> MailAccepted w ->
  exists reply before mail,
    fst (DailyBrief.handler w "POST" st) = Ok reply /\
    code reply = 200 /\
    requests (snd (DailyBrief.handler w "POST" st))
    = (requests st ++ before ++ [mail])%list /\
    Forall notMail before /\
    MailRequest w
      ("Your Daily Brief — " ++ toLocaleDateString w "en-US" (clock w (ticks st + 2)))
      [("html", JStr html)] mail.
Proof.
  intros Hanswers Hmail.
  destruct (handlerOf_delivers w (DailyBrief.buildBrief w) (DailyBrief.sendEmail w)
              html st _ 2 (DailyBrief_buildBrief_answers w html Hanswers)
              (DailyBrief_buildBrief_sends w)
              (fun s => proj1 (buildBrief_ticks w s)) (deliver_request w _ _ _))
    as (new & s & Hreq & Hnew & Hticks).
  destruct (handlerOf_accepted w (DailyBrief.buildBrief w) (DailyBrief.sendEmail w) html st
              (DailyBrief_buildBrief_answers w html Hanswers)
              (fun s => deliver_accepted w _ _ _ s Hmail)) as (reply & Hfst & Hcode).
  eexists reply, new, _.
  split; [exact Hfst|]. split; [exact Hcode|]. split; [exact Hreq|]. split; [exact Hnew|].
  rewrite Hticks. apply emailRequest_specified.
Qed.

(** A model that writes a heading, and a mail API that accepts it. *)
Lemma handler_sends_the_brief_witness :
  exists reply before mail,
    fst (DailyBrief.handler mailOnly "POST" initial) = Ok reply /\
    code reply = 200 /\
    requests (snd (DailyBrief.handler mailOnly "POST" initial))
    = (requests initial ++ before ++ [mail])%list /\
    Forall notMail before /\
    MailRequest mailOnly
      ("Your Daily Brief — " ++
       toLocaleDateString mailOnly "en-US" (clock mailOnly (ticks initial + 2)))
      [("html", JStr "<h2>Brief</h2>")] mail.
Proof.
  refine (handler_sends_the_brief mailOnly "<h2>Brief</h2>" initial _ _).
  - split; [discriminate|]. intros params. now eexists _, _.
  - intros req Hreq. cbn. rewrite Hreq. cbn. now eexists.
Defined.

(** X3: when the mail API refuses the brief, the entry point answers 500. *)
Theorem handler_mail_refused (w : World) (html : string) (st : State) :
  ModelAnswers w html -> MailRefused w ->
  exists reply, fst (DailyBrief.handler w "POST" st) = Ok reply /\ code reply = 500.
Proof.
  intros Hanswers Hmail.
  unfold DailyBrief.handler, handlerOf. cbn [Str.eqb N.eqb Pos.eqb andb negb].
  unfold try_catch, bind at 1, console_log.
  set (st1 := {| console := _ |}). unfold bind at 1.
  destruct (DailyBrief_buildBrief_answers w html Hanswers st1) as (st2 & ->).
  unfold bind at 1. set (st3 := {| console := _ |}). unfold bind at 1.
  unfold DailyBrief.sendEmail.
  destruct (deliver_refused w (env w "RESEND_API_KEY") "Your Daily Brief — "
              [("html", JStr html)] st3 Hmail) as (e & st4 & ->).
  cbn. now eexists.
Qed.

(** The same model, and no network for the mail. *)
Lemma handler_mail_refused_witness :
  exists reply,
    fst (DailyBrief.handler
           (withModel (chat_completions_create mailOnly) offline) "POST" initial) = Ok reply /\
    code reply = 500.
Proof.
  refine (handler_mail_refused (withModel (chat_completions_create mailOnly) offline)
            "<h2>Brief</h2>" initial _ _).
  - split; [discriminate|]. intros params. now eexists _, _.
  - intros req Hreq. left. now eexists.
Defined.

(** ** How an invocation ends *)

(** X10: every POST invocation ends with an answer, 200 or 500, and never
    with an exception; it sends at most one request to the mail API, as
    its last request; and it answers 200 only when the mail API accepted
    that request with a 2xx status.  This holds for the three handlers, in
    every world. *)
Theorem handler_outcome (w : World) (st : State) :
  HandlerOutcome w st (DailyBrief.handler w "POST" st) /\
  HandlerOutcome w st (MarketsBrief.handler w "POST" st) /\
  HandlerOutcome w st (HuntBrief.handler w "POST" st).
Proof.
  split; [|split].
  - apply (handlerOf_outcome w _ _
             (fun b s => emailRequest w (env w "RESEND_API_KEY")
                           ("Your Daily Brief — " ++
                            toLocaleDateString w "en-US" (clock w (ticks s)))
                           [("html", JStr b)])).
    + apply DailyBrief_buildBrief_sends.
    + intros b s. apply deliver_request.
    + now intros b s.
    + intros b s. apply deliver_ok_accepted.
  - apply (handlerOf_outcome w _ _
             (fun b s => emailRequest w (env w "RESEND_API_KEY")
                           ("Your Daily AI & Markets Brief — " ++
                            toLocaleDateString w "en-US" (clock w (ticks s)))
                           [("text", JStr b);
                            ("html", JStr ("<pre style=" ++ dquote ++
                                           "font-family: monospace; white-space: pre-wrap; font-size: 14px;" ++
                                           dquote ++ ">" ++ b ++ "</pre>"))])).
    + apply MarketsBrief_buildBrief_sends.
    + intros b s. apply deliver_request.
    + now intros b s.
    + intros b s. apply deliver_ok_accepted.
  - apply (handlerOf_outcome w _ _
             (fun b s => emailRequest w (env w "RESEND_API_KEY")
                           ("Your Daily Brief — " ++
                            toLocaleDateString w "en-US" (clock w (ticks s)))
                           [("html", JStr b)])).
    + apply HuntBrief_buildBrief_sends.
    + intros b s. apply deliver_request.
    + now intros b s.
    + intros b s. apply deliver_ok_accepted.
Qed.

(** ** What the answer 500 says *)

Lemma askModel_throws_same (w : World) (e : Exn) (prompt : string)
  (k : ChatCompletion -> M string) :
  ModelThrows w e ->
  forall st, exists st', (completion <- askModel w prompt ;; k completion) st = (Throw e, st').
Proof.
  intros Hthrows st. unfold bind, askModel, create_. rewrite Hthrows. now eexists.
Qed.

Lemma rethrow_same {A : Type} (collect : M A) (rest : A -> M string) (e : Exn) :
  total collect ->
  (forall x st, exists st', rest x st = (Throw e, st')) ->
  forall st, exists st',
    try_catch (x <- collect ;; rest x)
      (fun error =>
         console_error [PStr "Error building brief:"; PExn error] ;;; throw error) st
    = (Throw e, st').
Proof.
  intros Hc Hrest st. unfold try_catch, bind at 1.
  destruct (Hc st) as (x & st1 & ->).
  destruct (Hrest x st1) as (st2 & ->). now eexists.
Qed.

Lemma collectors5_total (w : World) (ph market : M string) labelPh labelMarket a b
  (bodyPh bodyMarket : M string) :
  ph = try_catch bodyPh (fun error => console_error [PStr labelPh; PExn error] ;;; ret a) ->
  market = try_catch bodyMarket
             (fun error => console_error [PStr labelMarket; PExn error] ;;; ret b) ->
  total (Promise_all5
           (fetchAndParseRSS w "http://arxiv.org/rss/cs.AI")
           (fetchAndParseRSS w "https://news.ycombinator.com/rss")
           (fetchAndParseRSS w "https://rss.nytimes.com/services/xml/rss/nyt/World.xml")
           ph market).
Proof.
  intros -> ->.
  apply Promise_all5_total; try apply fetchAndParseRSS_total;
    exact (total_try_return _ (fun error => [PStr _; PExn error]) _).
Qed.

Lemma DailyBrief_collectors_total (w : World) :
  total (Promise_all5
           (fetchAndParseRSS w "http://arxiv.org/rss/cs.AI")
           (fetchAndParseRSS w "https://news.ycombinator.com/rss")
           (fetchAndParseRSS w "https://rss.nytimes.com/services/xml/rss/nyt/World.xml")
           (DailyBrief.fetchProductHuntPosts w) (DailyBrief.fetchMarketData w)).
Proof. now eapply collectors5_total. Qed.

Lemma HuntBrief_collectors_total (w : World) :
  total (Promise_all5
           (fetchAndParseRSS w "http://arxiv.org/rss/cs.AI")
           (fetchAndParseRSS w "https://news.ycombinator.com/rss")
           (fetchAndParseRSS w "https://rss.nytimes.com/services/xml/rss/nyt/World.xml")
           (HuntBrief.fetchProductHuntPosts w) (HuntBrief.fetchMarketData w)).
Proof. now eapply collectors5_total. Qed.

Lemma MarketsBrief_collectors_total (w : World) :
  total (Promise_all4
           (fetchAndParseRSS w "http://arxiv.org/rss/cs.AI")
           (fetchAndParseRSS w "https://news.ycombinator.com/rss")
           (fetchAndParseRSS w "https://rss.nytimes.com/services/xml/rss/nyt/World.xml")
           (MarketsBrief.fetchMarketData w)).
Proof.
  apply Promise_all4_total; try apply fetchAndParseRSS_total.
  exact (total_try_return _ (fun error => [PStr _; PExn error]) _).
Qed.

(** What the summarizer does with what follows the collectors: the same in
    the three handlers. *)
Lemma buildBrief_ends (w : World) (ending : string -> M string) (r : Result string) :
  (forall prompt st, exists st',
     match r with
     | Ok b => ending prompt st = (Ok b, st')
     | Throw e => ending prompt st = (Throw e, st')
     end) ->
  (forall st, exists st',
     try_catch
       ('(aiFeed, ycFeed, worldFeed, productHuntSummary, marketData) <-
          Promise_all5
            (fetchAndParseRSS w "http://arxiv.org/rss/cs.AI")
            (fetchAndParseRSS w "https://news.ycombinator.com/rss")
            (fetchAndParseRSS w "https://rss.nytimes.com/services/xml/rss/nyt/World.xml")
            (DailyBrief.fetchProductHuntPosts w) (DailyBrief.fetchMarketData w) ;;
        ending (DailyBrief.prompt aiFeed ycFeed worldFeed productHuntSummary marketData))
       (fun error =>
          console_error [PStr "Error building brief:"; PExn error] ;;; throw error) st
     = (r, st')) /\
  (forall st, exists st',
     try_catch
       ('(aiFeed, ycFeed, worldFeed, marketData) <-
          Promise_all4
            (fetchAndParseRSS w "http://arxiv.org/rss/cs.AI")
            (fetchAndParseRSS w "https://news.ycombinator.com/rss")
            (fetchAndParseRSS w "https://rss.nytimes.com/services/xml/rss/nyt/World.xml")
            (MarketsBrief.fetchMarketData w) ;;
        ending (MarketsBrief.prompt aiFeed ycFeed worldFeed marketData))
       (fun error =>
          console_error [PStr "Error building brief:"; PExn error] ;;; throw error) st
     = (r, st')) /\
  (forall st, exists st',
     try_catch
       ('(aiFeed, ycFeed, worldFeed, productHuntSummary, marketData) <-
          Promise_all5
            (fetchAndParseRSS w "http://arxiv.org/rss/cs.AI")
            (fetchAndParseRSS w "https://news.ycombinator.com/rss")
            (fetchAndParseRSS w "https://rss.nytimes.com/services/xml/rss/nyt/World.xml")
            (HuntBrief.fetchProductHuntPosts w) (HuntBrief.fetchMarketData w) ;;
        ending (HuntBrief.prompt aiFeed ycFeed worldFeed productHuntSummary marketData))
       (fun error =>
          console_error [PStr "Error building brief:"; PExn error] ;;; throw error) st
     = (r, st')).
Proof.
  intros Hend. repeat split; intros st; unfold try_catch, bind at 1.
  - destruct (DailyBrief_collectors_total w st) as ([[[[ai yc] world] ph] md] & st1 & ->).
    destruct (Hend (DailyBrief.prompt ai yc world ph md) st1) as (st2 & H).
    destruct r; rewrite H; now eexists.
  - destruct (MarketsBrief_collectors_total w st) as ([[[ai yc] world] md] & st1 & ->).
    destruct (Hend (MarketsBrief.prompt ai yc world md) st1) as (st2 & H).
    destruct r; rewrite H; now eexists.
  - destruct (HuntBrief_collectors_total w st) as ([[[[ai yc] world] ph] md] & st1 & ->).
    destruct (Hend (HuntBrief.prompt ai yc world ph md) st1) as (st2 & H).
    destruct r; rewrite H; now eexists.
Qed.

(** X11: when the summarization API rejects the call with an exception,
    that very exception comes through [buildBrief] to the entry point, and
    the answer 500 carries its message as [details], or "Unknown error" when
    what was thrown is no [Error].  This holds for the three handlers. *)
Theorem handler_reports_model_error (w : World) (e : Exn) (st : State) :
  ModelThrows w e ->
  fst (DailyBrief.handler w "POST" st) = Ok (failureReply e) /\
  fst (MarketsBrief.handler w "POST" st) = Ok (failureReply e) /\
  fst (HuntBrief.handler w "POST" st) = Ok (failureReply e).
Proof.
  intros Hthrows.
  destruct (buildBrief_ends w (fun prompt => completion <- askModel w prompt ;; briefOf completion)
              (Throw e)) as (Hdaily & Hmarkets & Hhunt).
  { intros prompt s. now apply askModel_throws_same. }
  repeat split; apply handlerOf_build_throws_reply; assumption.
Qed.

(** The quota of the model is spent. *)
Lemma handler_reports_model_error_witness :
  fst (DailyBrief.handler overQuota "POST" initial)
  = Ok {| code := 500;
          payload := JObj [("error", JStr "Failed to send daily brief");
                           ("details", JStr "429 You exceeded your current quota")] |}.
Proof.
  refine (proj1 (handler_reports_model_error overQuota quota initial _)).
  now intros params.
Defined.

(** X12: when the summarization API answers with no choice at all,
    [buildBrief] throws on reading the first one: the entry point answers
    500 and nothing is sent to the mail API.  This holds for the three
    handlers. *)
Theorem handler_no_choices (w : World) (st : State) :
  ModelEmpty w ->
  (exists reply st' new,
     DailyBrief.handler w "POST" st = (Ok reply, st') /\ code reply = 500 /\
     requests st' = (requests st ++ new)%list /\ Forall notMail new) /\
  (exists reply st' new,
     MarketsBrief.handler w "POST" st = (Ok reply, st') /\ code reply = 500 /\
     requests st' = (requests st ++ new)%list /\ Forall notMail new) /\
  (exists reply st' new,
     HuntBrief.handler w "POST" st = (Ok reply, st') /\ code reply = 500 /\
     requests st' = (requests st ++ new)%list /\ Forall notMail new).
Proof.
  intros Hempty.
  destruct (buildBrief_ends w (fun prompt => completion <- askModel w prompt ;; briefOf completion)
              (Throw (TypeError "undefined (reading 'message')")))
    as (Hdaily & Hmarkets & Hhunt).
  { intros prompt s. unfold bind, askModel, create_. rewrite Hempty. now eexists. }
  repeat split; apply handlerOf_build_fails;
    try (intros s; match goal with H : forall st, exists st', _ = (Throw ?e, st') |- _ =>
                     destruct (H s) as (s' & Hs); now exists e, s' end).
  - apply DailyBrief_buildBrief_sends.
  - apply MarketsBrief_buildBrief_sends.
  - apply HuntBrief_buildBrief_sends.
Qed.

(** A completion with an empty list of choices. *)
Lemma handler_no_choices_witness :
  exists reply st' new,
    DailyBrief.handler emptyModel "POST" initial = (Ok reply, st') /\ code reply = 500 /\
    requests st' = (requests initial ++ new)%list /\ Forall notMail new.
Proof.
  refine (proj1 (handler_no_choices emptyModel initial _)).
  now intros params.
Defined.

(** X13: in [daily-brief.ts], when the brief is written and the mail API
    answers with a status that is not 2xx, the answer 500 of the entry point
    says why.  When the body is a JSON value other than [null]: "Resend API
    error: " followed by the text of its [message] when it has a truthy one
    that can be printed, by the status text of the response when it has
    none (or a falsy one), and the exception of the conversion when the
    message cannot be printed.  When the body is [null]: the TypeError of
    reading [message] of it.  When the body is no JSON: the exception of its
    parse. *)
Theorem handler_reports_mail_error (w : World) (html : string) (r : Response) (st : State) :
  ModelAnswers w html -> MailAnswers w r -> ok r = false ->
  (forall errorData message,
     json r = Ok errorData -> errorData <> JNull ->
     truthy (ownProperty errorData "message") = true ->
     Prints w (ownProperty errorData "message") message ->
     fst (DailyBrief.handler w "POST" st)
     = Ok (failureReply (Error ("Resend API error: " ++ message)))) /\
  (forall errorData,
     json r = Ok errorData -> errorData <> JNull ->
     truthy (ownProperty errorData "message") = false ->
     fst (DailyBrief.handler w "POST" st)
     = Ok (failureReply (Error ("Resend API error: " ++ statusText r)))) /\
  (forall errorData e,
     json r = Ok errorData -> errorData <> JNull ->
     truthy (ownProperty errorData "message") = true ->
     Value_toString (finiteToString w) (ownProperty errorData "message") = Throw e ->
     fst (DailyBrief.handler w "POST" st) = Ok (failureReply e)) /\
  (json r = Ok JNull ->
   fst (DailyBrief.handler w "POST" st)
   = Ok (failureReply (Error "Cannot read properties of null (reading 'message')"))) /\
  (forall e, json r = Throw e ->
     fst (DailyBrief.handler w "POST" st) = Ok (failureReply e)).
Proof.
  intros Hanswers Hmail Hok.
  pose proof (DailyBrief_buildBrief_answers w html Hanswers) as Hbuilt.
  assert (Hjson : forall errorData, json r = Ok errorData -> errorData <> JNull ->
            fst (DailyBrief.handler w "POST" st)
            = Ok (failureReply
                    (match Value_toString (finiteToString w)
                             (or_else (ownProperty errorData "message")
                                      (Some (JStr (statusText r)))) with
                     | Ok shown => Error ("Resend API error: " ++ shown)
                     | Throw e => e
                     end))).
  { intros errorData Hj Hnn.
    apply (handlerOf_mail_throws_reply w _ _ html); [exact Hbuilt|].
    intros s. unfold DailyBrief.sendEmail.
    exact (proj1 (deliver_refusal w _ _ _ r s Hmail Hok) errorData Hj Hnn). }
  repeat split.
  - intros errorData message Hj Hnn Htruthy Hprints.
    rewrite (Hjson errorData Hj Hnn). unfold or_else. rewrite Htruthy.
    unfold Prints in Hprints. now rewrite Hprints.
  - intros errorData Hj Hnn Hfalsy.
    rewrite (Hjson errorData Hj Hnn). unfold or_else. now rewrite Hfalsy.
  - intros errorData e Hj Hnn Htruthy Hthrows.
    rewrite (Hjson errorData Hj Hnn). unfold or_else. now rewrite Htruthy, Hthrows.
  - intros Hj.
    apply (handlerOf_mail_throws_reply w _ _ html); [exact Hbuilt|].
    intros s. unfold DailyBrief.sendEmail.
    exact (proj1 (proj2 (deliver_refusal w _ _ _ r s Hmail Hok)) Hj).
  - intros e Hj.
    apply (handlerOf_mail_throws_reply w _ _ html); [exact Hbuilt|].
    intros s. unfold DailyBrief.sendEmail.
    exact (proj2 (proj2 (deliver_refusal w _ _ _ r s Hmail Hok)) e Hj).
Qed.

(** The mail API refuses the key. *)
Lemma handler_reports_mail_error_witness :
  fst (DailyBrief.handler badMailKey "POST" initial)
  = Ok {| code := 500;
          payload := JObj [("error", JStr "Failed to send daily brief");
                           ("details", JStr "Resend API error: API key is invalid")] |}.
Proof.
  refine (proj1 (handler_reports_mail_error badMailKey "<h2>Brief</h2>" unauthorized initial
                   _ _ eq_refl)
            (JObj [("name", JStr "validation_error"); ("message", JStr "API key is invalid")])
            "API key is invalid" eq_refl _ eq_refl eq_refl).
  - split; [discriminate|]. intros params. now eexists _, _.
  - intros req Hreq. cbn. now rewrite Hreq.
  - discriminate.
Defined.

(** ** What the summarizer is asked *)


(** With no network at all, the prompt has empty feeds and the two
    placeholders. *)
Example buildBrief_offline_prompt :
  chats (snd (DailyBrief.buildBrief offline initial))
  = [completionRequest
       (DailyBrief.prompt [] [] [] "Product Hunt data unavailable" "Market data unavailable")].
Proof. reflexivity. Qed.

(** ** The sections of the feeds in the prompt *)

Lemma wellFormed_sections (line specified : FeedItem -> string)
  (intro rest : list string) (ai yc world : list FeedItem) :
  (forall it, WellFormed it ->
     line it = specified it /\ oneLine (specified it) /\ hasHyphen (specified it) = true) ->
  flat_map lines intro = intro ->
  forallb (fun l => forallb (fun h => negb (Str.eqb l h)) sectionHeaders) intro = true ->
  Forall WellFormed (firstn 10 ai) ->
  Forall WellFormed (firstn 10 yc) ->
  Forall WellFormed (firstn 10 world) ->
  sectionLines "AI:" (template line intro rest ai yc world)
  = Some (map specified (firstn 10 ai)) /\
  sectionLines "YC/TECH:" (template line intro rest ai yc world)
  = Some (map specified (firstn 10 yc)) /\
  sectionLines "WORLD NEWS:" (template line intro rest ai yc world)
  = Some (map specified (firstn 10 world)).
Proof.
  intros Hline Hintro Hheaders Hai Hyc Hworld.
  assert (Hsame : forall feed, Forall WellFormed feed -> map line feed = map specified feed).
  { intros feed Hfeed. apply map_ext_in. intros it Hin.
    rewrite Forall_forall in Hfeed. now apply Hline, Hfeed. }
  assert (Hlines : forall feed, Forall WellFormed feed ->
            Forall (fun it => oneLine (line it) /\ hasHyphen (line it) = true) feed).
  { intros feed Hfeed. eapply Forall_impl; [|exact Hfeed].
    intros it Hit. destruct (Hline it Hit) as (-> & H1 & H2). now split. }
  rewrite <- (Hsame _ Hai), <- (Hsame _ Hyc), <- (Hsame _ Hworld).
  apply template_sections; auto.
Qed.

(** The prompt [buildBrief] sends is made of what the feeds give. *)
Lemma buildBrief_prompt (w : World) (st : State) (ai yc world : list FeedItem) :
  Gives w "http://arxiv.org/rss/cs.AI" ai ->
  Gives w "https://news.ycombinator.com/rss" yc ->
  Gives w "https://rss.nytimes.com/services/xml/rss/nyt/World.xml" world ->
  (exists ph md,
     chats (snd (DailyBrief.buildBrief w st))
     = (chats st ++ [completionRequest (DailyBrief.prompt ai yc world ph md)])%list) /\
  (exists md,
     chats (snd (MarketsBrief.buildBrief w st))
     = (chats st ++ [completionRequest (MarketsBrief.prompt ai yc world md)])%list) /\
  (exists ph md,
     chats (snd (HuntBrief.buildBrief w st))
     = (chats st ++ [completionRequest (HuntBrief.prompt ai yc world ph md)])%list).
Proof.
  intros Gai Gyc Gworld. split; [|split].
  - destruct (DailyBrief_buildBrief_run w st)
      as (ai' & yc' & world' & ph & md & st1 & -> & Hchats & _ & Kai & Kyc & Kworld).
    rewrite (collected_gives _ _ _ _ Kai Gai), (collected_gives _ _ _ _ Kyc Gyc),
      (collected_gives _ _ _ _ Kworld Gworld).
    exists ph, md. now rewrite (proj1 (summarizer_run w _ st1)), Hchats.
  - destruct (MarketsBrief_buildBrief_run w st)
      as (ai' & yc' & world' & md & st1 & -> & Hchats & _ & Kai & Kyc & Kworld).
    rewrite (collected_gives _ _ _ _ Kai Gai), (collected_gives _ _ _ _ Kyc Gyc),
      (collected_gives _ _ _ _ Kworld Gworld).
    exists md. now rewrite (proj1 (summarizer_run w _ st1)), Hchats.
  - destruct (HuntBrief_buildBrief_run w st)
      as (ai' & yc' & world' & ph & md & st1 & -> & Hchats & _ & Kai & Kyc & Kworld).
    rewrite (collected_gives _ _ _ _ Kai Gai), (collected_gives _ _ _ _ Kyc Gyc),
      (collected_gives _ _ _ _ Kworld Gworld).
    exists ph, md. now rewrite (proj1 (summarizer_run w _ st1)), Hchats.
Qed.

(** The sections of the three prompts, as their headers find them, when
    the first ten items of the three feeds are well formed. *)
Lemma prompt_sections (ai yc world : list FeedItem) (ph md : string) :
  Forall WellFormed (firstn 10 ai) ->
  Forall WellFormed (firstn 10 yc) ->
  Forall WellFormed (firstn 10 world) ->
  (sectionLines "AI:" (DailyBrief.prompt ai yc world ph md)
   = Some (map specifiedLine (firstn 10 ai)) /\
   sectionLines "YC/TECH:" (DailyBrief.prompt ai yc world ph md)
   = Some (map specifiedLine (firstn 10 yc)) /\
   sectionLines "WORLD NEWS:" (DailyBrief.prompt ai yc world ph md)
   = Some (map specifiedLine (firstn 10 world))) /\
  (sectionLines "AI:" (MarketsBrief.prompt ai yc world md)
   = Some (map specifiedShortLine (firstn 10 ai)) /\
   sectionLines "YC/TECH:" (MarketsBrief.prompt ai yc world md)
   = Some (map specifiedShortLine (firstn 10 yc)) /\
   sectionLines "WORLD NEWS:" (MarketsBrief.prompt ai yc world md)
   = Some (map specifiedShortLine (firstn 10 world))) /\
  (sectionLines "AI:" (HuntBrief.prompt ai yc world ph md)
   = Some (map specifiedLine (firstn 10 ai)) /\
   sectionLines "YC/TECH:" (HuntBrief.prompt ai yc world ph md)
   = Some (map specifiedLine (firstn 10 yc)) /\
   sectionLines "WORLD NEWS:" (HuntBrief.prompt ai yc world ph md)
   = Some (map specifiedLine (firstn 10 world))).
Proof.
  intros Hai Hyc Hworld. split; [|split].
  - unfold DailyBrief.prompt, DailyBrief.aiSummary, DailyBrief.ycSummary,
      DailyBrief.worldSummary.
    match goal with
    | |- context [join nl (?a :: ?b :: ?c :: ?d :: ?e :: ?f :: ?g :: ?h :: ?i :: ?j ::
                           "AI:" :: _ :: "" :: "YC/TECH:" :: _ :: "" ::
                           "WORLD NEWS:" :: _ :: "" :: ?rest)] =>
        apply (wellFormed_sections renderWithLink specifiedLine
                 [a; b; c; d; e; f; g; h; i; j] rest ai yc world)
    end; try assumption; try reflexivity.
    intros it Hit. apply (wellFormed_line it Hit).
  - unfold MarketsBrief.prompt, MarketsBrief.aiSummary, MarketsBrief.ycSummary,
      MarketsBrief.worldSummary.
    match goal with
    | |- context [join nl (?a :: ?b :: ?c :: ?d :: ?e :: ?f :: ?g :: ?h ::
                           "AI:" :: _ :: "" :: "YC/TECH:" :: _ :: "" ::
                           "WORLD NEWS:" :: _ :: "" :: ?rest)] =>
        apply (wellFormed_sections renderWithoutLink specifiedShortLine
                 [a; b; c; d; e; f; g; h] rest ai yc world)
    end; try assumption; try reflexivity.
    intros it Hit. apply (wellFormed_line it Hit).
  - unfold HuntBrief.prompt, HuntBrief.aiSummary, HuntBrief.ycSummary,
      HuntBrief.worldSummary.
    match goal with
    | |- context [join nl (?a :: ?b :: ?c :: ?d :: ?e :: ?f :: ?g :: ?h :: ?i :: ?j ::
                           "AI:" :: _ :: "" :: "YC/TECH:" :: _ :: "" ::
                           "WORLD NEWS:" :: _ :: "" :: ?rest)] =>
        apply (wellFormed_sections renderWithLink specifiedLine
                 [a; b; c; d; e; f; g; h; i; j] rest ai yc world)
    end; try assumption; try reflexivity.
    intros it Hit. apply (wellFormed_line it Hit).
Qed.

(** The section of each feed between its header and the next, when its own
    first ten items are well formed. *)
Lemma prompt_section_texts (ai yc world : list FeedItem) (ph md : string) :
  ((Forall WellFormed (firstn 10 ai) ->
    SectionText "AI:" "YC/TECH:" (DailyBrief.prompt ai yc world ph md)
      (unlines (map specifiedLine (firstn 10 ai)))) /\
   (Forall WellFormed (firstn 10 yc) ->
    SectionText "YC/TECH:" "WORLD NEWS:" (DailyBrief.prompt ai yc world ph md)
      (unlines (map specifiedLine (firstn 10 yc)))) /\
   (Forall WellFormed (firstn 10 world) ->
    SectionText "WORLD NEWS:" "PRODUCT HUNT:" (DailyBrief.prompt ai yc world ph md)
      (unlines (map specifiedLine (firstn 10 world))))) /\
  ((Forall WellFormed (firstn 10 ai) ->
    SectionText "AI:" "YC/TECH:" (MarketsBrief.prompt ai yc world md)
      (unlines (map specifiedShortLine (firstn 10 ai)))) /\
   (Forall WellFormed (firstn 10 yc) ->
    SectionText "YC/TECH:" "WORLD NEWS:" (MarketsBrief.prompt ai yc world md)
      (unlines (map specifiedShortLine (firstn 10 yc)))) /\
   (Forall WellFormed (firstn 10 world) ->
    SectionText "WORLD NEWS:" "MARKETS:" (MarketsBrief.prompt ai yc world md)
      (unlines (map specifiedShortLine (firstn 10 world))))) /\
  ((Forall WellFormed (firstn 10 ai) ->
    SectionText "AI:" "YC/TECH:" (HuntBrief.prompt ai yc world ph md)
      (unlines (map specifiedLine (firstn 10 ai)))) /\
   (Forall WellFormed (firstn 10 yc) ->
    SectionText "YC/TECH:" "WORLD NEWS:" (HuntBrief.prompt ai yc world ph md)
      (unlines (map specifiedLine (firstn 10 yc)))) /\
   (Forall WellFormed (firstn 10 world) ->
    SectionText "WORLD NEWS:" "PRODUCT HUNT:" (HuntBrief.prompt ai yc world ph md)
      (unlines (map specifiedLine (firstn 10 world))))).
Proof.
  assert (Hlong : forall it, WellFormed it -> renderWithLink it = specifiedLine it)
    by (intros it Hit; apply (wellFormed_line it Hit)).
  assert (Hshort : forall it, WellFormed it -> renderWithoutLink it = specifiedShortLine it)
    by (intros it Hit; apply (wellFormed_line it Hit)).
  split; [|split].
  - unfold DailyBrief.prompt, DailyBrief.aiSummary, DailyBrief.ycSummary,
      DailyBrief.worldSummary.
    match goal with
    | |- context [join nl (?a :: ?b :: ?c :: ?d :: ?e :: ?f :: ?g :: ?h :: ?i :: ?j ::
                           "AI:" :: _ :: "" :: "YC/TECH:" :: _ :: "" ::
                           "WORLD NEWS:" :: _ :: "" :: ?next :: ?rest)] =>
        destruct (template_section_texts renderWithLink
                    [a; b; c; d; e; f; g; h; i; j] rest next ai yc world)
          as (Sai & Syc & Sworld); [discriminate | discriminate |]
    end.
    repeat split; intros Hfeed;
      apply (wellFormed_section_text renderWithLink specifiedLine); assumption.
  - unfold MarketsBrief.prompt, MarketsBrief.aiSummary, MarketsBrief.ycSummary,
      MarketsBrief.worldSummary.
    match goal with
    | |- context [join nl (?a :: ?b :: ?c :: ?d :: ?e :: ?f :: ?g :: ?h ::
                           "AI:" :: _ :: "" :: "YC/TECH:" :: _ :: "" ::
                           "WORLD NEWS:" :: _ :: "" :: ?next :: ?rest)] =>
        destruct (template_section_texts renderWithoutLink
                    [a; b; c; d; e; f; g; h] rest next ai yc world)
          as (Sai & Syc & Sworld); [discriminate | discriminate |]
    end.
    repeat split; intros Hfeed;
      apply (wellFormed_section_text renderWithoutLink specifiedShortLine); assumption.
  - unfold HuntBrief.prompt, HuntBrief.aiSummary, HuntBrief.ycSummary,
      HuntBrief.worldSummary.
    match goal with
    | |- context [join nl (?a :: ?b :: ?c :: ?d :: ?e :: ?f :: ?g :: ?h :: ?i :: ?j ::
                           "AI:" :: _ :: "" :: "YC/TECH:" :: _ :: "" ::
                           "WORLD NEWS:" :: _ :: "" :: ?next :: ?rest)] =>
        destruct (template_section_texts renderWithLink
                    [a; b; c; d; e; f; g; h; i; j] rest next ai yc world)
          as (Sai & Syc & Sworld); [discriminate | discriminate |]
    end.
    repeat split; intros Hfeed;
      apply (wellFormed_section_text renderWithLink specifiedLine); assumption.
Qed.

(** C5: for the feeds the Aggregator fetched (the items of a feed that is
    served, nothing for a feed that failed), the section of a feed in the
    prompt that is sent to the summarization API, when the first ten items
    of the feed are well formed, is made of the lines of these ten items,
    one line per item, in the order of the feed, with line breaks between
    them, and of nothing else: it stands between the header of the feed
    and the empty line before the next header, whatever the other feeds
    hold; and when the first ten items of the three feeds are well formed,
    the lines that follow each header up to the next empty line are these
    lines.  For a feed of more than ten items they are exactly ten, and no
    item beyond the tenth has any part in the section.  The line of an item
    is [{title} ({link}) - {description}] in [daily-brief.ts] and in the
    second handler of [part_000], and [{title} - {description}] in the
    first handler of [part_000]. *)
Theorem buildBrief_first_ten (w : World) (st : State) (ai yc world : list FeedItem) :
  Gives w "http://arxiv.org/rss/cs.AI" ai ->
  Gives w "https://news.ycombinator.com/rss" yc ->
  Gives w "https://rss.nytimes.com/services/xml/rss/nyt/World.xml" world ->
  (exists prompt,
     chats (snd (DailyBrief.buildBrief w st))
     = (chats st ++ [completionRequest prompt])%list /\
     (Forall WellFormed (firstn 10 ai) ->
      SectionText "AI:" "YC/TECH:" prompt (unlines (map specifiedLine (firstn 10 ai)))) /\
     (Forall WellFormed (firstn 10 yc) ->
      SectionText "YC/TECH:" "WORLD NEWS:" prompt
        (unlines (map specifiedLine (firstn 10 yc)))) /\
     (Forall WellFormed (firstn 10 world) ->
      SectionText "WORLD NEWS:" "PRODUCT HUNT:" prompt
        (unlines (map specifiedLine (firstn 10 world)))) /\
     (Forall WellFormed (firstn 10 ai) -> Forall WellFormed (firstn 10 yc) ->
      Forall WellFormed (firstn 10 world) ->
      sectionLines "AI:" prompt = Some (map specifiedLine (firstn 10 ai)) /\
      sectionLines "YC/TECH:" prompt = Some (map specifiedLine (firstn 10 yc)) /\
      sectionLines "WORLD NEWS:" prompt = Some (map specifiedLine (firstn 10 world)))) /\
  (exists prompt,
     chats (snd (MarketsBrief.buildBrief w st))
     = (chats st ++ [completionRequest prompt])%list /\
     (Forall WellFormed (firstn 10 ai) ->
      SectionText "AI:" "YC/TECH:" prompt
        (unlines (map specifiedShortLine (firstn 10 ai)))) /\
     (Forall WellFormed (firstn 10 yc) ->
      SectionText "YC/TECH:" "WORLD NEWS:" prompt
        (unlines (map specifiedShortLine (firstn 10 yc)))) /\
     (Forall WellFormed (firstn 10 world) ->
      SectionText "WORLD NEWS:" "MARKETS:" prompt
        (unlines (map specifiedShortLine (firstn 10 world)))) /\
     (Forall WellFormed (firstn 10 ai) -> Forall WellFormed (firstn 10 yc) ->
      Forall WellFormed (firstn 10 world) ->
      sectionLines "AI:" prompt = Some (map specifiedShortLine (firstn 10 ai)) /\
      sectionLines "YC/TECH:" prompt = Some (map specifiedShortLine (firstn 10 yc)) /\
      sectionLines "WORLD NEWS:" prompt
      = Some (map specifiedShortLine (firstn 10 world)))) /\
  (exists prompt,
     chats (snd (HuntBrief.buildBrief w st))
     = (chats st ++ [completionRequest prompt])%list /\
     (Forall WellFormed (firstn 10 ai) ->
      SectionText "AI:" "YC/TECH:" prompt (unlines (map specifiedLine (firstn 10 ai)))) /\
     (Forall WellFormed (firstn 10 yc) ->
      SectionText "YC/TECH:" "WORLD NEWS:" prompt
        (unlines (map specifiedLine (firstn 10 yc)))) /\
     (Forall WellFormed (firstn 10 world) ->
      SectionText "WORLD NEWS:" "PRODUCT HUNT:" prompt
        (unlines (map specifiedLine (firstn 10 world)))) /\
     (Forall WellFormed (firstn 10 ai) -> Forall WellFormed (firstn 10 yc) ->
      Forall WellFormed (firstn 10 world) ->
      sectionLines "AI:" prompt = Some (map specifiedLine (firstn 10 ai)) /\
      sectionLines "YC/TECH:" prompt = Some (map specifiedLine (firstn 10 yc)) /\
      sectionLines "WORLD NEWS:" prompt = Some (map specifiedLine (firstn 10 world)))) /\
  ((10 < List.length ai)%nat -> List.length (firstn 10 ai) = 10%nat) /\
  ((10 < List.length yc)%nat -> List.length (firstn 10 yc) = 10%nat) /\
  ((10 < List.length world)%nat -> List.length (firstn 10 world) = 10%nat).
Proof.
  intros Gai Gyc Gworld.
  destruct (buildBrief_prompt w st ai yc world Gai Gyc Gworld)
    as ((ph1 & md1 & Hdaily) & (md2 & Hmarkets) & (ph3 & md3 & Hhunt)).
  split; [|split; [|split]].
  - eexists. split; [exact Hdaily|].
    destruct (prompt_section_texts ai yc world ph1 md1) as ((Sai & Syc & Sworld) & _).
    split; [exact Sai|]. split; [exact Syc|]. split; [exact Sworld|].
    intros Hai Hyc Hworld. now apply (prompt_sections ai yc world ph1 md1).
  - eexists. split; [exact Hmarkets|].
    destruct (prompt_section_texts ai yc world "" md2) as (_ & (Sai & Syc & Sworld) & _).
    split; [exact Sai|]. split; [exact Syc|]. split; [exact Sworld|].
    intros Hai Hyc Hworld. now apply (prompt_sections ai yc world "" md2).
  - eexists. split; [exact Hhunt|].
    destruct (prompt_section_texts ai yc world ph3 md3) as (_ & _ & (Sai & Syc & Sworld)).
    split; [exact Sai|]. split; [exact Syc|]. split; [exact Sworld|].
    intros Hai Hyc Hworld. now apply (prompt_sections ai yc world ph3 md3).
  - repeat split; intros H; rewrite length_firstn; lia.
Qed.

(** The sections of the three feeds in the prompt [buildBrief] sends, for
    the three handlers, when the first ten items of each are well formed. *)
Lemma buildBrief_sections (w : World) (st : State) (ai yc world : list FeedItem) :
  Gives w "http://arxiv.org/rss/cs.AI" ai ->
  Gives w "https://news.ycombinator.com/rss" yc ->
  Gives w "https://rss.nytimes.com/services/xml/rss/nyt/World.xml" world ->
  Forall WellFormed (firstn 10 ai) ->
  Forall WellFormed (firstn 10 yc) ->
  Forall WellFormed (firstn 10 world) ->
  (exists prompt,
     chats (snd (DailyBrief.buildBrief w st))
     = (chats st ++ [completionRequest prompt])%list /\
     sectionLines "AI:" prompt = Some (map specifiedLine (firstn 10 ai)) /\
     sectionLines "YC/TECH:" prompt = Some (map specifiedLine (firstn 10 yc)) /\
     sectionLines "WORLD NEWS:" prompt = Some (map specifiedLine (firstn 10 world))) /\
  (exists prompt,
     chats (snd (MarketsBrief.buildBrief w st))
     = (chats st ++ [completionRequest prompt])%list /\
     sectionLines "AI:" prompt = Some (map specifiedShortLine (firstn 10 ai)) /\
     sectionLines "YC/TECH:" prompt = Some (map specifiedShortLine (firstn 10 yc)) /\
     sectionLines "WORLD NEWS:" prompt = Some (map specifiedShortLine (firstn 10 world))) /\
  (exists prompt,
     chats (snd (HuntBrief.buildBrief w st))
     = (chats st ++ [completionRequest prompt])%list /\
     sectionLines "AI:" prompt = Some (map specifiedLine (firstn 10 ai)) /\
     sectionLines "YC/TECH:" prompt = Some (map specifiedLine (firstn 10 yc)) /\
     sectionLines "WORLD NEWS:" prompt = Some (map specifiedLine (firstn 10 world))).
Proof.
  intros Gai Gyc Gworld Hai Hyc Hworld.
  destruct (buildBrief_prompt w st ai yc world Gai Gyc Gworld)
    as ((ph1 & md1 & Hdaily) & (md2 & Hmarkets) & (ph3 & md3 & Hhunt)).
  split; [|split].
  - eexists. split; [exact Hdaily|]. now apply (prompt_sections ai yc world ph1 md1).
  - eexists. split; [exact Hmarkets|]. now apply (prompt_sections ai yc world "" md2).
  - eexists. split; [exact Hhunt|]. now apply (prompt_sections ai yc world ph3 md3).
Qed.

(** Twelve stories in every feed. *)
Lemma buildBrief_first_ten_witness :
  exists prompt,
    chats (snd (DailyBrief.buildBrief newsDay initial))
    = (chats initial ++ [completionRequest prompt])%list /\
    SectionText "AI:" "YC/TECH:" prompt
      (unlines (map specifiedLine (firstn 10 (stories "AI" 12)))) /\
    sectionLines "AI:" prompt = Some (map specifiedLine (firstn 10 (stories "AI" 12))) /\
    sectionLines "YC/TECH:" prompt = Some (map specifiedLine (firstn 10 (stories "HN" 12))) /\
    sectionLines "WORLD NEWS:" prompt
    = Some (map specifiedLine (firstn 10 (stories "World" 12))).
Proof.
  assert (Hstories : forall feed, oneLine feed -> feed <> "" ->
            Forall WellFormed (firstn 10 (stories feed 12))).
  { intros feed Hline Hfeed. cbv [stories seq map firstn].
    repeat (apply Forall_cons || apply Forall_nil);
      repeat split;
      (eexists _, _; (split; [reflexivity|]); split);
      try discriminate; try reflexivity.
    all: try (destruct feed; [contradiction | discriminate]).
    all: apply oneLine_app; [assumption | reflexivity]. }
  destruct (buildBrief_first_ten newsDay initial
              (stories "AI" 12) (stories "HN" 12) (stories "World" 12))
    as ((prompt & Hchats & Sai & _ & _ & Hsections) & _).
  1-3: apply GivesItems; econstructor; reflexivity.
  exists prompt. split; [exact Hchats|]. split.
  - apply Sai. now apply Hstories.
  - apply Hsections; now apply Hstories.
Defined.

(** The section of the first feed on that day. *)
Example buildBrief_ten_stories :
  exists prompt,
    chats (snd (DailyBrief.buildBrief newsDay initial)) = [completionRequest prompt] /\
    sectionLines "AI:" prompt
    = Some ["AI 1 (https://example.org/1) - Story 1";
            "AI 2 (https://example.org/2) - Story 2";
            "AI 3 (https://example.org/3) - Story 3";
            "AI 4 (https://example.org/4) - Story 4";
            "AI 5 (https://example.org/5) - Story 5";
            "AI 6 (https://example.org/6) - Story 6";
            "AI 7 (https://example.org/7) - Story 7";
            "AI 8 (https://example.org/8) - Story 8";
            "AI 9 (https://example.org/9) - Story 9";
            "AI 10 (https://example.org/10) - Story 10"].
Proof. eexists. split; reflexivity. Qed.

Lemma gives_failure (w : World) (u : string) (items : list FeedItem) :
  Gives w u items -> FeedFailure w u -> items = [].
Proof.
  intros [served [r xml doc Hf Ht Hp Hi] | _] Hfail; [|reflexivity].
  exfalso.
  destruct Hfail as [e Hf' | r' e Hf' Ht' | r' xml' e Hf' Ht' Hp' | r' xml' Hf' Ht' Hp'
                    | r' xml' doc' Hf' Ht' Hp' Hi']; congruence.
Qed.

(** X8: for the feeds the Aggregator fetched, when each has at most ten
    items and they are well formed, the section of each feed in the prompt
    that is sent to the summarization API holds the whole feed, one line per
    item in the order of the feed; and the section of a feed that failed is
    empty.  This holds for the three handlers, each with its line format. *)
Theorem buildBrief_short_feed (w : World) (st : State) (ai yc world : list FeedItem) :
  Gives w "http://arxiv.org/rss/cs.AI" ai ->
  Gives w "https://news.ycombinator.com/rss" yc ->
  Gives w "https://rss.nytimes.com/services/xml/rss/nyt/World.xml" world ->
  Forall WellFormed ai -> Forall WellFormed yc -> Forall WellFormed world ->
  (List.length ai <= 10)%nat -> (List.length yc <= 10)%nat ->
  (List.length world <= 10)%nat ->
  (exists prompt,
     chats (snd (DailyBrief.buildBrief w st))
     = (chats st ++ [completionRequest prompt])%list /\
     sectionLines "AI:" prompt = Some (map specifiedLine ai) /\
     sectionLines "YC/TECH:" prompt = Some (map specifiedLine yc) /\
     sectionLines "WORLD NEWS:" prompt = Some (map specifiedLine world) /\
     (FeedFailure w "http://arxiv.org/rss/cs.AI" -> sectionLines "AI:" prompt = Some []) /\
     (FeedFailure w "https://news.ycombinator.com/rss" ->
      sectionLines "YC/TECH:" prompt = Some []) /\
     (FeedFailure w "https://rss.nytimes.com/services/xml/rss/nyt/World.xml" ->
      sectionLines "WORLD NEWS:" prompt = Some [])) /\
  (exists prompt,
     chats (snd (MarketsBrief.buildBrief w st))
     = (chats st ++ [completionRequest prompt])%list /\
     sectionLines "AI:" prompt = Some (map specifiedShortLine ai) /\
     sectionLines "YC/TECH:" prompt = Some (map specifiedShortLine yc) /\
     sectionLines "WORLD NEWS:" prompt = Some (map specifiedShortLine world) /\
     (FeedFailure w "http://arxiv.org/rss/cs.AI" -> sectionLines "AI:" prompt = Some []) /\
     (FeedFailure w "https://news.ycombinator.com/rss" ->
      sectionLines "YC/TECH:" prompt = Some []) /\
     (FeedFailure w "https://rss.nytimes.com/services/xml/rss/nyt/World.xml" ->
      sectionLines "WORLD NEWS:" prompt = Some [])) /\
  (exists prompt,
     chats (snd (HuntBrief.buildBrief w st))
     = (chats st ++ [completionRequest prompt])%list /\
     sectionLines "AI:" prompt = Some (map specifiedLine ai) /\
     sectionLines "YC/TECH:" prompt = Some (map specifiedLine yc) /\
     sectionLines "WORLD NEWS:" prompt = Some (map specifiedLine world) /\
     (FeedFailure w "http://arxiv.org/rss/cs.AI" -> sectionLines "AI:" prompt = Some []) /\
     (FeedFailure w "https://news.ycombinator.com/rss" ->
      sectionLines "YC/TECH:" prompt = Some []) /\
     (FeedFailure w "https://rss.nytimes.com/services/xml/rss/nyt/World.xml" ->
      sectionLines "WORLD NEWS:" prompt = Some [])).
Proof.
  intros Gai Gyc Gworld Hai Hyc Hworld Lai Lyc Lworld.
  destruct (buildBrief_sections w st ai yc world Gai Gyc Gworld) as (Hdaily & Hmarkets & Hhunt);
    try (rewrite firstn_all2 by assumption; assumption).
  rewrite !firstn_all2 in Hdaily, Hmarkets, Hhunt by assumption.
  pose proof (gives_failure w _ ai Gai) as Fai.
  pose proof (gives_failure w _ yc Gyc) as Fyc.
  pose proof (gives_failure w _ world Gworld) as Fworld.
  split; [|split].
  - destruct Hdaily as (prompt & Hchats & Sai & Syc & Sworld). exists prompt.
    repeat split; try assumption; intros Hfail.
    + now rewrite Sai, (Fai Hfail).
    + now rewrite Syc, (Fyc Hfail).
    + now rewrite Sworld, (Fworld Hfail).
  - destruct Hmarkets as (prompt & Hchats & Sai & Syc & Sworld). exists prompt.
    repeat split; try assumption; intros Hfail.
    + now rewrite Sai, (Fai Hfail).
    + now rewrite Syc, (Fyc Hfail).
    + now rewrite Sworld, (Fworld Hfail).
  - destruct Hhunt as (prompt & Hchats & Sai & Syc & Sworld). exists prompt.
    repeat split; try assumption; intros Hfail.
    + now rewrite Sai, (Fai Hfail).
    + now rewrite Syc, (Fyc Hfail).
    + now rewrite Sworld, (Fworld Hfail).
Qed.

(** Three stories in every feed: the first handler of [part_000] leaves the
    links out. *)
Lemma buildBrief_short_feed_witness :
  exists prompt,
    chats (snd (MarketsBrief.buildBrief quietDay initial))
    = (chats initial ++ [completionRequest prompt])%list /\
    sectionLines "AI:" prompt = Some ["AI 1 - Story 1"; "AI 2 - Story 2"; "AI 3 - Story 3"] /\
    sectionLines "YC/TECH:" prompt
    = Some ["HN 1 - Story 1"; "HN 2 - Story 2"; "HN 3 - Story 3"] /\
    sectionLines "WORLD NEWS:" prompt
    = Some ["World 1 - Story 1"; "World 2 - Story 2"; "World 3 - Story 3"].
Proof.
  destruct (buildBrief_short_feed quietDay initial
              (stories "AI" 3) (stories "HN" 3) (stories "World" 3))
    as (_ & (prompt & Hchats & Sai & Syc & Sworld & _) & _).
  1-3: apply GivesItems; econstructor; reflexivity.
  1-3: cbv [stories seq map firstn numbered];
    repeat (apply Forall_cons || apply Forall_nil);
    repeat split;
    (eexists _, _; (split; [reflexivity|]); (split; [discriminate | reflexivity])).
  1-3: cbn; lia.
  exists prompt. repeat split; assumption.
Defined.

(** With no network at all, the three sections are empty. *)
Example buildBrief_no_feed :
  exists prompt,
    chats (snd (DailyBrief.buildBrief offline initial)) = [completionRequest prompt] /\
    sectionLines "AI:" prompt = Some [] /\
    sectionLines "YC/TECH:" prompt = Some [] /\
    sectionLines "WORLD NEWS:" prompt = Some [].
Proof. eexists. repeat split. Qed.

(** ** The requests of the market collector of [daily-brief.ts] *)

Lemma sends_nothing {A : Type} (m : M A) :
  sends (fun _ => False) m -> forall st, requests (snd (m st)) = requests st.
Proof.
  intros H st. destruct (H st) as (new & -> & Hnew).
  destruct new as [|r new]; [apply app_nil_r|]. now inversion Hnew.
Qed.

(** A request followed by statements that send nothing. *)
Lemma bind_fetch_requests {B : Type} (w : World) (req : Request) (k : Response -> M B) :
  (forall response, sends (fun _ => False) (k response)) ->
  forall st,
    requests (snd ((response <- fetch_ w req ;; k response) st))
    = (requests st ++ [req])%list.
Proof.
  intros Hk st. unfold bind, fetch_.
  destruct (fetch w req) as [response | e]; [|reflexivity].
  now rewrite (sends_nothing _ (Hk response)).
Qed.

Lemma fetchSymbol_requests (w : World) (symbol : string) (st : State) :
  requests (snd (DailyBrief.fetchSymbol w symbol st))
  = (requests st ++ [GET (DailyBrief.timeSeriesUrl w symbol)])%list.
Proof.
  unfold DailyBrief.fetchSymbol. apply bind_fetch_requests.
  intros response. sends_all.
Qed.

(** X14: the market collector of [daily-brief.ts] asks for SPY, then for
    QQQ, then for bitcoin, one request each, and stops at the first of them
    that fails: it sends between one and three requests, in that order,
    only the first when SPY fails, and none for bitcoin when QQQ fails. *)
Theorem fetchMarketData_requests (w : World) (st : State) :
  exists n,
    (1 <= n <= 3)%nat /\
    requests (snd (DailyBrief.fetchMarketData w st))
    = (requests st ++
       firstn n [GET (DailyBrief.timeSeriesUrl w "SPY");
                 GET (DailyBrief.timeSeriesUrl w "QQQ");
                 GET DailyBrief.coinGeckoUrl])%list /\
    (SymbolFailure w "SPY" -> n = 1%nat) /\
    (SymbolFailure w "QQQ" -> (n <= 2)%nat).
Proof.
  unfold DailyBrief.fetchMarketData, try_catch, bind at 1.
  cbn [DailyBrief.forSymbols]. unfold bind at 1.
  pose proof (fetchSymbol_requests w "SPY" st) as H1.
  destruct (DailyBrief.fetchSymbol w "SPY" st) as [[q1 | e1] st1] eqn:Hspy; cbn in H1.
  2:{ exists 1%nat. cbn. repeat split; try lia. exact H1. }
  unfold bind at 1.
  pose proof (fetchSymbol_requests w "QQQ" st1) as H2.
  destruct (DailyBrief.fetchSymbol w "QQQ" st1) as [[q2 | e2] st2] eqn:Hqqq; cbn in H2.
  2:{ exists 2%nat. cbn. repeat split; try lia.
      - rewrite H2, H1, <- app_assoc. reflexivity.
      - intros Hfail. destruct (fetchSymbol_throws w "SPY" Hfail st) as (e & s & H).
        congruence. }
  unfold ret at 1.
  exists 3%nat. split; [lia|]. split; [|split].
  - match goal with
    | |- context [bind (fetch_ w ?req) ?k ?s] =>
        assert (H3 : requests (snd (bind (fetch_ w req) k s)) = (requests s ++ [req])%list)
          by (apply bind_fetch_requests; intros response; unfold DailyBrief.entry; sends_all);
        destruct (bind (fetch_ w req) k s) as [[a | e] st3]
    end; cbn in H3 |- *; rewrite H3, H2, H1, <- !app_assoc; reflexivity.
  - intros Hfail. destruct (fetchSymbol_throws w "SPY" Hfail st) as (e & s & H).
    congruence.
  - intros Hfail. destruct (fetchSymbol_throws w "QQQ" Hfail st1) as (e & s & H).
    congruence.
Qed.

(** SPY is throttled: QQQ and bitcoin are not asked for. *)
Lemma fetchMarketData_requests_witness :
  requests (snd (DailyBrief.fetchMarketData spyThrottled initial))
  = [GET (DailyBrief.timeSeriesUrl spyThrottled "SPY")].
Proof.
  destruct (fetchMarketData_requests spyThrottled initial) as (n & _ & Hreq & Hspy & _).
  rewrite Hreq, Hspy; [reflexivity|].
  now apply (SymbolStatus spyThrottled "SPY"
               {| ok := false; status := 429; statusText := "Too Many Requests";
                  text := Ok "rate limit"; json := Throw (Error "Unexpected token r") |}).
Defined.

(** ** More about the collectors *)

(** X4: none of the collectors the Aggregator waits for can throw: the join of
    [buildBrief] needs no branch for a failure. *)
Theorem collectors_never_throw (w : World) (u : string) :
  total (fetchAndParseRSS w u) /\
  total (DailyBrief.fetchMarketData w) /\
  total (DailyBrief.fetchProductHuntPosts w) /\
  total (MarketsBrief.fetchMarketData w) /\
  total (HuntBrief.fetchMarketData w) /\
  total (HuntBrief.fetchProductHuntPosts w).
Proof.
  split; [apply fetchAndParseRSS_total|].
  repeat split; exact (total_try_return _ (fun error => [PStr _; PExn error]) _).
Qed.

(** X5: an error payload in an answer of the Product Hunt API, whatever the
    status that comes with it, gives the fixed placeholder. *)
Theorem fetchProductHuntPosts_error_payload (w : World) (st : State) :
  HuntErrors w ->
  fst (DailyBrief.fetchProductHuntPosts w st) = Ok "Product Hunt data unavailable" /\
  fst (HuntBrief.fetchProductHuntPosts w st) = Ok "Product Hunt data unavailable".
Proof.
  intros Herrors.
  assert (Hposts : forall after before s,
             exists e s', productHuntPosts w after before s = (Throw e, s')).
  { intros after before s. unfold productHuntPosts, bind at 1, fetch_.
    match goal with |- context [fetch w ?req] =>
      destruct (Herrors req eq_refl) as (r & data & -> & Hj & Herr) end.
    unfold bind at 1, settled. rewrite Hj.
    assert (Hdata : data <> JNull) by (intros ->; discriminate Herr).
    replace (get_opt (Some data) "errors") with (ownProperty data "errors") in Herr
      by (now destruct data).
    unfold bind at 1. rewrite (get_defined data _ _ Hdata).
    unfold bind at 1 2. rewrite Herr. cbn. now eexists _, _. }
  split.
  - unfold DailyBrief.fetchProductHuntPosts, try_catch, bind at 1 2, Date_now.
    match goal with |- context [productHuntPosts w ?a ?b ?s] =>
      destruct (Hposts a b s) as (e & s' & ->) end.
    reflexivity.
  - unfold HuntBrief.fetchProductHuntPosts, try_catch, bind at 1 2, Date_now.
    match goal with |- context [productHuntPosts w ?a ?b ?s] =>
      destruct (Hposts a b s) as (e & s' & ->) end.
    reflexivity.
Qed.

(** An invalid token, as the Product Hunt API reports it. *)
Lemma fetchProductHuntPosts_error_payload_witness :
  fst (DailyBrief.fetchProductHuntPosts
         (withNetwork
            (fun _ => Ok (jsonResponse (JObj [("errors", JArr [JStr "invalid_oauth_token"])])))
            offline) initial)
  = Ok "Product Hunt data unavailable".
Proof.
  refine (proj1 (fetchProductHuntPosts_error_payload _ initial _)).
  intros req _. now eexists _, _.
Defined.

(** ** More about the feed fetcher *)

(** X7: when the request for a feed, the reading of its body or the parse
    is rejected, [fetchAndParseRSS] writes one entry to the error console,
    with the URL and the exception; when the parse gives no document
    ([null], as for an empty body), it writes one entry too, with the
    TypeError of reading [rss] of [null]; when the parse gives a document,
    it writes nothing, also when the document lacks the rss/channel/item
    structure. *)
Theorem fetchAndParseRSS_logs (w : World) (u : string) (st : State) :
  (forall e,
     fetch w (GET u) = Throw e \/
     (exists r, fetch w (GET u) = Ok r /\ text r = Throw e) \/
     (exists r xml, fetch w (GET u) = Ok r /\ text r = Ok xml /\
                    parseStringPromise w xml = Throw e) ->
     console (snd (fetchAndParseRSS w u st))
     = (console st ++
        [(ERROR, [PStr ("Error fetching RSS from " ++ u ++ ":"); PExn e])])%list) /\
  (forall r xml,
     fetch w (GET u) = Ok r -> text r = Ok xml -> parseStringPromise w xml = Ok None ->
     console (snd (fetchAndParseRSS w u st))
     = (console st ++
        [(ERROR, [PStr ("Error fetching RSS from " ++ u ++ ":");
                  PExn (Error "Cannot read properties of null (reading 'rss')")])])%list) /\
  (forall r xml doc,
     fetch w (GET u) = Ok r -> text r = Ok xml ->
     parseStringPromise w xml = Ok (Some doc) ->
     console (snd (fetchAndParseRSS w u st)) = console st).
Proof.
  unfold fetchAndParseRSS, try_catch, bind, fetch_, settled. split; [|split].
  - intros e [Hf | [(r & Hf & Ht) | (r & xml & Hf & Ht & Hp)]]; rewrite Hf.
    + reflexivity.
    + rewrite Ht. reflexivity.
    + rewrite Ht, Hp. reflexivity.
  - intros r xml Hf Ht Hp. rewrite Hf, Ht, Hp. reflexivity.
  - intros r xml doc Hf Ht Hp. rewrite Hf, Ht, Hp. reflexivity.
Qed.

(** With no network at all. *)
Lemma fetchAndParseRSS_logs_witness :
  console (snd (fetchAndParseRSS offline "http://arxiv.org/rss/cs.AI" initial))
  = [(ERROR, [PStr "Error fetching RSS from http://arxiv.org/rss/cs.AI:";
              PExn (Error "fetch failed")])].
Proof.
  refine (proj1 (fetchAndParseRSS_logs offline "http://arxiv.org/rss/cs.AI" initial)
            (Error "fetch failed") _).
  now left.
Defined.

(** A feed with an empty body. *)
Example fetchAndParseRSS_blank_body :
  fetchAndParseRSS blankFeed "http://arxiv.org/rss/cs.AI" initial
  = (Ok [],
     {| console :=
          [(ERROR, [PStr "Error fetching RSS from http://arxiv.org/rss/cs.AI:";
                    PExn (Error "Cannot read properties of null (reading 'rss')")])];
        requests := [GET "http://arxiv.org/rss/cs.AI"];
        chats := [];
        ticks := 0 |}).
Proof. reflexivity. Qed.

(** ** The listing of Product Hunt *)

Lemma renderPost_line (w : World) (edge node : JSON) (line : string) (st : State) :
  ownProperty edge "node" = Some node -> node <> JNull ->
  PostLine w node line ->
  renderPost w edge st = (Ok line, st).
Proof.
  intros Hnode Hnn [name u tagline votes Pn Pu Pt Pv].
  unfold renderPost, bind at 1.
  assert (Hedge : destructure edge "node" st = (Ok (Some node), st)).
  { destruct edge; try discriminate Hnode; unfold destructure, ret; now rewrite Hnode. }
  rewrite Hedge.
  unfold Prints in *.
  unfold bind at 1. rewrite (get_defined node _ _ Hnn).
  unfold bind at 1, toString_, settled. rewrite Pn.
  unfold bind at 1. rewrite (get_defined node _ _ Hnn).
  unfold bind at 1. rewrite Pu.
  unfold bind at 1. rewrite (get_defined node _ _ Hnn).
  unfold bind at 1. rewrite Pt.
  unfold bind at 1. rewrite (get_defined node _ _ Hnn).
  unfold bind at 1. rewrite Pv.
  reflexivity.
Qed.

Lemma renderPost_unprintable (w : World) (edge node : JSON) (st : State) :
  ownProperty edge "node" = Some node -> node <> JNull ->
  Unprintable w (ownProperty node "name") \/
  Unprintable w (ownProperty node "url") \/
  Unprintable w (ownProperty node "tagline") \/
  Unprintable w (ownProperty node "votesCount") ->
  exists e, renderPost w edge st = (Throw e, st).
Proof.
  intros Hnode Hnn Hun.
  unfold renderPost, bind at 1.
  assert (Hedge : destructure edge "node" st = (Ok (Some node), st)).
  { destruct edge; try discriminate Hnode; unfold destructure, ret; now rewrite Hnode. }
  rewrite Hedge. unfold Unprintable in Hun.
  unfold bind at 1. rewrite (get_defined node _ _ Hnn).
  unfold bind at 1, toString_, settled.
  destruct (Value_toString (finiteToString w) (ownProperty node "name")) as [name | e] eqn:Pn;
    [|now eexists].
  unfold bind at 1. rewrite (get_defined node _ _ Hnn).
  unfold bind at 1.
  destruct (Value_toString (finiteToString w) (ownProperty node "url")) as [u | e] eqn:Pu;
    [|now eexists].
  unfold bind at 1. rewrite (get_defined node _ _ Hnn).
  unfold bind at 1.
  destruct (Value_toString (finiteToString w) (ownProperty node "tagline")) as [t | e] eqn:Pt;
    [|now eexists].
  unfold bind at 1. rewrite (get_defined node _ _ Hnn).
  unfold bind at 1.
  destruct (Value_toString (finiteToString w) (ownProperty node "votesCount")) as [v | e] eqn:Pv;
    [|now eexists].
  exfalso. destruct Hun as [[e H] | [[e H] | [[e H] | [e H]]]]; congruence.
Qed.

Lemma mapM_renderPost (w : World) (edges nodes : list JSON) (lines : list string)
  (st : State) :
  Forall2 (fun edge node => ownProperty edge "node" = Some node /\ node <> JNull)
          edges nodes ->
  Forall2 (PostLine w) nodes lines ->
  mapM (renderPost w) edges st = (Ok lines, st).
Proof.
  intros Hedges. revert lines.
  induction Hedges as [|edge node edges nodes [Hn Hnn] _ IH]; intros lines Hlines;
    inversion Hlines as [|? line ? lines' Hline Hrest]; subst; [reflexivity|].
  cbn [mapM]. unfold bind at 1. rewrite (renderPost_line w edge node line st Hn Hnn Hline).
  unfold bind at 1. now rewrite (IH lines' Hrest).
Qed.

Lemma mapM_renderPost_throws (w : World) (edges nodes : list JSON) (st : State) :
  Forall2 (fun edge node => ownProperty edge "node" = Some node /\ node <> JNull)
          edges nodes ->
  Exists (fun node =>
            Unprintable w (ownProperty node "name") \/
            Unprintable w (ownProperty node "url") \/
            Unprintable w (ownProperty node "tagline") \/
            Unprintable w (ownProperty node "votesCount")) nodes ->
  exists e st', mapM (renderPost w) edges st = (Throw e, st').
Proof.
  intros Hedges. revert st.
  induction Hedges as [|edge node edges nodes [Hn Hnn] _ IH]; intros st Hex;
    inversion Hex as [? ? Hun | ? ? Hrest]; subst.
  - cbn [mapM]. unfold bind at 1.
    destruct (renderPost_unprintable w edge node st Hn Hnn Hun) as [e ->].
    now eexists _, _.
  - cbn [mapM]. unfold bind at 1.
    destruct (renderPost w edge st) as [[line | e] st1]; [|now eexists _, _].
    unfold bind at 1. destruct (IH st1 Hrest) as (e & st' & ->). now eexists _, _.
Qed.

(** The run of [fetchProductHuntPosts] from the request to the posts. *)
Lemma productHuntPosts_edges (w : World) (after before : string)
  (data : JSON) (nodes : list JSON) (st : State) :
  HuntAnswers w data -> Posts data nodes ->
  exists edges st1,
    Forall2 (fun edge node => ownProperty edge "node" = Some node /\ node <> JNull)
            edges nodes /\
    productHuntPosts w after before st
    = (rendered <- mapM (renderPost w) edges ;; ret (join nl rendered)) st1.
Proof.
  intros Hanswers (Herrors & d & posts & edges & Hd & Hdn & Hp & Hpn & He & Hnodes).
  unfold productHuntPosts, bind at 1, fetch_.
  match goal with |- context [fetch w ?req] =>
    destruct (Hanswers req eq_refl) as (r & -> & Hj) end.
  unfold bind at 1, settled. rewrite Hj.
  assert (Hdata : data <> JNull) by (intros ->; discriminate Hd).
  unfold bind at 1. rewrite (get_defined data _ _ Hdata).
  unfold bind at 1. rewrite Herrors. unfold ret at 1.
  unfold bind at 1. rewrite (get_defined data _ _ Hdata), Hd.
  unfold bind at 1. rewrite (get_defined d _ _ Hdn), Hp.
  unfold bind at 1. rewrite (get_defined posts _ _ Hpn), He.
  now eexists edges, _.
Qed.

(** X17: when the Product Hunt API answers, with whatever status, a body
    that reports no error and lists posts: if every field of every post can
    be printed, [fetchProductHuntPosts] returns one line per post, in the
    order of the answer, [{name} ({url}) - {tagline} (Votes: {votesCount})],
    with line breaks between them (a field a post does not have reads
    "undefined", and an empty list of posts gives the empty text); and if
    a field of a post cannot be printed, it returns "Product Hunt data
    unavailable". *)
Theorem fetchProductHuntPosts_listing (w : World) (st : State)
  (data : JSON) (nodes : list JSON) :
  HuntAnswers w data -> Posts data nodes ->
  (forall lines, Forall2 (PostLine w) nodes lines ->
     fst (DailyBrief.fetchProductHuntPosts w st) = Ok (unlines lines) /\
     fst (HuntBrief.fetchProductHuntPosts w st) = Ok (unlines lines)) /\
  (Exists (fun node =>
             Unprintable w (ownProperty node "name") \/
             Unprintable w (ownProperty node "url") \/
             Unprintable w (ownProperty node "tagline") \/
             Unprintable w (ownProperty node "votesCount")) nodes ->
   fst (DailyBrief.fetchProductHuntPosts w st) = Ok "Product Hunt data unavailable" /\
   fst (HuntBrief.fetchProductHuntPosts w st) = Ok "Product Hunt data unavailable").
Proof.
  intros Hanswers Hposts.
  assert (Hlisting : forall after before s lines, Forall2 (PostLine w) nodes lines ->
            exists s', productHuntPosts w after before s = (Ok (unlines lines), s')).
  { intros after before s lines Hlines.
    destruct (productHuntPosts_edges w after before data nodes s Hanswers Hposts)
      as (edges & s1 & Hedges & ->).
    unfold bind. rewrite (mapM_renderPost w edges nodes lines s1 Hedges Hlines).
    rewrite join_unlines. now eexists. }
  assert (Hthrows : forall after before s,
            Exists (fun node =>
                      Unprintable w (ownProperty node "name") \/
                      Unprintable w (ownProperty node "url") \/
                      Unprintable w (ownProperty node "tagline") \/
                      Unprintable w (ownProperty node "votesCount")) nodes ->
            exists e s', productHuntPosts w after before s = (Throw e, s')).
  { intros after before s Hex.
    destruct (productHuntPosts_edges w after before data nodes s Hanswers Hposts)
      as (edges & s1 & Hedges & ->).
    unfold bind.
    destruct (mapM_renderPost_throws w edges nodes s1 Hedges Hex) as (e & s' & ->).
    now eexists _, _. }
  split.
  - intros lines Hlines. split.
    + unfold DailyBrief.fetchProductHuntPosts, try_catch, bind at 1 2, Date_now.
      match goal with |- context [productHuntPosts w ?a ?b ?s] =>
        destruct (Hlisting a b s lines Hlines) as (s' & ->) end.
      reflexivity.
    + unfold HuntBrief.fetchProductHuntPosts, try_catch, bind at 1 2, Date_now.
      match goal with |- context [productHuntPosts w ?a ?b ?s] =>
        destruct (Hlisting a b s lines Hlines) as (s' & ->) end.
      reflexivity.
  - intros Hex. split.
    + unfold DailyBrief.fetchProductHuntPosts, try_catch, bind at 1 2, Date_now.
      match goal with |- context [productHuntPosts w ?a ?b ?s] =>
        destruct (Hthrows a b s Hex) as (e & s' & ->) end.
      reflexivity.
    + unfold HuntBrief.fetchProductHuntPosts, try_catch, bind at 1 2, Date_now.
      match goal with |- context [productHuntPosts w ?a ?b ?s] =>
        destruct (Hthrows a b s Hex) as (e & s' & ->) end.
      reflexivity.
Qed.

(** Two posts, the second without a tagline. *)
Lemma fetchProductHuntPosts_listing_witness :
  fst (DailyBrief.fetchProductHuntPosts huntDay initial)
  = Ok (unlines ["Alpha (https://ph.example/a) - First (Votes: 120)";
                 "Beta (https://ph.example/b) - undefined (Votes: 7)"]).
Proof.
  refine (proj1 (proj1 (fetchProductHuntPosts_listing huntDay initial twoPosts
            [JObj [("name", JStr "Alpha"); ("tagline", JStr "First");
                   ("url", JStr "https://ph.example/a");
                   ("votesCount", JNum (Number.of_Z 120))];
             JObj [("name", JStr "Beta"); ("url", JStr "https://ph.example/b");
                   ("votesCount", JNum (Number.of_Z 7))]] _ _) _ _)).
  - intros req Hreq. cbn. rewrite Hreq. cbn. now eexists.
  - split; [reflexivity|]. eexists _, _, _.
    repeat split; try reflexivity; try discriminate.
    repeat constructor; discriminate.
  - constructor; [|constructor; [|constructor]].
    + now apply (PostLineOf huntDay _ "Alpha" "https://ph.example/a" "First" "120").
    + now apply (PostLineOf huntDay _ "Beta" "https://ph.example/b" "undefined" "7").
Defined.

